(** * Kalshi odds extension: conversion, fee and ticket-validation core

    A shallow embedding of the numeric core of
    [kalshi-extension-package/content/content.js]: the probability/odds
    conversions, the after-fee odds calculation with its validation layer,
    the fee estimate, the ticket-data validator, the last quantity fallback
    and the ticket content hash with the open/closed state machine.
    A second group of definitions covers the validators for odds,
    probabilities and fees with the validation of a group of values, the
    after-fee odds computed from a ticket, the limit-order helper (the odds
    typed in, the suggested price, the placement of the panel and its
    z-index), the fallback-detection and fee-availability state, and the
    text patterns of the page scan.

    JavaScript numbers are IEEE-754 binary64 values.  Every function of the
    source is translated once, over an interface [JSNumber] of the
    operations the source applies to numbers, and the interface has two
    instances:

    - [float_JSNumber]: Rocq's primitive binary64 floats, the numbers the
      script really computes with.  It is used for every concrete
      evaluation (scenarios and counterexamples).
    - [Q_JSNumber]: exact rational arithmetic, the idealisation in which the
      documented formulas are read.  It is used for statements quantified
      over all numbers whose proof needs arithmetic.

    Statements that only depend on control flow are proved for every
    instance at once. *)

From Stdlib Require Import ZArith QArith Qround Qabs Floats Uint63 Bool List String Ascii DecimalString Lia Lra Psatz.

Set Warnings "-inexact-float,-register-all".
Import ListNotations.

Set Implicit Arguments.

(** ** The number interface *)

Class JSNumber (num : Type) := {
  of_Z : Z -> num;                  (* integer literals *)
  add : num -> num -> num;
  sub : num -> num -> num;
  mul : num -> num -> num;
  div : num -> num -> num;
  neg : num -> num;                 (* unary minus *)
  Math_abs : num -> num;
  Math_round : num -> num;
  Math_ceil : num -> num;
  ltb : num -> num -> bool;         (* a < b;  a > b is [ltb b a] *)
  leb : num -> num -> bool;         (* a <= b; a >= b is [leb b a] *)
  eqb : num -> num -> bool;         (* a === b on numbers *)
  isNaN : num -> bool;
  isFinite : num -> bool;
  Number_isInteger : num -> bool;
  (* (x.toString().split('.')[1] || '').length *)
  decimalPlaces : num -> nat
}.

Declare Scope js_scope.
Delimit Scope js_scope with js.
Infix "+" := add : js_scope.
Infix "-" := sub : js_scope.
Infix "*" := mul : js_scope.
Infix "/" := div : js_scope.
Notation "- a" := (neg a) : js_scope.
Infix "<?" := ltb (at level 70, no associativity) : js_scope.
Infix "<=?" := leb (at level 70, no associativity) : js_scope.
Infix "=?" := eqb (at level 70, no associativity) : js_scope.
Notation "a >? b" := (ltb b a) (at level 70, no associativity) : js_scope.
Notation "a >=? b" := (leb b a) (at level 70, no associativity) : js_scope.

(** A decimal literal [m / 10^d] of the source, such as [0.001] = [dec 1 3].
    Both operands are exact in binary64 and division rounds correctly, so on
    floats this is the double the JavaScript parser produces. *)
Definition dec {num} `{JSNumber num} (m : Z) (d : nat) : num :=
  div (of_Z m) (of_Z (10 ^ Z.of_nat d)).

(** ** Instance 1: binary64 *)

Module F64.

(** An integer as a double: exactly below 2^53 (by the primitive
    conversion), rounded to nearest beyond. *)
Definition of_Z (z : Z) : float :=
  if (Z.abs z <? 2 ^ 53)%Z
  then
    let magnitude := PrimFloat.of_uint63 (Uint63.of_Z (Z.abs z)) in
    if (z <? 0)%Z then PrimFloat.opp magnitude else magnitude
  else SF2Prim (binary_normalize prec emax z 0%Z false).

(** [x = num / 2^k] exactly, for a finite non-zero [x] with a fractional
    part; [None] when [x] is zero, infinite, NaN or already integral. *)
Definition fraction (x : float) : option (Z * Z) :=
  match Prim2SF x with
  | S754_finite s m e =>
      if (e <? 0)%Z
      then Some (cond_Zopp s (Zpos m), (2 ^ (- e))%Z)
      else None
  | _ => None
  end.

Definition signed_zero (negative : bool) : float :=
  if negative then PrimFloat.neg_zero else PrimFloat.zero.

Definition of_rounded (x : float) (r : Z) : float :=
  if (r =? 0)%Z then signed_zero (x <? PrimFloat.zero)%float else of_Z r.

(** Math.round: the nearest integer, ties towards +Infinity. *)
Definition Math_round (x : float) : float :=
  match fraction x with
  | Some (n, d) => of_rounded x ((2 * n + d) / (2 * d))%Z
  | None => x
  end.

Definition Math_ceil (x : float) : float :=
  match fraction x with
  | Some (n, d) => of_rounded x (- ((- n) / d))%Z
  | None => x
  end.

Definition Number_isInteger (x : float) : bool :=
  is_finite x &&
  match fraction x with
  | Some (n, d) => (n mod d =? 0)%Z
  | None => true
  end.

(** The nearest integer to [x * 10^d], computed exactly. *)
Definition scaled (x : float) (d : nat) : Z :=
  match Prim2SF x with
  | S754_finite s m e =>
      let p := (10 ^ Z.of_nat d)%Z in
      let n := (cond_Zopp s (Zpos m) * p)%Z in
      if (e <? 0)%Z
      then ((2 * n + 2 ^ (- e)) / (2 * 2 ^ (- e)))%Z
      else (n * 2 ^ e)%Z
  | _ => 0%Z
  end.

(** Digits after the point in [x.toString()], for [x] printed in fixed
    notation: the least [d] such that a decimal with [d] fractional digits
    reads back as [x] (the shortest round-trip rendering). *)
Fixpoint places_from (x : float) (d fuel : nat) : nat :=
  match fuel with
  | O => d
  | S fuel' =>
      if (of_Z (scaled x d) / of_Z (10 ^ Z.of_nat d) =? x)%float
      then d
      else places_from x (S d) fuel'
  end.

Definition decimalPlaces (x : float) : nat := places_from x 0 17.

End F64.

#[export] Instance float_JSNumber : JSNumber float := {
  of_Z := F64.of_Z;
  add := PrimFloat.add;
  sub := PrimFloat.sub;
  mul := PrimFloat.mul;
  div := PrimFloat.div;
  neg := PrimFloat.opp;
  Math_abs := PrimFloat.abs;
  Math_round := F64.Math_round;
  Math_ceil := F64.Math_ceil;
  ltb := PrimFloat.ltb;
  leb := PrimFloat.leb;
  eqb := PrimFloat.eqb;
  isNaN := PrimFloat.is_nan;
  isFinite := PrimFloat.is_finite;
  Number_isInteger := F64.Number_isInteger;
  decimalPlaces := F64.decimalPlaces
}.

(** ** Instance 2: exact rationals *)

Module Exact.

Definition Math_round (x : Q) : Q := inject_Z (Qfloor (x + (1 # 2))).

Definition Math_ceil (x : Q) : Q := inject_Z (Qceiling x).

Definition Number_isInteger (x : Q) : bool :=
  Qeq_bool x (inject_Z (Qfloor x)).

Definition ltb (x y : Q) : bool :=
  match Qcompare x y with Lt => true | _ => false end.

Fixpoint places_from (x : Q) (d fuel : nat) : nat :=
  match fuel with
  | O => d
  | S fuel' =>
      if Number_isInteger (x * inject_Z (10 ^ Z.of_nat d))
      then d
      else places_from x (S d) fuel'
  end.

(** Digits after the point of the decimal expansion, capped at 17 (the
    longest rendering of a double). *)
Definition decimalPlaces (x : Q) : nat := places_from x 0 17.

End Exact.

#[export] Instance Q_JSNumber : JSNumber Q := {
  of_Z := fun z => z # 1;
  add := Qplus;
  sub := Qminus;
  mul := Qmult;
  div := Qdiv;
  neg := Qopp;
  Math_abs := Qabs;
  Math_round := Exact.Math_round;
  Math_ceil := Exact.Math_ceil;
  ltb := Exact.ltb;
  leb := Qle_bool;
  eqb := Qeq_bool;
  isNaN := fun _ => false;
  isFinite := fun _ => true;
  Number_isInteger := Exact.Number_isInteger;
  decimalPlaces := Exact.decimalPlaces
}.

(** ** Odds conversion engine *)

Section OddsEngine.

Context {num : Type} `{JSNumber num}.
Local Open Scope js_scope.

(** [probabilityToAmericanOdds(p)] (content.js, line 5646). *)
Definition probabilityToAmericanOdds (p : num) : option num :=
  if (p <=? of_Z 0) || (p >=? of_Z 1) then None
  else
    let odds :=
      if Math_abs (p - dec 5 1) <? dec 1 3 then of_Z 100
      else if p <? dec 5 1 then of_Z 100 * (of_Z 1 - p) / p
      else of_Z (-100) * p / (of_Z 1 - p) in
    Some (Math_round odds).

(** [americanOddsToProbability(americanOdds)] (line 8966); the argument is
    a number, so the [typeof] test is not modelled. *)
Definition americanOddsToProbability (americanOdds : num) : option num :=
  if isNaN americanOdds || (americanOdds =? of_Z 0) || negb (isFinite americanOdds)
  then None
  else if americanOdds >? of_Z 0
  then Some (of_Z 100 / (americanOdds + of_Z 100))
  else Some (Math_abs americanOdds / (Math_abs americanOdds + of_Z 100)).

End OddsEngine.

(** ** After-fee odds (content.js, lines 5675-5901) *)

(** The [error] of a failed validation; the rendered text is not modelled. *)
Inductive ValidationError :=
| RiskMismatch | RiskOutOfRange
| ProfitMismatch | ProfitNotPositive
| OddsMismatch | OddsOutOfRange
| MathematicalInconsistency.

(** [{ isValid: true }] or [{ isValid: false, error }]. *)
Inductive Validation :=
| Valid
| Invalid (error : ValidationError).

(** The [console.warn] calls of [calculateAfterFeeOdds], by message. *)
Inductive Warning :=
| WarnInvalidInputTypes
| WarnPriceOutOfRange
| WarnNegativeFee
| WarnRiskValidationFailed (error : ValidationError)
| WarnProfitValidationFailed (error : ValidationError)
| WarnUnprofitable
| WarnNonPositiveProfit
| WarnOddsValidationFailed (error : ValidationError)
| WarnConsistencyCheckFailed (error : ValidationError)
| WarnHighRisk
| WarnExtremeOdds.

(** The [options] argument; [None] is a missing [enableValidation]. *)
Record AfterFeeOptions := { enableValidation : option bool }.

Definition default_options : AfterFeeOptions := {| enableValidation := None |}.

Section AfterFeeOdds.

Context {num : Type} `{JSNumber num}.
Local Open Scope js_scope.

Definition validateCalculatedRisk (price feePerContract calculatedRisk : num) : Validation :=
  let expectedRisk := price + feePerContract in
  let tolerance := dec 1 4 in
  if Math_abs (calculatedRisk - expectedRisk) >? tolerance then Invalid RiskMismatch
  else if (calculatedRisk <=? of_Z 0) || (calculatedRisk >=? of_Z 1) then Invalid RiskOutOfRange
  else Valid.

Definition validateCalculatedProfit (calculatedRisk calculatedProfit : num) : Validation :=
  let expectedProfit := of_Z 1 - calculatedRisk in
  let tolerance := dec 1 4 in
  if Math_abs (calculatedProfit - expectedProfit) >? tolerance then Invalid ProfitMismatch
  else if calculatedProfit <=? of_Z 0 then Invalid ProfitNotPositive
  else Valid.

Definition validateAfterFeeOdds (calculatedRisk calculatedProfit afterFeeOdds : num) : Validation :=
  let expectedOdds :=
    if calculatedProfit >=? calculatedRisk
    then of_Z 100 * (calculatedProfit / calculatedRisk)
    else of_Z (-100) * (calculatedRisk / calculatedProfit) in
  let tolerance := dec 15 1 in
  if Math_abs (afterFeeOdds - expectedOdds) >? tolerance then Invalid OddsMismatch
  else if Math_abs afterFeeOdds >? of_Z 10000 then Invalid OddsOutOfRange
  else Valid.

Definition validateMathematicalConsistency (price feePerContract afterFeeOdds : num) : Validation :=
  let impliedProbability :=
    if afterFeeOdds >? of_Z 0
    then of_Z 100 / (afterFeeOdds + of_Z 100)
    else (- afterFeeOdds) / ((- afterFeeOdds) + of_Z 100) in
  let effectiveProbability := of_Z 1 / (price + feePerContract) in
  let tolerance := dec 2 2 in
  if Math_abs (impliedProbability - effectiveProbability) >? tolerance
  then Invalid MathematicalInconsistency
  else Valid.

Definition validationEnabled (options : AfterFeeOptions) : bool :=
  match enableValidation options with
  | Some false => false
  | _ => true
  end.

(** The raw odds of line 5864, before rounding. *)
Definition rawAfterFeeOdds (calculatedRisk calculatedProfit : num) : num :=
  if calculatedProfit >=? calculatedRisk
  then of_Z 100 * (calculatedProfit / calculatedRisk)
  else of_Z (-100) * (calculatedRisk / calculatedProfit).

(** The closing warnings of the validation layer (lines 5884-5897), none
    of which changes the result. *)
Definition closingWarnings (price feePerContract calculatedRisk finalOdds : num) : list Warning :=
  (match validateMathematicalConsistency price feePerContract finalOdds with
   | Invalid e => [WarnConsistencyCheckFailed e]
   | Valid => []
   end)
  ++ (if calculatedRisk >? dec 95 2 then [WarnHighRisk] else [])
  ++ (if Math_abs finalOdds >? of_Z 1000 then [WarnExtremeOdds] else []).

(** [calculateAfterFeeOdds(price, feePerContract, options)] with what it
    writes to the console: the returned odds ([None] for [null]) and the
    warnings in the order they are issued. *)
Definition calculateAfterFeeOdds_traced
    (price feePerContract : num) (options : AfterFeeOptions)
    : option num * list Warning :=
  let enableValidation := validationEnabled options in
  if isNaN price || isNaN feePerContract then (None, [WarnInvalidInputTypes])
  else if (price <=? of_Z 0) || (price >? of_Z 1) then (None, [WarnPriceOutOfRange])
  else if feePerContract <? of_Z 0 then (None, [WarnNegativeFee])
  else
    let calculatedRisk := price + feePerContract in
    let calculatedProfit := of_Z 1 - calculatedRisk in
    let gate : option Warning :=
      if enableValidation then
        match validateCalculatedRisk price feePerContract calculatedRisk with
        | Invalid e => Some (WarnRiskValidationFailed e)
        | Valid =>
            match validateCalculatedProfit calculatedRisk calculatedProfit with
            | Invalid e => Some (WarnProfitValidationFailed e)
            | Valid => None
            end
        end
      else if calculatedRisk >=? of_Z 1 then Some WarnUnprofitable
      else if calculatedProfit <=? of_Z 0 then Some WarnNonPositiveProfit
      else None in
    match gate with
    | Some w => (None, [w])
    | None =>
        let rawOdds := rawAfterFeeOdds calculatedRisk calculatedProfit in
        let finalOdds := Math_round rawOdds in
        if enableValidation then
          match validateAfterFeeOdds calculatedRisk calculatedProfit finalOdds with
          | Invalid e => (None, [WarnOddsValidationFailed e])
          | Valid =>
              (Some finalOdds,
               closingWarnings price feePerContract calculatedRisk finalOdds)
          end
        else (Some finalOdds, [])
    end.

(** The value [calculateAfterFeeOdds] returns. *)
Definition calculateAfterFeeOdds
    (price feePerContract : num) (options : AfterFeeOptions) : option num :=
  fst (calculateAfterFeeOdds_traced price feePerContract options).

End AfterFeeOdds.

(** ** Fee estimate (content.js, lines 4242-4310) *)

Record FeeOptions := {
  feeType : option string;            (* default 'taker' *)
  assumeMakerFeeFree : option bool    (* default false *)
}.

Record FeeEstimate (num : Type) := {
  est_totalFee : num;
  est_perContractFee : num;
  est_feeType : string;
  est_priceUsed : num;
  est_quantityUsed : num;
  est_baseFeePerContract : option num
}.

Section FeeEstimation.

Context {num : Type} `{JSNumber num}.
Local Open Scope js_scope.

(** [feeRates[feeType] || feeRates.taker], for the object's own keys. *)
Definition feeRateFor (feeType : string) : num :=
  if String.eqb feeType "taker" then dec 7 2
  else if String.eqb feeType "maker" then dec 175 4
  else dec 7 2.

Definition calculateKalshiFeeEstimate
    (price quantity : num) (options : FeeOptions) : option (FeeEstimate num) :=
  if isNaN price || isNaN quantity then None
  else if (price <=? of_Z 0) || (price >? of_Z 1) then None
  else if (quantity <=? of_Z 0) || negb (Number_isInteger quantity) then None
  else
    let feeType := match feeType options with Some t => t | None => "taker"%string end in
    let assumeMakerFeeFree :=
      match assumeMakerFeeFree options with Some b => b | None => false end in
    if String.eqb feeType "maker" && assumeMakerFeeFree then
      Some {| est_totalFee := of_Z 0;
              est_perContractFee := of_Z 0;
              est_feeType := "maker (fee-free)";
              est_priceUsed := price;
              est_quantityUsed := quantity;
              est_baseFeePerContract := None |}
    else
      let feeRate := feeRateFor feeType in
      let baseFeePerContract := feeRate * price * (of_Z 1 - price) in
      let totalBaseFee := baseFeePerContract * quantity in
      let roundedTotalFee := Math_ceil (totalBaseFee * of_Z 100) / of_Z 100 in
      let actualPerContractFee := roundedTotalFee / quantity in
      Some {| est_totalFee := roundedTotalFee;
              est_perContractFee := actualPerContractFee;
              est_feeType := feeType;
              est_priceUsed := price;
              est_quantityUsed := quantity;
              est_baseFeePerContract := Some baseFeePerContract |}.

End FeeEstimation.

Definition fee_options (t : string) : FeeOptions :=
  {| feeType := Some t; assumeMakerFeeFree := None |}.

(** ** Numeric validation utilities (content.js, lines 2770-3238) *)

Record SanitizeOptions := {
  allowNegative : bool;
  allowZero : bool;
  maxDecimalPlaces : option nat
}.

Section NumericValidation.

Context {num : Type} `{JSNumber num}.
Local Open Scope js_scope.

(** [sanitizeNumericValue(value, options)] on a number; [None] is the
    [fallbackValue] (always [null] at the call sites modelled here).  The
    branches for [null], [undefined] and strings do not apply to a
    number. *)
Definition sanitizeNumericValue (value : num) (options : SanitizeOptions) : option num :=
  if isNaN value then None
  else if negb (isFinite value) then None
  else if negb (allowNegative options) && (value <? of_Z 0) then None
  else if negb (allowZero options) && (value =? of_Z 0) then None
  else
    match maxDecimalPlaces options with
    | Some places =>
        let multiplier := of_Z (10 ^ Z.of_nat places) in
        Some (Math_round (value * multiplier) / multiplier)
    | None => Some value
    end.

(** [isValidPrice(price)] with its default options
    ([minPrice = 0.01], [maxPrice = 1.00], zero refused, one allowed). *)
Definition isValidPrice (price : num) : bool :=
  match sanitizeNumericValue price
          {| allowNegative := false; allowZero := false; maxDecimalPlaces := Some 4%nat |} with
  | None => false
  | Some sanitizedPrice =>
      if negb (isFinite sanitizedPrice) then false
      else if sanitizedPrice <? dec 1 2 then false
      else if sanitizedPrice >? of_Z 1 then false
      else if sanitizedPrice =? of_Z 0 then false
      else if (4 <? decimalPlaces sanitizedPrice)%nat then false
      else true
  end.

(** [isValidQuantity(quantity)] with its default options
    ([minQuantity = 1], [maxQuantity = 10000], [requireInteger]). *)
Definition isValidQuantity (quantity : num) : bool :=
  match sanitizeNumericValue quantity
          {| allowNegative := false; allowZero := false; maxDecimalPlaces := Some 0%nat |} with
  | None => false
  | Some sanitizedQuantity =>
      if negb (isFinite sanitizedQuantity) then false
      else if negb (Number_isInteger sanitizedQuantity) then false
      else if sanitizedQuantity <? of_Z 1 then false
      else if sanitizedQuantity >? of_Z 10000 then false
      else if sanitizedQuantity >? of_Z 9007199254740991 then false
      else true
  end.

(** [isValidFee(fee)] with its default options
    ([minFee = 0], [maxFee = 1000], zero allowed, four decimals). *)
Definition isValidFee (fee : num) : bool :=
  match sanitizeNumericValue fee
          {| allowNegative := false; allowZero := true; maxDecimalPlaces := Some 4%nat |} with
  | None => false
  | Some sanitizedFee =>
      if negb (isFinite sanitizedFee) then false
      else if sanitizedFee <? of_Z 0 then false
      else if sanitizedFee >? of_Z 1000 then false
      else if (4 <? decimalPlaces sanitizedFee)%nat then false
      else true
  end.

End NumericValidation.

(** ** Ticket data and its validation (content.js, lines 4639-4804) *)

(** The JavaScript values the validity flags can hold: [a && b] evaluates to
    [a] itself when [a] is falsy, so a flag is not always a boolean. *)
Inductive JSValue :=
| VNull
| VString (s : string)
| VBool (b : bool).

Definition ToBoolean (v : JSValue) : bool :=
  match v with
  | VNull => false
  | VString s => negb (String.eqb s "")
  | VBool b => b
  end.

Definition js_and (a b : JSValue) : JSValue := if ToBoolean a then b else a.
Definition js_or (a b : JSValue) : JSValue := if ToBoolean a then a else b.

Section TicketData.

Context {num : Type} `{JSNumber num}.
Local Open Scope js_scope.

Record FeeInfo := {
  totalFee : option num;
  perContractFee : option num;
  feeSource : string;
  rawText : option string
}.

(** The entries of [feeErrors]; each stands for one message template
    with the values it interpolates. *)
Inductive FeeError :=
| NegativeTotalFee (fee : num)
| TotalFeeTooHigh (fee : num)
| InvalidTotalFee (fee : num)
| NegativePerContractFee (fee : num)
| PerContractFeeTooHigh (fee : num)
| InvalidPerContractFee (fee : num)
| FeeInconsistency (total perContract quantity expectedTotal : num).

(** The entries of [ticketData.errors]. *)
Inductive Message :=
| SideNotFound
| InvalidSide (side : string)
| PriceNotFound
| PriceTooLow (price : num)
| PriceTooHigh (price : num)
| InvalidPriceFormat (price : num)
| QuantityNotFound
| QuantityNotWhole (quantity : num)
| QuantityTooLow (quantity : num)
| QuantityTooHigh (quantity : num)
| InvalidQuantity (quantity : num)
| FeeValidationFailed (error : FeeError)
| FeeNotFound
| OrderTotalVeryHigh (totalCost : num).

Record ValidationSummary := {
  criticalErrors : nat;
  warningCount : nat;
  totalErrors : nat;
  hasCriticalData : JSValue;
  canProceed : JSValue
}.

(** [side], [price], [quantity] and [fee] are [null] ([None]) or set. *)
Record TicketData := {
  side : option string;
  price : option num;
  quantity : option num;
  fee : option FeeInfo;
  isValid : JSValue;
  errors : list Message;
  validationSummary : option ValidationSummary;
  timestamp : Z
}.

Definition side_value (s : option string) : JSValue :=
  match s with None => VNull | Some s => VString s end.

(** The three critical fields: the message pushed, if any. *)
Definition sideError (t : TicketData) : option Message :=
  match side t with
  | None => Some SideNotFound
  | Some s =>
      if String.eqb s "" then Some SideNotFound
      else if negb (String.eqb s "YES") && negb (String.eqb s "NO") then Some (InvalidSide s)
      else None
  end.

Definition priceError (t : TicketData) : option Message :=
  match price t with
  | None => Some PriceNotFound
  | Some p =>
      if negb (isValidPrice p) then
        Some (if p <? dec 1 2 then PriceTooLow p
              else if p >? of_Z 1 then PriceTooHigh p
              else InvalidPriceFormat p)
      else None
  end.

Definition quantityError (t : TicketData) : option Message :=
  match quantity t with
  | None => Some QuantityNotFound
  | Some q =>
      if negb (isValidQuantity q) then
        Some (if negb (Number_isInteger q) then QuantityNotWhole q
              else if q <? of_Z 1 then QuantityTooLow q
              else if q >? of_Z 10000 then QuantityTooHigh q
              else InvalidQuantity q)
      else None
  end.

Definition totalFeeErrors (f : FeeInfo) : list FeeError :=
  match totalFee f with
  | Some tf =>
      if negb (isValidFee tf) then
        [if tf <? of_Z 0 then NegativeTotalFee tf
         else if tf >? of_Z 1000 then TotalFeeTooHigh tf
         else InvalidTotalFee tf]
      else []
  | None => []
  end.

Definition perContractFeeErrors (f : FeeInfo) : list FeeError :=
  match perContractFee f with
  | Some pf =>
      if negb (isValidFee pf) then
        [if pf <? of_Z 0 then NegativePerContractFee pf
         else if pf >? of_Z 100 then PerContractFeeTooHigh pf
         else InvalidPerContractFee pf]
      else []
  | None => []
  end.

(** The consistency check of lines 4719-4730: the message pushed on
    [feeErrors], with the [warningCount++] that goes with it. *)
Definition feeConsistencyErrors (t : TicketData) (f : FeeInfo) : list FeeError :=
  match totalFee f, perContractFee f, quantity t with
  | Some tf, Some pf, Some q =>
      let expectedTotal := pf * q in
      let difference := Math_abs (tf - expectedTotal) in
      if difference >? dec 1 2 then [FeeInconsistency tf pf q expectedTotal] else []
  | _, _, _ => []
  end.

Definition orderTotalErrors (t : TicketData) : list Message :=
  match price t, quantity t with
  | Some p, Some q =>
      let totalCost := p * q in
      if totalCost >? of_Z 100000 then [OrderTotalVeryHigh totalCost] else []
  | _, _ => []
  end.

Definition opt_list {A} (o : option A) : list A :=
  match o with Some a => [a] | None => [] end.

(** The messages of the three critical checks, in order; their number is
    [criticalErrors]. *)
Definition criticalMessages (t : TicketData) : list Message :=
  opt_list (sideError t) ++ opt_list (priceError t) ++ opt_list (quantityError t).

Definition criticalCount (t : TicketData) : nat := List.length (criticalMessages t).

(** [ticketData.side && ticketData.price !== null && ticketData.quantity !== null]. *)
Definition criticalData (t : TicketData) : JSValue :=
  js_and (js_and (side_value (side t))
                 (VBool (match price t with Some _ => true | None => false end)))
         (VBool (match quantity t with Some _ => true | None => false end)).

(** [validateTicketData(ticketData)]: the record with [errors], [isValid]
    and [validationSummary] overwritten. *)
Definition validateTicketData (t : TicketData) : TicketData :=
  let criticalErrors := criticalCount t in
  let '(feeMessages, feeWarnings) :=
    match fee t with
    | Some f =>
        let inconsistency := feeConsistencyErrors t f in
        let feeErrors := totalFeeErrors f ++ perContractFeeErrors f ++ inconsistency in
        (map FeeValidationFailed feeErrors,
         (List.length inconsistency + List.length feeErrors)%nat)
    | None => ([FeeNotFound], 1%nat)
    end in
  let crossField := orderTotalErrors t in
  let errors := criticalMessages t ++ feeMessages ++ crossField in
  let warningCount := (feeWarnings + List.length crossField)%nat in
  let hasCriticalData := criticalData t in
  let noCritical := VBool (criticalErrors =? 0)%nat in
  let isValid := js_and hasCriticalData noCritical in
  {| side := side t;
     price := price t;
     quantity := quantity t;
     fee := fee t;
     isValid := isValid;
     errors := errors;
     validationSummary :=
       Some {| criticalErrors := criticalErrors;
               warningCount := warningCount;
               totalErrors := List.length errors;
               hasCriticalData := hasCriticalData;
               canProceed := js_or isValid (js_and hasCriticalData noCritical) |};
     timestamp := timestamp t |}.

(** The same ticket with another [fee]. *)
Definition withFee (t : TicketData) (f : option FeeInfo) : TicketData :=
  {| side := side t; price := price t; quantity := quantity t; fee := f;
     isValid := isValid t; errors := errors t;
     validationSummary := validationSummary t; timestamp := timestamp t |}.

(** A ticket as the parser creates it, before validation. *)
Definition parsedTicket (s : option string) (p q : option num) (f : option FeeInfo) : TicketData :=
  {| side := s; price := p; quantity := q; fee := f;
     isValid := VBool false; errors := []; validationSummary := None; timestamp := 0 |}.

End TicketData.

Arguments FeeInfo : clear implicits.
Arguments FeeError : clear implicits.
Arguments Message : clear implicits.
Arguments ValidationSummary : clear implicits.
Arguments TicketData : clear implicits.


(** ** The ticket subtree *)

(** A DOM node: a text node, or an element with its tag name (lower case),
    its attributes, the current [value] of a form control and its children.
    A string is a sequence of code units below 256. *)
Inductive Node :=
| Text (data : string)
| Element (tagName : string) (attributes : list (string * string))
          (value : string) (children : list Node).

Module DOM.

Local Open Scope string_scope.

Definition tagName (n : Node) : string :=
  match n with Text _ => "" | Element t _ _ _ => t end.

Definition value (n : Node) : string :=
  match n with Text _ => "" | Element _ _ v _ => v end.

Definition isElement (n : Node) : bool :=
  match n with Text _ => false | Element _ _ _ _ => true end.

Fixpoint lookup (name : string) (attrs : list (string * string)) : option string :=
  match attrs with
  | [] => None
  | (k, v) :: rest => if String.eqb k name then Some v else lookup name rest
  end.

Definition getAttribute (n : Node) (name : string) : option string :=
  match n with Text _ => None | Element _ attrs _ _ => lookup name attrs end.

(** A reflected string attribute ([name], [id], [placeholder]): the
    attribute, or the empty string. *)
Definition reflected (n : Node) (name : string) : string :=
  match getAttribute n name with Some v => v | None => "" end.

(** All descendants in document order. *)
Fixpoint descendants (n : Node) : list Node :=
  match n with
  | Text _ => []
  | Element _ _ _ cs =>
      (fix walk (l : list Node) : list Node :=
         match l with
         | [] => []
         | c :: l' => ((c :: descendants c) ++ walk l')%list
         end) cs
  end.

Fixpoint textContent (n : Node) : string :=
  match n with
  | Text d => d
  | Element _ _ _ cs =>
      (fix walk (l : list Node) : string :=
         match l with
         | [] => ""
         | c :: l' => textContent c ++ walk l'
         end) cs
  end.

(** [root.querySelectorAll(selector)], the selector given as the test it
    makes on an element. *)
Definition querySelectorAll (root : Node) (selector : Node -> bool) : list Node :=
  filter (fun n => isElement n && selector n) (descendants root).

Definition contains (needle hay : string) : bool :=
  match String.index 0 needle hay with Some _ => true | None => false end.

Definition lower (c : ascii) : ascii :=
  let n := nat_of_ascii c in
  if (65 <=? n)%nat && (n <=? 90)%nat then ascii_of_nat (n + 32) else c.

Fixpoint toLowerCase (s : string) : string :=
  match s with
  | EmptyString => EmptyString
  | String c s' => String (lower c) (toLowerCase s')
  end.

Definition inputTypes : list string :=
  ["hidden"; "text"; "search"; "tel"; "url"; "email"; "password"; "date";
   "month"; "week"; "time"; "datetime-local"; "number"; "range"; "color";
   "checkbox"; "radio"; "file"; "submit"; "image"; "reset"; "button"]%string.

(** The [type] property of an input, select or textarea. *)
Definition type (n : Node) : string :=
  if String.eqb (tagName n) "select" then
    match getAttribute n "multiple" with
    | Some _ => "select-multiple"
    | None => "select-one"
    end
  else if String.eqb (tagName n) "textarea" then "textarea"
  else
    match getAttribute n "type" with
    | Some t =>
        let t' := toLowerCase t in
        if existsb (String.eqb t') inputTypes then t' else "text"
    | None => "text"
    end.

(** White space as [String.prototype.trim] and [parseInt] see it. *)
Definition isWhiteSpace (c : ascii) : bool :=
  let n := nat_of_ascii c in
  ((9 <=? n) && (n <=? 13) || (n =? 32) || (n =? 160))%nat.

Fixpoint trimStart (s : string) : string :=
  match s with
  | String c s' => if isWhiteSpace c then trimStart s' else s
  | EmptyString => EmptyString
  end.

Fixpoint trimEnd (s : string) : string :=
  match s with
  | String c s' =>
      match trimEnd s' with
      | EmptyString => if isWhiteSpace c then EmptyString else String c EmptyString
      | t => String c t
      end
  | EmptyString => EmptyString
  end.

Definition trim (s : string) : string := trimEnd (trimStart s).

End DOM.

(** ** parseInt and the digit pattern *)

Module Parse.

Local Open Scope string_scope.

Definition digit (c : ascii) : option Z :=
  let n := nat_of_ascii c in
  if (48 <=? n)%nat && (n <=? 57)%nat then Some (Z.of_nat (n - 48)) else None.

Definition hexDigit (c : ascii) : option Z :=
  let n := nat_of_ascii c in
  if (48 <=? n)%nat && (n <=? 57)%nat then Some (Z.of_nat (n - 48))
  else if (97 <=? n)%nat && (n <=? 102)%nat then Some (Z.of_nat (n - 87))
  else if (65 <=? n)%nat && (n <=? 70)%nat then Some (Z.of_nat (n - 55))
  else None.

(** The value of the longest prefix of digits in the given radix, with
    the number of digits read. *)
Fixpoint digits (toDigit : ascii -> option Z) (radix : Z) (s : string) (acc : Z) (count : nat)
  : Z * nat :=
  match s with
  | String c s' =>
      match toDigit c with
      | Some d => digits toDigit radix s' (acc * radix + d)%Z (S count)
      | None => (acc, count)
      end
  | EmptyString => (acc, count)
  end.

Definition unsigned (s : string) : option Z :=
  let '(radix, toDigit, body) :=
    match s with
    | String "0" (String "x" r) | String "0" (String "X" r) => (16%Z, hexDigit, r)
    | _ => (10%Z, digit, s)
    end in
  match digits toDigit radix body 0 0 with
  | (_, O) => None
  | (v, _) => Some v
  end.

(** [parseInt(s)]: [None] stands for [NaN]. *)
Definition parseInt (s : string) : option Z :=
  match DOM.trimStart s with
  | String "-" r => option_map Z.opp (unsigned r)
  | String "+" r => unsigned r
  | r => unsigned r
  end.



End Parse.

(** ** The last quantity fallback (content.js, lines 3881-4059) *)

Section QuantityFallback.

Context {num : Type} `{JSNumber num}.
Local Open Scope string_scope.
Local Open Scope js_scope.





(** The three earlier strategies search the subtree with patterns and
    scores that are not modelled; they are taken as given. *)
Variables parseQuantity parseQuantityFallback1 parseQuantityFallback2 : Node -> option num.


(** Truthiness of a number or [null]. *)
Definition truthy_number (x : option num) : bool :=
  match x with
  | Some v => negb (isNaN v || (v =? of_Z 0))
  | None => false
  end.



End QuantityFallback.

(** ** Ticket content hash and lifecycle (content.js, lines 8353-8387, 6137-6170, 8225-8313) *)

Module Hash.

Local Open Scope string_scope.
Local Open Scope Z_scope.

(** ToInt32: the signed 32-bit value of an integer. *)
Definition ToInt32 (z : Z) : Z :=
  let m := z mod 2 ^ 32 in
  if 2 ^ 31 <=? m then m - 2 ^ 32 else m.

(** [hash << 5]. *)
Definition shl5 (hash : Z) : Z := ToInt32 (Z.shiftl (ToInt32 hash) 5).

(** [hash & hash]. *)
Definition and_self (hash : Z) : Z := Z.land (ToInt32 hash) (ToInt32 hash).

(** One round of the loop of lines 8380-8384. *)
Definition step (hash : Z) (c : ascii) : Z :=
  let char := Z.of_nat (nat_of_ascii c) in
  and_self ((shl5 hash - hash) + char).

Fixpoint run (hash : Z) (hashContent : string) : Z :=
  match hashContent with
  | EmptyString => hash
  | String c rest => run (step hash c) rest
  end.

(** [hash.toString()] of an integer. *)
Definition toString (z : Z) : string := NilZero.string_of_int (Z.to_int z).

(** The selectors of lines 8357 and 8358. *)
Definition isControl (n : Node) : bool :=
  String.eqb (DOM.tagName n) "input"
  || String.eqb (DOM.tagName n) "select"
  || String.eqb (DOM.tagName n) "textarea".

Definition isSelectedButton (n : Node) : bool :=
  String.eqb (DOM.tagName n) "button"
  && ((match DOM.getAttribute n "class" with
       | Some c => DOM.contains "selected" c
       | None => false
       end)
      || (match DOM.getAttribute n "aria-pressed" with
          | Some v => String.eqb v "true"
          | None => false
          end)).

(** [input.name || input.id]. *)
Definition nameOrId (input : Node) : string :=
  let name := DOM.reflected input "name" in
  if String.eqb name "" then DOM.reflected input "id" else name.

Fixpoint inputsContent (inputs : list Node) (hashContent : string) : string :=
  match inputs with
  | [] => hashContent
  | input :: rest =>
      inputsContent rest
        (if negb (String.eqb (DOM.type input) "hidden")
         then hashContent ++ nameOrId input ++ ":" ++ DOM.value input ++ "|"
         else hashContent)
  end.

Fixpoint buttonsContent (buttons : list Node) (hashContent : string) : string :=
  match buttons with
  | [] => hashContent
  | button :: rest =>
      buttonsContent rest
        (hashContent ++ "btn:" ++ DOM.trim (DOM.textContent button) ++ "|")
  end.

(** The string that is hashed (lines 8357-8376). *)
Definition hashContent (ticketElement : Node) : string :=
  let inputs := DOM.querySelectorAll ticketElement isControl in
  let buttons := DOM.querySelectorAll ticketElement isSelectedButton in
  let afterInputs := inputsContent inputs "" in
  let afterButtons := buttonsContent buttons afterInputs in
  let textContent := String.substring 0 500 (DOM.trim (DOM.textContent ticketElement)) in
  afterButtons ++ textContent.

End Hash.

(** [generateTicketHash(ticketElement)] for a ticket element that is
    there (the last of the three declarations of that name, the one in
    force). *)
Definition generateTicketHash (ticketElement : Node) : string :=
  Hash.toString (Hash.run 0 (Hash.hashContent ticketElement)).

Record TicketState := {
  isOpen : bool;
  ticketElement : option Node;
  lastTicketHash : option string
}.

Inductive TicketEvent :=
| TicketOpened
| TicketClosed
| TicketContentChanged
| NoTransition.

Definition onTicketOpened (ticket : Node) : TicketState :=
  {| isOpen := true;
     ticketElement := Some ticket;
     lastTicketHash := Some (generateTicketHash ticket) |}.

Definition onTicketClosed : TicketState :=
  {| isOpen := false; ticketElement := None; lastTicketHash := None |}.

Definition onTicketContentChanged (st : TicketState) (ticket : Node) : TicketState :=
  {| isOpen := isOpen st;
     ticketElement := ticketElement st;
     lastTicketHash := Some (generateTicketHash ticket) |}.

Definition hash_differs (ticketHash : string) (last : option string) : bool :=
  match last with
  | Some h => negb (String.eqb ticketHash h)
  | None => true
  end.

(** One run of [processOrderTicket], given what [detectOrderTicket]
    found: the next state and the handler that ran. *)
Definition processOrderTicket (st : TicketState) (currentTicket : option Node)
  : TicketState * TicketEvent :=
  match currentTicket, isOpen st with
  | Some ticket, false => (onTicketOpened ticket, TicketOpened)
  | None, true => (onTicketClosed, TicketClosed)
  | Some ticket, true =>
      let ticketHash := generateTicketHash ticket in
      if hash_differs ticketHash (lastTicketHash st)
      then (onTicketContentChanged st ticket, TicketContentChanged)
      else (st, NoTransition)
  | None, false => (st, NoTransition)
  end.

(** ** What the specification says, where it is compared with the code *)

Section Specification.

Context {num : Type} `{JSNumber num}.
Local Open Scope js_scope.




(** The composition of the round-trip property. *)
Definition roundTrip (odds : num) : option num :=
  match americanOddsToProbability odds with
  | Some p => probabilityToAmericanOdds p
  | None => None
  end.

End Specification.

(** ** Sample tickets *)

(** A fee whose total 1.00 disagrees with 10 contracts at 0.05 each. *)
Definition mismatchedFee : FeeInfo float :=
  {| totalFee := Some 1%float; perContractFee := Some 0.05%float;
     feeSource := "ticket"; rawText := None |}.

Definition mismatchedTicket : TicketData float :=
  parsedTicket (Some "YES"%string) (Some 0.5%float) (Some 10%float) (Some mismatchedFee).

(** ** Checks run on binary64 *)



(** [f] holds on [lo], [lo + 1], ... ([n] values). *)
Fixpoint all_from (f : Z -> bool) (lo : Z) (n : nat) : bool :=
  match n with
  | O => true
  | S n' => f lo && all_from f (lo + 1) n'
  end.

(** The integer [probabilityToAmericanOdds] returns inside (0,1), in exact
    arithmetic. *)
Definition oddsOf (p : Q) : Z :=
  Qfloor ((if Exact.ltb (Qabs (p - 0.5)) 0.001 then 100
           else if Exact.ltb p 0.5 then 100 * (1 - p) / p
           else -100 * p / (1 - p)) + (1 # 2)).

(** ** What the hash reads of a ticket subtree *)

(** Name-or-id and value of each non-hidden input, select and textarea. *)
Definition controlsView (ticket : Node) : list (string * string) :=
  map (fun input => (Hash.nameOrId input, DOM.value input))
      (filter (fun input => negb (String.eqb (DOM.type input) "hidden"))
              (DOM.querySelectorAll ticket Hash.isControl)).

(** Trimmed text of each selected button. *)
Definition buttonsView (ticket : Node) : list string :=
  map (fun button => DOM.trim (DOM.textContent button))
      (DOM.querySelectorAll ticket Hash.isSelectedButton).

(** The first 500 characters of the trimmed text content. *)
Definition textView (ticket : Node) : string :=
  String.substring 0 500 (DOM.trim (DOM.textContent ticket)).

(** [n] copies of a character. *)
Fixpoint filler (n : nat) (c : ascii) : string :=
  match n with
  | O => EmptyString
  | S n' => String c (filler n' c)
  end.

(** A ticket subtree with a price input, a selected YES button and a text
    of 500 characters followed by [tail]. *)
Definition sampleTicket (tail : string) : Node :=
  Element "div" [] ""
    [ Element "input" [("name", "price"); ("type", "number")] "0.45" [];
      Element "button" [("class", "side selected")] "" [Text "YES"];
      Text (filler 500 "x" ++ tail) ]%string.

(** ** Odds and probability validators (content.js, lines 3246-3359) *)

Section OddsValidation.

Context {num : Type} `{JSNumber num}.
Local Open Scope js_scope.

(** [isValidAmericanOdds(odds)] with its default options
    ([minOdds = -10000], [maxOdds = 10000], zero refused). *)
Definition isValidAmericanOdds (odds : num) : bool :=
  match sanitizeNumericValue odds
          {| allowNegative := true; allowZero := false; maxDecimalPlaces := Some 0%nat |} with
  | None => false
  | Some sanitizedOdds =>
      if negb (isFinite sanitizedOdds) then false
      else if (sanitizedOdds >? of_Z (-100)) && (sanitizedOdds <? of_Z 100) then false
      else if sanitizedOdds <? of_Z (-10000) then false
      else if sanitizedOdds >? of_Z 10000 then false
      else if negb (Number_isInteger sanitizedOdds) then false
      else true
  end.

(** [isValidProbability(probability)] with its default options
    ([0] to [1], both ends allowed, six decimals). *)
Definition isValidProbability (probability : num) : bool :=
  match sanitizeNumericValue probability
          {| allowNegative := false; allowZero := true; maxDecimalPlaces := Some 6%nat |} with
  | None => false
  | Some sanitizedProb =>
      if negb (isFinite sanitizedProb) then false
      else if sanitizedProb <? of_Z 0 then false
      else if sanitizedProb >? of_Z 1 then false
      else true
  end.

End OddsValidation.

(** ** Validation of a group of values (content.js, lines 3367-3518) *)

Inductive NumericField := PriceField | QuantityField | FeeField | OddsField | ProbabilityField.

(** One value per field of [values], [sanitizedValues] or
    [validationDetails]. *)
Record PerField (A : Type) := {
  for_price : A;
  for_quantity : A;
  for_fee : A;
  for_odds : A;
  for_probability : A
}.

Section AllNumericValues.

Context {num : Type} `{JSNumber num}.
Local Open Scope js_scope.

(** An entry of [results.errors] or of a detail's [errors]: the field and
    the original value the message interpolates. *)
Inductive NumericError :=
| ValidationFailed (field : NumericField) (original : num)
| InvalidValue (field : NumericField) (original : num).

(** An entry of [validationDetails]. *)
Record FieldDetail := {
  original : num;
  sanitized : option num;
  detail_isValid : bool;
  detail_errors : list NumericError
}.

Record NumericResults := {
  results_isValid : bool;
  results_errors : list NumericError;
  results_warnings : list NumericError;
  (* a field is absent ([None]), [null] ([Some None]) or a number *)
  sanitizedValues : PerField (option (option num));
  validationDetails : PerField (option FieldDetail)
}.

(** One of the five blocks of [validateAllNumericValues]: nothing for a
    value that is [undefined] or [null]. *)
Definition checkValue (field : NumericField) (options : SanitizeOptions)
    (validator : num -> bool) (value : option num) : option FieldDetail :=
  match value with
  | None => None
  | Some v =>
      let sanitizedValue := sanitizeNumericValue v options in
      let valid :=
        match sanitizedValue with
        | Some s => validator s
        | None => false
        end in
      Some {| original := v;
              sanitized := sanitizedValue;
              detail_isValid := valid;
              detail_errors := if valid then [] else [InvalidValue field v] |}
  end.

(** What a block pushes on [results.errors]. *)
Definition blockErrors (field : NumericField) (detail : option FieldDetail) : list NumericError :=
  match detail with
  | Some d => if detail_isValid d then [] else [ValidationFailed field (original d)]
  | None => []
  end.

(** [details.x?.isValid !== false]. *)
Definition notInvalid (detail : option FieldDetail) : bool :=
  match detail with
  | Some d => detail_isValid d
  | None => true
  end.

Definition present {A} (x : option A) : bool :=
  match x with Some _ => true | None => false end.

(** [validateAllNumericValues(values, { strictMode })] on numbers. *)
Definition validateAllNumericValues (values : PerField (option num)) (strictMode : bool)
  : NumericResults :=
  let price :=
    checkValue PriceField
      {| allowNegative := false; allowZero := false; maxDecimalPlaces := Some 4%nat |}
      isValidPrice (for_price values) in
  let quantity :=
    checkValue QuantityField
      {| allowNegative := false; allowZero := false; maxDecimalPlaces := Some 0%nat |}
      isValidQuantity (for_quantity values) in
  let fee :=
    checkValue FeeField
      {| allowNegative := false; allowZero := true; maxDecimalPlaces := Some 4%nat |}
      isValidFee (for_fee values) in
  let odds :=
    checkValue OddsField
      {| allowNegative := true; allowZero := false; maxDecimalPlaces := Some 0%nat |}
      isValidAmericanOdds (for_odds values) in
  let probability :=
    checkValue ProbabilityField
      {| allowNegative := false; allowZero := true; maxDecimalPlaces := Some 6%nat |}
      isValidProbability (for_probability values) in
  let errors :=
    blockErrors PriceField price ++ blockErrors QuantityField quantity
    ++ blockErrors FeeField fee ++ blockErrors OddsField odds
    ++ blockErrors ProbabilityField probability in
  let isValid :=
    if strictMode then
      notInvalid price && notInvalid quantity && notInvalid fee
      && notInvalid odds && notInvalid probability
    else
      let hasCriticalValues := present price || present quantity in
      let criticalValuesValid := notInvalid price && notInvalid quantity in
      hasCriticalValues && criticalValuesValid in
  {| results_isValid := isValid;
     results_errors := errors;
     results_warnings := [];
     sanitizedValues :=
       {| for_price := option_map sanitized price;
          for_quantity := option_map sanitized quantity;
          for_fee := option_map sanitized fee;
          for_odds := option_map sanitized odds;
          for_probability := option_map sanitized probability |};
     validationDetails :=
       {| for_price := price;
          for_quantity := quantity;
          for_fee := fee;
          for_odds := odds;
          for_probability := probability |} |}.

End AllNumericValues.

Arguments NumericError : clear implicits.
Arguments FieldDetail : clear implicits.
Arguments NumericResults : clear implicits.

(** ** Helper panel: odds to price (content.js, lines 8943-9011) *)

Section SuggestedPrice.

Context {num : Type} `{JSNumber num}.
Local Open Scope string_scope.
Local Open Scope js_scope.

(** [Math.min(a, b)] and [Math.max(a, b)]: NaN if either is NaN, and of
    two zeros the negative one is the smaller ([1 / a < 0] holds of the
    zeros for [-0] only). *)
Definition Math_min (a b : num) : num :=
  if isNaN a then a else if isNaN b then b
  else if a <? b then a else if b <? a then b
  else if of_Z 1 / a <? of_Z 0 then a else b.

Definition Math_max (a b : num) : num :=
  if isNaN a then a else if isNaN b then b
  else if a <? b then b else if b <? a then a
  else if of_Z 1 / a <? of_Z 0 then b else a.

(** [getImpliedProbabilityPercent(americanOdds)] on a number. *)
Definition getImpliedProbabilityPercent (americanOdds : num) : option num :=
  if isNaN americanOdds then None
  else
    let probability :=
      if americanOdds >? of_Z 0
      then of_Z 100 / (americanOdds + of_Z 100)
      else Math_abs americanOdds / (Math_abs americanOdds + of_Z 100) in
    Some (Math_round (probability * of_Z 100 * of_Z 10) / of_Z 10).

(** [calculateSuggestedPrice(americanOdds, side)]. *)
Definition calculateSuggestedPrice (americanOdds : num) (side : string) : option num :=
  match americanOddsToProbability americanOdds with
  | None => None
  | Some impliedProbability =>
      if negb (String.eqb side "YES") && negb (String.eqb side "NO") then None
      else
        let impliedProbability :=
          if String.eqb side "NO" then of_Z 1 - impliedProbability else impliedProbability in
        Some (Math_max (dec 1 2) (Math_min (of_Z 1) impliedProbability))
  end.

End SuggestedPrice.

(** ** After-fee odds from a ticket (content.js, lines 5910-6008, 9017-9077) *)


(** The result of [calculateAfterFeeOddsForHelper]; [feePerContract] and
    [quantity] are absent from the results that report no fee. *)
Record HelperOdds (num : Type) := {
  helper_afterFeeOdds : option num;
  helper_feeSource : string;
  helper_feePerContract : option num;
  helper_quantity : option num;
  helper_error : option string
}.

Section TicketOddsSection.

Context {num : Type} `{JSNumber num}.
Local Open Scope string_scope.
Local Open Scope js_scope.



(** [feeSource || 'ticket']. *)
Definition feeSourceOrTicket (f : FeeInfo num) : string :=
  if String.eqb (feeSource f) "" then "ticket" else feeSource f.

(** The first part of [calculateAfterFeeOddsForHelper] (lines 9019-9034):
    [feePerContract], [feeSource] and [quantity] after reading the
    ticket. *)
Definition helperFeeFromTicket (ticketData : option (TicketData num))
  : option num * string * num :=
  match ticketData with
  | Some t =>
      match fee t with
      | Some f =>
          let quantity :=
            match quantity t with
            | Some q => if truthy_number (Some q) then q else of_Z 1
            | None => of_Z 1
            end in
          match perContractFee f with
          | Some pf => (Some pf, feeSourceOrTicket f, quantity)
          | None =>
              match totalFee f with
              | Some tf =>
                  if quantity >? of_Z 0
                  then (Some (tf / quantity), feeSourceOrTicket f, quantity)
                  else (None, "unknown", quantity)
              | None => (None, "unknown", quantity)
              end
          end
      | None => (None, "unknown", of_Z 1)
      end
  | None => (None, "unknown", of_Z 1)
  end.

(** [calculateAfterFeeOddsForHelper(price, side, ticketData)], given the
    setting [settings.fallbackEstimateEnabled]. *)
Definition calculateAfterFeeOddsForHelper (fallbackEstimateEnabled : bool)
    (price : num) (side : string) (ticketData : option (TicketData num)) : HelperOdds num :=
  let '(fromTicket, ticketSource, quantity) := helperFeeFromTicket ticketData in
  let '(feePerContract, feeSource) :=
    match fromTicket with
    | Some pf => (Some pf, ticketSource)
    | None =>
        if fallbackEstimateEnabled then
          match calculateKalshiFeeEstimate price quantity
                  {| feeType := Some "taker"; assumeMakerFeeFree := Some false |} with
          | Some feeEstimate => (Some (est_perContractFee feeEstimate), "estimated")
          | None => (None, ticketSource)
          end
        else (None, ticketSource)
    end in
  match feePerContract with
  | None =>
      {| helper_afterFeeOdds := None;
         helper_feeSource := "unavailable";
         helper_feePerContract := None;
         helper_quantity := None;
         helper_error := Some "No fee information available" |}
  | Some pf =>
      {| helper_afterFeeOdds := calculateAfterFeeOdds price pf default_options;
         helper_feeSource := feeSource;
         helper_feePerContract := Some pf;
         helper_quantity := Some quantity;
         helper_error := None |}
  end.

End TicketOddsSection.

(** ** Placing the helper panel (content.js, lines 9164-9352) *)

(** A rectangle in viewport coordinates: a [DOMRect], or the [panelRect]
    literal. *)
Record Rect (num : Type) := {
  rect_left : num;
  rect_top : num;
  rect_right : num;
  rect_bottom : num
}.

(** [{ left, top, strategy }]. *)
Record Position (num : Type) := {
  pos_left : num;
  pos_top : num;
  strategy : string
}.

Section PanelPlacement.

Context {num : Type} `{JSNumber num}.
Local Open Scope string_scope.
Local Open Scope js_scope.

(** [rectsOverlap(rect1, rect2)]. *)
Definition rectsOverlap (rect1 rect2 : Rect num) : bool :=
  negb ((rect_right rect1 <? rect_left rect2)
        || (rect_right rect2 <? rect_left rect1)
        || (rect_bottom rect1 <? rect_top rect2)
        || (rect_bottom rect2 <? rect_top rect1)).

(** The window: [innerWidth] and [innerHeight]. *)
Variables viewportWidth viewportHeight : num.

(** The test of the loop of [shiftToAvoidOverlap] (lines 9315-9318). *)
Definition withinViewport (panelWidth panelHeight : num) (shift : num * num) : bool :=
  let margin := of_Z 20 in
  (fst shift >=? margin)
  && (fst shift + panelWidth <=? viewportWidth - margin)
  && (snd shift >=? margin)
  && (snd shift + panelHeight <=? viewportHeight - margin).

(** [shiftToAvoidOverlap(position, elementRect, panelWidth, panelHeight)]:
    the first of the four shifts, as [(left, top)], that stays in the
    viewport. *)
Definition shiftToAvoidOverlap (position : Position num) (elementRect : Rect num)
    (panelWidth panelHeight : num) : option (num * num) :=
  let shifts :=
    [ (rect_right elementRect + of_Z 10, pos_top position);
      (rect_left elementRect - panelWidth - of_Z 10, pos_top position);
      (pos_left position, rect_bottom elementRect + of_Z 10);
      (pos_left position, rect_top elementRect - panelHeight - of_Z 10) ] in
  find (withinViewport panelWidth panelHeight) shifts.

(** The [panelRect] of [avoidTicketInterference]. *)
Definition panelRect (left top panelWidth panelHeight : num) : Rect num :=
  {| rect_left := left;
     rect_top := top;
     rect_right := left + panelWidth;
     rect_bottom := top + panelHeight |}.

(** [avoidTicketInterference(position, ticket, panelWidth, panelHeight)],
    given the bounding rectangles of the ticket's critical elements in
    document order. *)
Fixpoint avoidTicketInterference (position : Position num) (criticalRects : list (Rect num))
    (panelWidth panelHeight : num) : Position num :=
  match criticalRects with
  | [] => position
  | elementRect :: rest =>
      if rectsOverlap
           (panelRect (pos_left position) (pos_top position) panelWidth panelHeight)
           elementRect
      then
        match shiftToAvoidOverlap position elementRect panelWidth panelHeight with
        | Some shiftedPosition =>
            {| pos_left := fst shiftedPosition;
               pos_top := snd shiftedPosition;
               strategy := strategy position ++ "-adjusted" |}
        | None => avoidTicketInterference position rest panelWidth panelHeight
        end
      else avoidTicketInterference position rest panelWidth panelHeight
  end.

(** The position [positionHelperPanel] chooses before it looks at the
    critical elements (lines 9182-9231): the first strategy that fits,
    clamped to the viewport. *)
Definition initialPosition (ticketRect : Rect num) : Position num :=
  let panelWidth := of_Z 320 in
  let panelHeight := of_Z 280 in
  let margin := of_Z 20 in
  let position :=
    if rect_right ticketRect + panelWidth + margin <=? viewportWidth then
      {| pos_left := rect_right ticketRect + margin;
         pos_top := Math_max margin (rect_top ticketRect);
         strategy := "right" |}
    else if rect_left ticketRect - panelWidth - margin >=? of_Z 0 then
      {| pos_left := rect_left ticketRect - panelWidth - margin;
         pos_top := Math_max margin (rect_top ticketRect);
         strategy := "left" |}
    else if rect_bottom ticketRect + panelHeight + margin <=? viewportHeight then
      {| pos_left :=
           Math_max margin
             (Math_min (rect_left ticketRect) (viewportWidth - panelWidth - margin));
         pos_top := rect_bottom ticketRect + margin;
         strategy := "below" |}
    else if rect_top ticketRect - panelHeight - margin >=? of_Z 0 then
      {| pos_left :=
           Math_max margin
             (Math_min (rect_left ticketRect) (viewportWidth - panelWidth - margin));
         pos_top := rect_top ticketRect - panelHeight - margin;
         strategy := "above" |}
    else
      {| pos_left := Math_max margin ((viewportWidth - panelWidth) / of_Z 2);
         pos_top := Math_max margin ((viewportHeight - panelHeight) / of_Z 2);
         strategy := "overlay" |} in
  {| pos_left :=
       Math_max margin (Math_min (pos_left position) (viewportWidth - panelWidth - margin));
     pos_top :=
       Math_max margin (Math_min (pos_top position) (viewportHeight - panelHeight - margin));
     strategy := strategy position |}.

(** [positionHelperPanel()] with a panel and a ticket in place: the
    position written to the panel's style, given the scroll offsets, the
    ticket's rectangle and the rectangles of its critical elements. *)
Definition positionHelperPanel (scrollLeft scrollTop : num) (ticketRect : Rect num)
    (criticalRects : list (Rect num)) : Position num :=
  let adjustedPosition :=
    avoidTicketInterference (initialPosition ticketRect) criticalRects (of_Z 320) (of_Z 280) in
  {| pos_left := pos_left adjustedPosition + scrollLeft;
     pos_top := pos_top adjustedPosition + scrollTop;
     strategy := strategy adjustedPosition |}.

End PanelPlacement.

Section SafeZIndex.

Context {num : Type} `{JSNumber num}.
Local Open Scope js_scope.

(** [parseInt(style.zIndex) || 0]. *)
Definition zIndexOf (zIndex : string) : num :=
  match Parse.parseInt zIndex with
  | Some z => of_Z z
  | None => of_Z 0
  end.

(** The loop of [getSafeZIndex] (lines 9339-9345). *)
Fixpoint highestZIndex (maxZIndex : num) (elementZIndexes : list string) : num :=
  match elementZIndexes with
  | [] => maxZIndex
  | style :: rest =>
      let zIndex := zIndexOf style in
      highestZIndex (if zIndex >? maxZIndex then zIndex else maxZIndex) rest
  end.

(** [getSafeZIndex(ticket)], given the computed [z-index] of the ticket
    and of each of its descendants. *)
Definition getSafeZIndex (ticketZIndex : string) (elementZIndexes : list string) : num :=
  let maxZIndex := highestZIndex (of_Z 9999) elementZIndexes in
  let ticketZIndex := zIndexOf ticketZIndex in
  let safeZIndex :=
    Math_max (Math_max (maxZIndex + of_Z 1) (ticketZIndex + of_Z 1)) (of_Z 10000) in
  Math_min safeZIndex (of_Z 999999).

End SafeZIndex.

(** ** Fallback fee detection state (content.js, lines 622-634, 1286-1358) *)

(** What [updateFallbackDetectionState] reads of a detection result;
    [det_ticketFeeParsingFailed] is the truthiness of
    [context?.ticketFeeParsingFailed]. *)
Record DetectionResult (num : Type) := {
  det_isUsingFallback : bool;
  det_fallbackType : option string;
  det_confidence : num;
  det_reasons : list string;
  det_detectionMethod : option string;
  det_timestamp : Z;
  det_ticketFeeParsingFailed : bool
}.

(** An entry of [fallbackDetectionHistory]. *)
Record DetectionEntry (num : Type) := {
  entry_timestamp : Z;
  entry_isUsingFallback : bool;
  entry_fallbackType : option string;
  entry_confidence : num;
  entry_detectionMethod : option string;
  entry_reasonCount : nat
}.

Record EstimationAccuracy (num : Type) := {
  totalEstimations : nat;
  accurateEstimations : nat;
  averageError : num
}.

(** [fallbackFeeDetectionState]. *)
Record FallbackFeeDetectionState (num : Type) := {
  state_isUsingFallback : bool;
  fallbackDetectionHistory : list (DetectionEntry num);
  lastFallbackDetection : option Z;
  fallbackUsageCount : nat;
  fallbackReasons : list string;
  ticketFeeFailureCount : nat;
  estimationAccuracy : EstimationAccuracy num
}.

Section FallbackDetectionState.

Context {num : Type} `{JSNumber num}.

(** The state the script starts with, and the one
    [resetFallbackDetectionState] restores. *)
Definition initialDetectionState : FallbackFeeDetectionState num :=
  {| state_isUsingFallback := false;
     fallbackDetectionHistory := [];
     lastFallbackDetection := None;
     fallbackUsageCount := 0;
     fallbackReasons := [];
     ticketFeeFailureCount := 0;
     estimationAccuracy :=
       {| totalEstimations := 0; accurateEstimations := 0; averageError := of_Z 0 |} |}.

(** The [forEach] of lines 1313-1317: a reason is pushed unless the array
    includes it. *)
Definition addReason (reasons : list string) (reason : string) : list string :=
  if existsb (String.eqb reason) reasons then reasons else reasons ++ [reason].

Definition historyEntry (detectionResult : DetectionResult num) : DetectionEntry num :=
  {| entry_timestamp := det_timestamp detectionResult;
     entry_isUsingFallback := det_isUsingFallback detectionResult;
     entry_fallbackType := det_fallbackType detectionResult;
     entry_confidence := det_confidence detectionResult;
     entry_detectionMethod := det_detectionMethod detectionResult;
     entry_reasonCount := List.length (det_reasons detectionResult) |}.

(** [updateFallbackDetectionState(detectionResult)] as a function of the
    state. *)
Definition updateFallbackDetectionState
    (state : FallbackFeeDetectionState num) (detectionResult : DetectionResult num)
  : FallbackFeeDetectionState num :=
  let usingFallback := det_isUsingFallback detectionResult in
  let pushed := (fallbackDetectionHistory state ++ [historyEntry detectionResult])%list in
  {| state_isUsingFallback := usingFallback;
     fallbackDetectionHistory :=
       if (20 <? List.length pushed)%nat then tl pushed else pushed;
     lastFallbackDetection :=
       if usingFallback then Some (det_timestamp detectionResult)
       else lastFallbackDetection state;
     fallbackUsageCount :=
       if usingFallback then S (fallbackUsageCount state) else fallbackUsageCount state;
     fallbackReasons :=
       if usingFallback
       then fold_left addReason (det_reasons detectionResult) (fallbackReasons state)
       else fallbackReasons state;
     ticketFeeFailureCount :=
       if det_ticketFeeParsingFailed detectionResult
       then S (ticketFeeFailureCount state) else ticketFeeFailureCount state;
     estimationAccuracy := estimationAccuracy state |}.

(** The state after a series of detections, oldest first. *)
Definition afterDetections (detections : list (DetectionResult num))
  : FallbackFeeDetectionState num :=
  fold_left updateFallbackDetectionState detections initialDetectionState.

End FallbackDetectionState.

(** ** Fee availability tracking (content.js, lines 9857-9909) *)

(** [helperPanelState.lastFeeSource] and [lastFeeAvailability]: [null]
    until the first ticket is seen. *)
Record FeeTracking := {
  lastFeeSource : option string;
  lastFeeAvailability : option bool
}.

Record FeeChange := {
  feeSourceChanged : bool;
  feeAvailabilityChanged : bool;
  feeTransitionedToActual : bool;
  feeTransitionedToEstimated : bool;
  feeBecameAvailable : bool;
  feeBecameUnavailable : JSValue;
  previousFeeSource : option string;
  currentFeeSource : option string;
  previousFeeAvailable : option bool;
  currentFeeAvailable : bool
}.

Definition initialFeeTracking : FeeTracking :=
  {| lastFeeSource := None; lastFeeAvailability := None |}.

Section FeeAvailability.

Context {num : Type} `{JSNumber num}.
Local Open Scope string_scope.

(** [a !== b] on values that are [null] or a string. *)
Definition differs_string (a b : option string) : bool :=
  match a, b with
  | Some x, Some y => negb (String.eqb x y)
  | None, None => false
  | _, _ => true
  end.

(** [a === s] for a string literal [s]. *)
Definition is_string (a : option string) (s : string) : bool :=
  match a with Some x => String.eqb x s | None => false end.

(** [detectFeeAvailabilityChange(currentTicketData)]: the tracking state
    after the call and the change it returns ([None] for [null]). *)
Definition detectFeeAvailabilityChange (tracking : FeeTracking)
    (currentTicketData : option (TicketData num)) : FeeTracking * option FeeChange :=
  match currentTicketData with
  | None => (tracking, None)
  | Some ticketData =>
      let currentFeeSource :=
        match fee ticketData with
        | Some f => if String.eqb (feeSource f) "" then None else Some (feeSource f)
        | None => None
        end in
      let currentFeeAvailable :=
        match fee ticketData with
        | Some f => present (totalFee f) || present (perContractFee f)
        | None => false
        end in
      let previousFeeSource := lastFeeSource tracking in
      let previousFeeAvailable := lastFeeAvailability tracking in
      let feeSourceChanged := differs_string previousFeeSource currentFeeSource in
      let feeAvailabilityChanged :=
        match previousFeeAvailable with
        | Some b => negb (Bool.eqb b currentFeeAvailable)
        | None => true
        end in
      let previousTruthy :=
        match previousFeeAvailable with Some b => b | None => false end in
      let change :=
        {| feeSourceChanged := feeSourceChanged;
           feeAvailabilityChanged := feeAvailabilityChanged;
           feeTransitionedToActual :=
             is_string previousFeeSource "estimated" && is_string currentFeeSource "ticket";
           feeTransitionedToEstimated :=
             is_string previousFeeSource "ticket" && is_string currentFeeSource "estimated";
           feeBecameAvailable := negb previousTruthy && currentFeeAvailable;
           feeBecameUnavailable :=
             match previousFeeAvailable with
             | None => VNull
             | Some false => VBool false
             | Some true => VBool (negb currentFeeAvailable)
             end;
           previousFeeSource := previousFeeSource;
           currentFeeSource := currentFeeSource;
           previousFeeAvailable := previousFeeAvailable;
           currentFeeAvailable := currentFeeAvailable |} in
      ({| lastFeeSource := currentFeeSource;
          lastFeeAvailability := Some currentFeeAvailable |},
       if feeSourceChanged || feeAvailabilityChanged then Some change else None)
  end.

End FeeAvailability.

(** ** Reading text (content.js, lines 7-41, 2564-2595, 4809-4844, 5116-5129, 5538-5572) *)

Module Text.

Local Open Scope string_scope.

(** The upper case of a code unit below 256.  The upper cases of 181 and
    of 255 lie beyond 255; these two are left as they are (neither is a
    letter that the patterns below look for). *)
Definition upper (c : ascii) : string :=
  let n := nat_of_ascii c in
  if (97 <=? n)%nat && (n <=? 122)%nat then String (ascii_of_nat (n - 32)) ""
  else if (n =? 223)%nat then "SS"
  else if (224 <=? n)%nat && (n <=? 254)%nat && negb (n =? 247)%nat
  then String (ascii_of_nat (n - 32)) ""
  else String c "".

Fixpoint toUpperCase (s : string) : string :=
  match s with
  | EmptyString => EmptyString
  | String c s' => upper c ++ toUpperCase s'
  end.

(** [s.replace(/\s+/g, '')]. *)
Fixpoint removeWhiteSpace (s : string) : string :=
  match s with
  | EmptyString => EmptyString
  | String c s' =>
      if DOM.isWhiteSpace c then removeWhiteSpace s' else String c (removeWhiteSpace s')
  end.

(** No character of [s] is white space. *)
Fixpoint noWhiteSpace (s : string) : bool :=
  match s with
  | EmptyString => true
  | String c s' => negb (DOM.isWhiteSpace c) && noWhiteSpace s'
  end.

(** [s.replace(c, '')] for a one-character string [c]: the first
    occurrence is removed. *)
Fixpoint removeFirst (c : ascii) (s : string) : string :=
  match s with
  | EmptyString => EmptyString
  | String c' s' => if Ascii.eqb c' c then s' else String c' (removeFirst c s')
  end.

Definition isDigit (c : ascii) : bool :=
  match Parse.digit c with Some _ => true | None => false end.

(** [/^(100|[1-9]?\d)%$/.test(s)]. *)
Definition matchesPercent (s : string) : bool :=
  String.eqb s "100%"
  || match s with
     | String d (String p EmptyString) => isDigit d && Ascii.eqb p "%"
     | String d1 (String d2 (String p EmptyString)) =>
         isDigit d1 && negb (Ascii.eqb d1 "0") && isDigit d2 && Ascii.eqb p "%"
     | _ => false
     end.

(** [/^\$0\.\d{2}$|^\$1\.00$/.test(s)]. *)
Definition matchesPrice (s : string) : bool :=
  String.eqb s "$1.00"
  || match s with
     | String c0 (String c1 (String c2 (String d1 (String d2 EmptyString)))) =>
         Ascii.eqb c0 "$" && Ascii.eqb c1 "0" && Ascii.eqb c2 "." && isDigit d1 && isDigit d2
     | _ => false
     end.

End Text.

(** [extractSideFromText(text)]; [None] is [null]. *)
Definition extractSideFromText (text : option string) : option string :=
  match text with
  | None => None
  | Some text =>
      if String.eqb text "" then None
      else
        let normalizedText := Text.toUpperCase (DOM.trim text) in
        if String.eqb normalizedText "YES" || String.eqb normalizedText "Y" then Some "YES"%string
        else if String.eqb normalizedText "NO" || String.eqb normalizedText "N" then Some "NO"%string
        else if DOM.contains "YES" normalizedText then Some "YES"%string
        else if DOM.contains "NO" normalizedText then Some "NO"%string
        else None
  end.

(** The loop of [extractSideFromElement] over the attribute names. *)
Fixpoint sideFromAttributes (element : Node) (attributes : list string) : option string :=
  match attributes with
  | [] => None
  | attr :: rest =>
      match extractSideFromText (DOM.getAttribute element attr) with
      | Some attrSide => Some attrSide
      | None => sideFromAttributes element rest
      end
  end.

(** [extractSideFromElement(element)]. *)
Definition extractSideFromElement (element : Node) : option string :=
  match extractSideFromText (Some (DOM.textContent element)) with
  | Some textSide => Some textSide
  | None =>
      sideFromAttributes element
        ["value"; "data-value"; "data-side"; "aria-label"; "title"]%string
  end.

(** [isProbabilityText(text)] and [isPriceText(text)] on a string. *)
Definition isProbabilityText (text : string) : bool :=
  if String.eqb text "" then false else Text.matchesPercent (DOM.trim text).

Definition isPriceText (text : string) : bool :=
  if String.eqb text "" then false else Text.matchesPrice (DOM.trim text).

(** The paths on which the script does not run: the list of
    [shouldActivateExtensionEarly], and the list of
    [shouldActivateExtension], which has '/documents' besides. *)
Definition excludedPathsEarly : list string :=
  ["/help"; "/about"; "/privacy"; "/terms"; "/support"; "/blog"; "/news"; "/api"; "/docs"]%string.

Definition excludedPaths : list string := ("/documents"%string :: excludedPathsEarly).

(** The two checks, given [window.location.pathname] and [hostname]. *)
Definition activatesWith (excluded : list string) (pathname hostname : string) : bool :=
  if existsb (fun excludedPath => String.prefix excludedPath pathname) excluded then false
  else if negb (DOM.contains "kalshi.com" hostname) && negb (String.eqb hostname "localhost")
  then false
  else true.

Definition shouldActivateExtensionEarly (pathname hostname : string) : bool :=
  activatesWith excludedPathsEarly pathname hostname.

Definition shouldActivateExtension (pathname hostname : string) : bool :=
  activatesWith excludedPaths pathname hostname.

Inductive MatchType := PercentMatch | PriceMatch.

Section ProbabilityText.

Context {num : Type} `{JSNumber num}.
Local Open Scope string_scope.
Local Open Scope js_scope.

(** [parseFloat(s)] for the strings the price pattern leaves once the
    dollar sign is gone, [0.dd] and [1.00]: the number of hundredths over
    100 (both are exact and the division rounds correctly, so on binary64
    this is the double nearest to the decimal). *)
Definition parseHundredths (s : string) : option num :=
  match s with
  | String d0 (String "." (String d1 (String d2 EmptyString))) =>
      match Parse.digit d0, Parse.digit d1, Parse.digit d2 with
      | Some a, Some b, Some c => Some (dec (100 * a + 10 * b + c) 2)
      | _, _, _ => None
      end
  | _ => None
  end.

(** [processProbabilityTextNode(textNode)], given the node's text: the
    probability and match type it calls [injectOddsForNode] with, if
    any. *)
Definition processProbabilityTextNode (textContent : string) : option (num * MatchType) :=
  let text := DOM.trim textContent in
  if String.eqb text "" then None
  else if Text.matchesPercent text then
    match Parse.parseInt (Text.removeFirst "%" text) with
    | Some percentValue =>
        if (of_Z percentValue >=? of_Z 0) && (of_Z percentValue <=? of_Z 100)
        then Some (of_Z percentValue / of_Z 100, PercentMatch)
        else None
    | None => None
    end
  else if Text.matchesPrice text then
    match parseHundredths (Text.removeFirst "$" text) with
    | Some priceValue =>
        if (priceValue >=? of_Z 0) && (priceValue <=? of_Z 1)
        then Some (priceValue, PriceMatch)
        else None
    | None => None
    end
  else None.

(** The odds [injectOddsForNode] computes for a text node that is ready
    for injection; [None] when nothing is injected. *)
Definition oddsForText (textContent : string) : option num :=
  match processProbabilityTextNode textContent with
  | Some (probability, _) => probabilityToAmericanOdds probability
  | None => None
  end.

End ProbabilityText.

(** ** Helper panel: reading the odds typed (content.js, lines 8805-8925) *)

(** The number a decimal literal [m / 10^k] denotes. *)
Class JSDecimal (num : Type) := {
  of_decimal : Z -> nat -> num
}.

Module Literal.

Local Open Scope string_scope.

(** The double nearest to [n / d] for [d > 0], ties to even: the quotient
    is cut to at least 55 bits with a sticky bit and then rounded once. *)
Definition nearest (n d : Z) : float :=
  if (n =? 0)%Z then PrimFloat.zero
  else
    let a := Z.abs n in
    let k := (56 + Z.log2 d - Z.log2 a)%Z in
    let '(q, r) :=
      if (0 <=? k)%Z then Z.div_eucl (a * 2 ^ k) d
      else Z.div_eucl a (d * 2 ^ (- k)) in
    let m := (2 * q + (if (r =? 0)%Z then 0 else 1))%Z in
    SF2Prim (binary_normalize prec emax (if (n <? 0)%Z then (- m)%Z else m) (- k - 1) false).

(** The digits at the start of [s]: their value on top of [acc], their
    number on top of [count], and what follows them. *)
Fixpoint readDigits (s : string) (acc : Z) (count : nat) : Z * nat * string :=
  match s with
  | String c s' =>
      match Parse.digit c with
      | Some d => readDigits s' (acc * 10 + d) (S count)
      | None => (acc, count, s)
      end
  | EmptyString => (acc, count, EmptyString)
  end.

(** A string that is [\d+(?:\.\d+)?] from end to end, as the decimal
    [(m, k)] it denotes, [m / 10^k]. *)
Definition plainDecimal (s : string) : option (Z * nat) :=
  let '(whole, n, rest) := readDigits s 0 0 in
  match n, rest with
  | O, _ => None
  | _, EmptyString => Some (whole, O)
  | _, String "." fraction =>
      let '(m, k, rest') := readDigits fraction whole 0 in
      match k, rest' with
      | S _, EmptyString => Some (m, k)
      | _, _ => None
      end
  | _, _ => None
  end.

(** A string that is [\d*\.?\d*] from end to end: what [parseFloat] reads
    in it, the decimal [(m, k)] or NaN ([None]) when it has no digit. *)
Definition looseDecimal (s : string) : option (option (Z * nat)) :=
  let '(whole, n, rest) := readDigits s 0 0 in
  match rest with
  | EmptyString => Some (match n with O => None | _ => Some (whole, O) end)
  | String "." fraction =>
      let '(m, k, rest') := readDigits fraction whole 0 in
      match rest' with
      | EmptyString => Some (match n, k with O, O => None | _, _ => Some (m, k) end)
      | _ => None
      end
  | _ => None
  end.

(** The sign [([+-]?)] at the start of a string and what follows it. *)
Definition splitSign (s : string) : string * string :=
  match s with
  | String "+" rest => ("+", rest)
  | String "-" rest => ("-", rest)
  | _ => ("", s)
  end.

(** [/\.\d{3,}/] matches somewhere in [s]. *)
Fixpoint hasThreeDecimals (s : string) : bool :=
  match s with
  | String c s' =>
      (Ascii.eqb c "." &&
       match s' with
       | String d1 (String d2 (String d3 _)) =>
           Text.isDigit d1 && Text.isDigit d2 && Text.isDigit d3
       | _ => false
       end)
      || hasThreeDecimals s'
  | EmptyString => false
  end.

End Literal.

#[export] Instance float_JSDecimal : JSDecimal float := {
  of_decimal := fun m k => Literal.nearest m (10 ^ Z.of_nat k)
}.

#[export] Instance Q_JSDecimal : JSDecimal Q := {
  of_decimal := fun m k => inject_Z m / inject_Z (10 ^ Z.of_nat k)
}.

(** The [error] of a refused input, by message. *)
Inductive OddsInputError :=
| PleaseEnterOdds            (* 'Please enter American odds' *)
| NotPercentages             (* 'Use American odds, not percentages' *)
| TooManyDecimalPlaces       (* 'Too many decimal places' *)
| CannotStartWithZero        (* 'American odds cannot start with 0' *)
| MustBeAtLeast100           (* 'American odds must be' at least 100 *)
| OddsTooLarge               (* 'Odds too large' *)
| InvalidOddsFormat          (* 'Invalid odds format' *)
| InvalidCharacters.         (* 'Invalid characters in odds' *)

(** The result of [validateAmericanOddsInput]. *)
Record OddsInput (num : Type) := {
  input_isValid : bool;
  input_odds : option num;
  input_error : option OddsInputError;
  input_suggestion : option string
}.

Section OddsTyped.

Context {num : Type} `{JSNumber num} `{JSDecimal num}.
Local Open Scope string_scope.
Local Open Scope js_scope.

(** [text.replace(/\s+/g, '').trim()]. *)
Definition cleanOdds (text : string) : string := DOM.trim (Text.removeWhiteSpace text).

(** [parseAmericanOdds(text)] on a string; [None] is [null]. *)
Definition parseAmericanOdds (text : string) : option num :=
  if String.eqb text "" then None
  else
    let cleaned := cleanOdds text in
    if String.eqb cleaned "" then None
    else
      let '(sign, numberStr) := Literal.splitSign cleaned in
      match Literal.plainDecimal numberStr with
      | None => None
      | Some (m, k) =>
          let number := of_decimal m k in
          if isNaN number || negb (isFinite number) then None
          else if number <? of_Z 100 then None
          else if number >? of_Z 100000 then None
          else if String.eqb sign "-" then Some (- number)
          else Some number
      end.

Definition refusedOdds (error : OddsInputError) (suggestion : string) : OddsInput num :=
  {| input_isValid := false;
     input_odds := None;
     input_error := Some error;
     input_suggestion := Some suggestion |}.

(** [validateAmericanOddsInput(text)] on a string. *)
Definition validateAmericanOddsInput (text : string) : OddsInput num :=
  if String.eqb text "" then refusedOdds PleaseEnterOdds "Try: +150, -200, or 100"
  else
    let cleaned := cleanOdds text in
    if String.eqb cleaned "" then refusedOdds PleaseEnterOdds "Try: +150, -200, or 100"
    else if DOM.contains "%" cleaned
    then refusedOdds NotPercentages "Try: +150 instead of 60%"
    else if DOM.contains "." cleaned && Literal.hasThreeDecimals cleaned
    then refusedOdds TooManyDecimalPlaces "Use whole numbers: +150, -200"
    else if String.prefix "0" cleaned
    then refusedOdds CannotStartWithZero "Minimum odds: +100 or -100"
    else
      match parseAmericanOdds cleaned with
      | None =>
          match Literal.looseDecimal (snd (Literal.splitSign cleaned)) with
          | Some parsed =>
              let below :=
                match parsed with Some (m, k) => of_decimal m k <? of_Z 100 | None => false end in
              let above :=
                match parsed with Some (m, k) => of_decimal m k >? of_Z 100000 | None => false end in
              if below then refusedOdds MustBeAtLeast100 "Try: +100, +150, -110, -200"
              else if above then refusedOdds OddsTooLarge "Maximum: +100000 or -100000"
              else refusedOdds InvalidOddsFormat "Use: +150, -200, or 100"
          | None => refusedOdds InvalidCharacters "Use only numbers and +/- signs"
          end
      | Some odds =>
          {| input_isValid := true;
             input_odds := Some odds;
             input_error := None;
             input_suggestion :=
               if Math_abs odds =? of_Z 100 then Some "Even odds (50% probability)"
               else if (Math_abs odds <? of_Z 110) && (Math_abs odds >? of_Z 100)
               then Some "Close to even odds"
               else None |}
      end.

End OddsTyped.

(** ** Checks run on the percentage texts *)

(** The text [n%]. *)
Definition percentText (n : Z) : string := (Hash.toString n ++ "%")%string.

(** The pattern accepts [n%], and reading it back gives [n]. *)
Definition percentText_reads (n : Z) : bool :=
  Text.matchesPercent (percentText n)
  && String.eqb (DOM.trim (percentText n)) (percentText n)
  && match Parse.parseInt (Text.removeFirst "%" (percentText n)) with
     | Some z => (z =? n)%Z
     | None => false
     end.

(** On binary64, [n] passes the range test of [processProbabilityTextNode]
    and [n / 100] has odds exactly when [n] is neither 0 nor 100. *)
Definition percent_binary64 (n : Z) : bool :=
  PrimFloat.leb 0 (F64.of_Z n) && PrimFloat.leb (F64.of_Z n) 100
  && Bool.eqb
       (match probabilityToAmericanOdds (F64.of_Z n / 100)%float with
        | Some _ => true
        | None => false
        end)
       ((0 <? n)%Z && (n <? 100)%Z).

(** * Properties *)

(** ** Comparisons of the exact instance *)

Lemma Exact_ltb_true (x y : Q) : Exact.ltb x y = true <-> x < y.
Proof.
  unfold Exact.ltb. rewrite Qlt_alt.
  destruct (x ?= y); split; congruence.
Qed.

Lemma Exact_ltb_false (x y : Q) : Exact.ltb x y = false <-> y <= x.
Proof.
  pose proof (Exact_ltb_true x y) as Ht.
  destruct (Exact.ltb x y); split; intros Hf; try congruence.
  - apply Qle_not_lt in Hf. exfalso. apply Hf, Ht. reflexivity.
  - apply Qnot_lt_le. intros Hlt. apply Ht in Hlt. discriminate.
Qed.

Lemma Qle_bool_false (x y : Q) : Qle_bool x y = false <-> y < x.
Proof.
  pose proof (Qle_bool_iff x y) as Ht.
  destruct (Qle_bool x y); split; intros Hf; try congruence.
  - apply Qlt_not_le in Hf. exfalso. apply Hf, Ht. reflexivity.
  - apply Qnot_le_lt. intros Hle. apply Ht in Hle. discriminate.
Qed.

Lemma Qeq_bool_false (x y : Q) : Qeq_bool x y = false <-> ~ x == y.
Proof.
  pose proof (Qeq_bool_iff x y) as Ht.
  destruct (Qeq_bool x y); split; intros Hf; try congruence.
  - exfalso. apply Hf, Ht. reflexivity.
  - intros Heq. apply Ht in Heq. discriminate.
Qed.

(** Turn every comparison of the exact instance into its proposition. *)
Ltac exact_props :=
  repeat match goal with
  | H : Exact.ltb _ _ = true |- _ => apply Exact_ltb_true in H
  | H : Exact.ltb _ _ = false |- _ => apply Exact_ltb_false in H
  | H : Qle_bool _ _ = true |- _ => apply Qle_bool_iff in H
  | H : Qle_bool _ _ = false |- _ => apply Qle_bool_false in H
  | H : Qeq_bool _ _ = true |- _ => apply Qeq_bool_iff in H
  | H : Qeq_bool _ _ = false |- _ => apply Qeq_bool_false in H
  end.

(** Unfold the operations of the exact instance and compute its literals. *)
Ltac exact_ops :=
  repeat match goal with
  | |- context [@dec Q _ ?m ?d] =>
      let v := eval cbv in (@dec Q _ m d) in change (@dec Q _ m d) with v
  | H : context [@dec Q _ ?m ?d] |- _ =>
      let v := eval cbv in (@dec Q _ m d) in change (@dec Q _ m d) with v in H
  end;
  cbn [of_Z add sub mul div neg Math_abs Math_round Math_ceil ltb leb eqb isNaN
       isFinite Number_isInteger decimalPlaces Q_JSNumber] in *.

Lemma Math_round_bounds (x : Q) :
  x - (1 # 2) < Exact.Math_round x /\ Exact.Math_round x <= x + (1 # 2).
Proof.
  unfold Exact.Math_round.
  pose proof (Qfloor_le (x + (1 # 2))) as Hle.
  pose proof (Qlt_floor (x + (1 # 2))) as Hlt.
  rewrite inject_Z_plus in Hlt.
  change (inject_Z 1) with 1 in Hlt.
  set (r := inject_Z (Qfloor (x + (1 # 2)))) in *.
  split; lra.
Qed.

Lemma Qfloor_ge (n : Z) (x : Q) : (n <= Qfloor x)%Z <-> inject_Z n <= x.
Proof.
  split.
  - intros Hn. apply Qle_trans with (inject_Z (Qfloor x)); [|apply Qfloor_le].
    rewrite <- Zle_Qle. exact Hn.
  - intros Hn. rewrite <- (Qfloor_Z n). apply Qfloor_resp_le. exact Hn.
Qed.

Lemma Qfloor_lt (n : Z) (x : Q) : (Qfloor x < n)%Z <-> x < inject_Z n.
Proof.
  split.
  - intros Hn. apply Qnot_le_lt. intros Hle. apply Qfloor_ge in Hle. lia.
  - intros Hn. apply Z.nle_gt. intros Hle. apply Qfloor_ge in Hle.
    apply Qle_not_lt in Hle. contradiction.
Qed.



(** ** Literals of binary64 *)

(** The decimal literals of the source, built by [dec], are the doubles
    the literals denote. *)
Lemma dec_binary64_literals :
  (dec 5 1, dec 1 3, dec 1 4, dec 15 1, dec 2 2, dec 95 2, dec 7 2, dec 175 4, dec 1 2)
  = (0.5, 0.001, 0.0001, 1.5, 0.02, 0.95, 0.07, 0.0175, 0.01)%float.
Proof. vm_compute. reflexivity. Qed.

(** ** The profitability gate *)

Section Gate.

Context {num : Type} `{JSNumber num}.
Local Open Scope js_scope.

(** C1. Whatever the numbers and whatever the options, a risk
    [price + feePerContract] that compares [>= 1] makes
    [calculateAfterFeeOdds] return no result: with the validation layer
    the risk validation refuses it, without it the basic check does. *)
Theorem calculateAfterFeeOdds_unprofitable :
  forall (price feePerContract : num) (options : AfterFeeOptions),
    (price + feePerContract >=? of_Z 1) = true ->
    calculateAfterFeeOdds price feePerContract options = None.
Proof.
  intros price fee options Hrisk.
  unfold calculateAfterFeeOdds, calculateAfterFeeOdds_traced.
  destruct (isNaN price || isNaN fee); [reflexivity|].
  destruct ((price <=? of_Z 0) || (price >? of_Z 1)); [reflexivity|].
  destruct (fee <? of_Z 0); [reflexivity|].
  destruct (validationEnabled options).
  - unfold validateCalculatedRisk.
    destruct (Math_abs (price + fee - (price + fee)) >? dec 1 4); [reflexivity|].
    rewrite Hrisk, orb_true_r. reflexivity.
  - rewrite Hrisk. reflexivity.
Qed.

End Gate.

(** Scenario D on binary64: price 0.98 and fee 0.03. *)
Lemma calculateAfterFeeOdds_unprofitable_witness :
  calculateAfterFeeOdds 0.98%float 0.03%float default_options = None.
Proof.
  apply calculateAfterFeeOdds_unprofitable.
  vm_compute. reflexivity.
Defined.

(** ** Probability to odds *)





(** ** After-fee odds *)






(** ** Fee estimate *)

Section FeeEstimateBranches.

Context {num : Type} `{JSNumber num}.
Local Open Scope string_scope.
Local Open Scope js_scope.



End FeeEstimateBranches.

Lemma Number_isInteger_exact (x : Q) :
  Exact.Number_isInteger x = true <-> exists n : Z, x == inject_Z n.
Proof.
  unfold Exact.Number_isInteger. rewrite Qeq_bool_iff. split.
  - intros Hx. exists (Qfloor x). exact Hx.
  - intros [n Hn]. rewrite Hn at 1. rewrite Hn, Qfloor_Z. reflexivity.
Qed.




(** On binary64 the product itself is rounded: for (taker, 0.50, 100) it
    is 1.7500000000000002 and the total is 1.76, where exact arithmetic
    gives the product 1.75 and the total 1.75. *)
Lemma calculateKalshiFeeEstimate_binary64_product :
  option_map (@est_totalFee float)
    (calculateKalshiFeeEstimate 0.5%float 100%float (fee_options "taker")) = Some 1.76%float
  /\
  (0.07 * 0.5 * (1 - 0.5) * 100 = 1.7500000000000002)%float
  /\
  (exists e : FeeEstimate Q,
     calculateKalshiFeeEstimate 0.5%Q 100%Q (fee_options "taker") = Some e /\
     est_totalFee e == 1.75).
Proof.
  split; [vm_compute; reflexivity|]. split; [vm_compute; reflexivity|].
  eexists. split; [vm_compute; reflexivity|]. vm_compute. reflexivity.
Qed.

(** ** Ticket validation *)

Section TicketValidity.

Context {num : Type} `{JSNumber num}.
Local Open Scope string_scope.

Lemma sideError_None (t : TicketData num) :
  sideError t = None <-> side t = Some "YES" \/ side t = Some "NO".
Proof.
  unfold sideError. destruct (side t) as [s|]; [|split; [discriminate | intros [E|E]; discriminate]].
  destruct (String.eqb_spec s "") as [-> | Hne].
  { split; [discriminate | intros [E|E]; discriminate]. }
  destruct (String.eqb_spec s "YES") as [-> | Hy].
  { cbn. split; auto. }
  destruct (String.eqb_spec s "NO") as [-> | Hn].
  { cbn. split; auto. }
  cbn. split; [discriminate | intros [E|E]; inversion E; congruence].
Qed.

Lemma priceError_None (t : TicketData num) :
  priceError t = None <-> exists p, price t = Some p /\ isValidPrice p = true.
Proof.
  unfold priceError. destruct (price t) as [p|].
  - destruct (isValidPrice p) eqn:E; cbn.
    + split; [intros _; exists p; auto | reflexivity].
    + split; [discriminate | intros [p' [Hp Hv]]; inversion Hp; congruence].
  - split; [discriminate | intros [p' [Hp _]]; discriminate].
Qed.

Lemma quantityError_None (t : TicketData num) :
  quantityError t = None <-> exists q, quantity t = Some q /\ isValidQuantity q = true.
Proof.
  unfold quantityError. destruct (quantity t) as [q|].
  - destruct (isValidQuantity q) eqn:E; cbn.
    + split; [intros _; exists q; auto | reflexivity].
    + split; [discriminate | intros [q' [Hq Hv]]; inversion Hq; congruence].
  - split; [discriminate | intros [q' [Hq _]]; discriminate].
Qed.

Lemma validateTicketData_flags (t : TicketData num) :
  isValid (validateTicketData t) = js_and (criticalData t) (VBool (criticalCount t =? 0)%nat) /\
  exists s, validationSummary (validateTicketData t) = Some s /\
            canProceed s = isValid (validateTicketData t) /\
            criticalErrors s = criticalCount t.
Proof.
  unfold validateTicketData.
  destruct (fee t); cbn [isValid validationSummary].
  - split; [reflexivity|]. eexists. split; [reflexivity|]. cbn [canProceed criticalErrors].
    split; [|reflexivity].
    unfold js_or. destruct (ToBoolean _); reflexivity.
  - split; [reflexivity|]. eexists. split; [reflexivity|]. cbn [canProceed criticalErrors].
    split; [|reflexivity].
    unfold js_or. destruct (ToBoolean _); reflexivity.
Qed.

Lemma criticalCount_zero (t : TicketData num) :
  criticalCount t = 0%nat <->
  sideError t = None /\ priceError t = None /\ quantityError t = None.
Proof.
  unfold criticalCount, criticalMessages.
  destruct (sideError t), (priceError t), (quantityError t); cbn;
    split; try discriminate; try (intros [? [? ?]]; discriminate); auto.
Qed.

Lemma validateTicketData_isValid_true (t : TicketData num) :
  isValid (validateTicketData t) = VBool true <->
  (side t = Some "YES" \/ side t = Some "NO") /\
  (exists p, price t = Some p /\ isValidPrice p = true) /\
  (exists q, quantity t = Some q /\ isValidQuantity q = true).
Proof.
  rewrite (proj1 (validateTicketData_flags t)).
  rewrite <- sideError_None, <- priceError_None, <- quantityError_None, <- criticalCount_zero.
  unfold criticalData.
  split.
  - intros Hv.
    destruct (criticalCount t) eqn:Hc; [reflexivity|].
    exfalso. change (S n =? 0)%nat with false in Hv.
    unfold js_and, side_value in Hv.
    destruct (side t) as [s|]; cbn [ToBoolean] in Hv; [|discriminate].
    destruct (s =? "") eqn:E; cbn [negb ToBoolean] in Hv;
      rewrite ?E in Hv; cbn [negb ToBoolean] in Hv; rewrite ?E in Hv;
      cbn [negb] in Hv; [discriminate|].
    destruct (price t); cbn [ToBoolean] in Hv; [|discriminate].
    destruct (quantity t); cbn [ToBoolean] in Hv; discriminate.
  - intros Hc. rewrite Hc.
    apply criticalCount_zero in Hc. destruct Hc as [Hs [Hp Hq]].
    apply sideError_None in Hs. apply priceError_None in Hp. apply quantityError_None in Hq.
    destruct Hp as [p [Hp _]]. destruct Hq as [q [Hq _]].
    rewrite Hp, Hq. destruct Hs as [Hs | Hs]; rewrite Hs; reflexivity.
Qed.



End TicketValidity.

Lemma places_from_le (x : Q) (d' : nat) :
  Exact.Number_isInteger (x * inject_Z (10 ^ Z.of_nat d')) = true ->
  forall fuel d, (d <= d')%nat -> (Exact.places_from x d fuel <= d')%nat.
Proof.
  intros Hint. induction fuel as [|fuel IH]; intros d Hd; cbn [Exact.places_from].
  - exact Hd.
  - destruct (Exact.Number_isInteger (x * inject_Z (10 ^ Z.of_nat d))) eqn:E; [exact Hd|].
    apply IH. destruct (Nat.eq_dec d d') as [-> | Hne]; [congruence | lia].
Qed.

Lemma decimalPlaces_scaled (k : Z) : (Exact.decimalPlaces (inject_Z k / 10000) <= 4)%nat.
Proof.
  apply places_from_le; [|lia].
  apply Number_isInteger_exact. exists k.
  change (inject_Z (10 ^ Z.of_nat 4)) with 10000. field.
Qed.

Lemma isValidPrice_exact (p : Q) :
  isValidPrice p = true <-> 0.00995 <= p /\ p < 1.00005.
Proof.
  unfold isValidPrice, sanitizeNumericValue.
  cbn [allowNegative allowZero maxDecimalPlaces].
  change (of_Z (10 ^ Z.of_nat 4)) with (10000 : Q).
  exact_ops. cbn [negb andb].
  unfold Exact.Math_round.
  set (k := Qfloor (p * 10000 + (1 # 2))).
  assert (Hk1 : forall n, (n <= k)%Z <-> inject_Z n <= p * 10000 + (1 # 2)) by (intros n; apply Qfloor_ge).
  assert (Hs : inject_Z k / 10000 == inject_Z k * (1 # 10000)) by (field).
  pose proof (decimalPlaces_scaled k) as Hd.
  apply Nat.ltb_ge in Hd.
  split.
  - intros Hv.
    destruct (Exact.ltb p 0) eqn:E1; [discriminate|].
    destruct (Qeq_bool p 0) eqn:E2; [discriminate|].
    rewrite Hd in Hv.
    destruct (Exact.ltb (inject_Z k / 10000) 0.01) eqn:E3; [discriminate|].
    destruct (Exact.ltb 1 (inject_Z k / 10000)) eqn:E4; [discriminate|].
    exact_props. rewrite Hs in E3, E4.
    assert (H100 : (100 <= k)%Z).
    { rewrite Zle_Qle. change (inject_Z 100) with 100. lra. }
    assert (H10000 : (k < 10001)%Z).
    { rewrite Zlt_Qlt. change (inject_Z 10001) with 10001. lra. }
    apply Hk1 in H100. apply Qfloor_lt in H10000.
    change (inject_Z 100) with 100 in H100. change (inject_Z 10001) with 10001 in H10000.
    split; lra.
  - intros [Hlo Hhi].
    assert (H100 : (100 <= k)%Z).
    { apply Hk1. change (inject_Z 100) with 100. lra. }
    assert (H10000 : (k < 10001)%Z).
    { apply Qfloor_lt. change (inject_Z 10001) with 10001. lra. }
    assert (E1 : Exact.ltb p 0 = false) by (apply Exact_ltb_false; lra).
    assert (E2 : Qeq_bool p 0 = false) by (apply Qeq_bool_false; lra).
    rewrite Zle_Qle in H100. rewrite Zlt_Qlt in H10000.
    change (inject_Z 100) with 100 in H100. change (inject_Z 10001) with 10001 in H10000.
    assert (H10000' : inject_Z k <= 10000).
    { assert (Hz : (k <= 10000)%Z) by (apply Zlt_succ_le; rewrite Zlt_Qlt; exact H10000).
      rewrite Zle_Qle in Hz. exact Hz. }
    assert (E3 : Exact.ltb (inject_Z k / 10000) 0.01 = false).
    { apply Exact_ltb_false. rewrite Hs. lra. }
    assert (E4 : Exact.ltb 1 (inject_Z k / 10000) = false).
    { apply Exact_ltb_false. rewrite Hs. lra. }
    assert (E5 : Qeq_bool (inject_Z k / 10000) 0 = false).
    { apply Qeq_bool_false. rewrite Hs. lra. }
    rewrite E1, E2, E3, E4, E5, Hd. reflexivity.
Qed.

Lemma isValidQuantity_exact (q : Q) :
  isValidQuantity q = true <-> 0.5 <= q /\ q < 10000.5.
Proof.
  unfold isValidQuantity, sanitizeNumericValue.
  cbn [allowNegative allowZero maxDecimalPlaces].
  change (of_Z (10 ^ Z.of_nat 0)) with (1 : Q).
  exact_ops. cbn [negb andb].
  unfold Exact.Math_round.
  set (k := Qfloor (q * 1 + (1 # 2))).
  assert (Hk1 : forall n, (n <= k)%Z <-> inject_Z n <= q * 1 + (1 # 2)) by (intros n; apply Qfloor_ge).
  assert (Hs : inject_Z k / 1 == inject_Z k) by (field).
  assert (Hint : Exact.Number_isInteger (inject_Z k / 1) = true).
  { apply Number_isInteger_exact. exists k. exact Hs. }
  split.
  - intros Hv.
    destruct (Exact.ltb q 0) eqn:E1; [discriminate|].
    destruct (Qeq_bool q 0) eqn:E2; [discriminate|].
    rewrite Hint in Hv. cbn [negb] in Hv.
    destruct (Exact.ltb (inject_Z k / 1) 1) eqn:E3; [discriminate|].
    destruct (Exact.ltb 10000 (inject_Z k / 1)) eqn:E4; [discriminate|].
    exact_props. rewrite Hs in E3, E4.
    assert (H1 : (1 <= k)%Z).
    { rewrite Zle_Qle. change (inject_Z 1) with 1. lra. }
    assert (H10000 : (k < 10001)%Z).
    { rewrite Zlt_Qlt. change (inject_Z 10001) with 10001. lra. }
    apply Hk1 in H1. apply Qfloor_lt in H10000.
    change (inject_Z 1) with 1 in H1. change (inject_Z 10001) with 10001 in H10000.
    split; lra.
  - intros [Hlo Hhi].
    assert (H1 : (1 <= k)%Z).
    { apply Hk1. change (inject_Z 1) with 1. lra. }
    assert (H10000 : (k < 10001)%Z).
    { apply Qfloor_lt. change (inject_Z 10001) with 10001. lra. }
    assert (E1 : Exact.ltb q 0 = false) by (apply Exact_ltb_false; lra).
    assert (E2 : Qeq_bool q 0 = false) by (apply Qeq_bool_false; lra).
    rewrite Zle_Qle in H1.
    change (inject_Z 1) with 1 in H1.
    assert (H10000' : inject_Z k <= 10000).
    { assert (Hz : (k <= 10000)%Z) by lia.
      rewrite Zle_Qle in Hz. exact Hz. }
    assert (E3 : Exact.ltb (inject_Z k / 1) 1 = false).
    { apply Exact_ltb_false. rewrite Hs. lra. }
    assert (E4 : Exact.ltb 10000 (inject_Z k / 1) = false).
    { apply Exact_ltb_false. rewrite Hs. lra. }
    assert (E5 : Exact.ltb 9007199254740991 (inject_Z k / 1) = false).
    { apply Exact_ltb_false. rewrite Hs. lra. }
    rewrite E1, E2, Hint, E3, E4, E5. reflexivity.
Qed.


Lemma isValidPrice_on_grid (k : Z) :
  isValidPrice (inject_Z k / 10000) = true <->
  0.01 <= inject_Z k / 10000 /\ inject_Z k / 10000 <= 1.
Proof.
  rewrite isValidPrice_exact.
  assert (Hs : inject_Z k / 10000 == inject_Z k * (1 # 10000)) by field.
  rewrite Hs.
  split; intros [Hlo Hhi].
  - assert (H100 : (99 < k)%Z) by (rewrite Zlt_Qlt; change (inject_Z 99) with 99; lra).
    assert (H10000 : (k < 10001)%Z) by (rewrite Zlt_Qlt; change (inject_Z 10001) with 10001; lra).
    assert (Hlo' : (100 <= k)%Z) by lia. assert (Hhi' : (k <= 10000)%Z) by lia.
    rewrite Zle_Qle in Hlo', Hhi'.
    change (inject_Z 100) with 100 in Hlo'. change (inject_Z 10000) with 10000 in Hhi'.
    split; lra.
  - split; lra.
Qed.


Lemma validateTicketData_fee_independent {num : Type} `{JSNumber num}
    (t : TicketData num) (f : option (FeeInfo num)) :
  isValid (validateTicketData (withFee t f)) = isValid (validateTicketData t).
Proof.
  rewrite (proj1 (validateTicketData_flags t)).
  rewrite (proj1 (validateTicketData_flags (withFee t f))).
  reflexivity.
Qed.




(** ** Fee consistency *)

(** C8. When totalFee, perContractFee and quantity are all present and
    [|totalFee - perContractFee * quantity| > 0.01], [validateTicketData]
    records the inconsistency message among the errors and counts it in
    [warningCount] (twice: at the check and again with the fee errors),
    while [isValid] and [canProceed] are what they are without any fee; so
    with a valid side, price and quantity both are true.  For every
    instance. *)
Theorem validateTicketData_fee_mismatch :
  forall (num : Type) (N : JSNumber num) (t : TicketData num) (f : FeeInfo num)
         (tf pf q : num),
    fee t = Some f -> totalFee f = Some tf -> perContractFee f = Some pf ->
    quantity t = Some q ->
    (Math_abs (tf - pf * q) >? dec 1 2)%js = true ->
    In (FeeValidationFailed (FeeInconsistency tf pf q (pf * q)%js))
       (errors (validateTicketData t)) /\
    (exists s,
       validationSummary (validateTicketData t) = Some s /\
       warningCount s =
         (2 + List.length (totalFeeErrors f) + List.length (perContractFeeErrors f)
          + List.length (orderTotalErrors t))%nat /\
       canProceed s = isValid (validateTicketData (withFee t None))) /\
    isValid (validateTicketData t) = isValid (validateTicketData (withFee t None)) /\
    ((side t = Some "YES"%string \/ side t = Some "NO"%string) ->
     (exists p, price t = Some p /\ isValidPrice p = true) ->
     isValidQuantity q = true ->
     isValid (validateTicketData t) = VBool true /\
     exists s, validationSummary (validateTicketData t) = Some s /\
               canProceed s = VBool true).
Proof.
  intros num N t f tf pf q Hfee Htf Hpf Hq Hdiff.
  assert (Hinc : feeConsistencyErrors t f = [FeeInconsistency tf pf q (pf * q)%js]).
  { unfold feeConsistencyErrors. rewrite Htf, Hpf, Hq, Hdiff. reflexivity. }
  assert (Hindep : isValid (validateTicketData t) = isValid (validateTicketData (withFee t None))).
  { symmetry. apply validateTicketData_fee_independent. }
  destruct (validateTicketData_flags t) as [_ [s [Hs [Hcan _]]]].
  split; [|split; [|split]].
  - unfold validateTicketData. rewrite Hfee, Hinc. cbn [errors].
    apply in_or_app. right. apply in_or_app. left.
    apply in_map. apply in_or_app. right. apply in_or_app. right. left. reflexivity.
  - exists s. split; [exact Hs|]. split; [|rewrite Hcan; exact Hindep].
    revert Hs. unfold validateTicketData. rewrite Hfee, Hinc. cbn [validationSummary].
    intros Hs. inversion Hs; subst s. cbn [warningCount].
    rewrite !List.length_app. cbn [List.length]. lia.
  - exact Hindep.
  - intros Hside Hprice Hquantity.
    assert (Hvalid : isValid (validateTicketData t) = VBool true).
    { apply validateTicketData_isValid_true. split; [exact Hside|]. split; [exact Hprice|].
      exists q. split; assumption. }
    split; [exact Hvalid|]. exists s. split; [exact Hs|]. rewrite Hcan. exact Hvalid.
Qed.

(** On binary64: YES, price 0.50, 10 contracts, total fee 1.00 against a
    per-contract fee of 0.05 (expected total 0.50). *)
Lemma validateTicketData_fee_mismatch_witness :
  In (FeeValidationFailed
        (FeeInconsistency 1%float 0.05%float 10%float (mul 0.05%float 10%float)))
     (errors (validateTicketData mismatchedTicket)).
Proof.
  assert (H : (Math_abs (1%float - 0.05%float * 10%float) >? dec 1 2)%js = true)
    by (vm_compute; reflexivity).
  exact (proj1 (@validateTicketData_fee_mismatch float _ mismatchedTicket mismatchedFee
                  1%float 0.05%float 10%float eq_refl eq_refl eq_refl eq_refl H)).
Defined.

(** ** Round trip *)

Lemma all_from_spec (f : Z -> bool) :
  forall n lo, all_from f lo n = true ->
  forall z, (lo <= z < lo + Z.of_nat n)%Z -> f z = true.
Proof.
  induction n as [|n IH]; intros lo Hall z Hz.
  - cbn in Hz. lia.
  - cbn [all_from] in Hall. apply andb_true_iff in Hall. destruct Hall as [Hlo Hrest].
    destruct (Z.eq_dec z lo) as [-> | Hne]; [exact Hlo|].
    apply (IH (lo + 1)%Z Hrest). lia.
Qed.

Lemma Math_round_integer (x : Q) (n : Z) : x == inject_Z n -> Exact.Math_round x = inject_Z n.
Proof.
  intros Hx. unfold Exact.Math_round. f_equal.
  rewrite Hx.
  apply Z.le_antisymm.
  - apply Zlt_succ_le. apply Qfloor_lt. unfold Z.succ. rewrite inject_Z_plus.
    change (inject_Z 1) with 1. set (c := inject_Z n). lra.
  - apply Qfloor_ge. set (c := inject_Z n). lra.
Qed.

Lemma Qabs_lower (x : Q) : - x <= Qabs x.
Proof. rewrite <- Qabs_opp. apply Qle_Qabs. Qed.

Lemma roundTrip_positive (o : Z) :
  (100 <= o)%Z -> roundTrip (inject_Z o) = Some (inject_Z o).
Proof.
  intros Ho.
  assert (Hc : 100 <= inject_Z o) by (rewrite Zle_Qle in Ho; exact Ho).
  unfold roundTrip, americanOddsToProbability. exact_ops. cbn [negb orb].
  set (c := inject_Z o) in *.
  assert (E1 : Qeq_bool c 0 = false) by (apply Qeq_bool_false; lra).
  assert (E2 : Exact.ltb 0 c = true) by (apply Exact_ltb_true; lra).
  rewrite E1, E2. cbn [negb orb].
  set (p := 100 / (c + 100)).
  assert (Hp0 : 0 < p) by (apply Qlt_shift_div_l; lra).
  assert (Hp1 : p <= 1 # 2) by (apply Qle_shift_div_r; lra).
  unfold probabilityToAmericanOdds. exact_ops.
  assert (E3 : Qle_bool p 0 = false) by (apply Qle_bool_false; lra).
  assert (E4 : Qle_bool 1 p = false) by (apply Qle_bool_false; lra).
  rewrite E3, E4. cbn [orb].
  destruct (Z.eq_dec o 100) as [-> | Hne].
  - assert (E5 : Exact.ltb (Qabs (p - 0.5)) 0.001 = true).
    { apply Exact_ltb_true. apply Qabs_Qlt_condition.
      assert (Hp : p == 1 # 2) by (unfold p, c; reflexivity). split; lra. }
    rewrite E5. reflexivity.
  - assert (Hc' : 101 <= c).
    { assert (Ho' : (101 <= o)%Z) by lia. rewrite Zle_Qle in Ho'. exact Ho'. }
    assert (Hp2 : p <= 100 # 201) by (apply Qle_shift_div_r; lra).
    assert (E5 : Exact.ltb (Qabs (p - 0.5)) 0.001 = false).
    { apply Exact_ltb_false. pose proof (Qabs_lower (p - 0.5)). lra. }
    assert (E6 : Exact.ltb p 0.5 = true) by (apply Exact_ltb_true; lra).
    rewrite E5, E6. f_equal.
    apply Math_round_integer. unfold p. fold c. clearbody c. field. repeat split; lra.
Qed.

Lemma roundTrip_negative (o : Z) :
  (o <= -101)%Z -> roundTrip (inject_Z o) = Some (inject_Z o).
Proof.
  intros Ho.
  assert (Hc : inject_Z o <= -101) by (rewrite Zle_Qle in Ho; exact Ho).
  unfold roundTrip, americanOddsToProbability. exact_ops. cbn [negb orb].
  change (Qabs (inject_Z o)) with (inject_Z (Z.abs o)).
  replace (Z.abs o) with (- o)%Z by lia. rewrite inject_Z_opp.
  set (c := inject_Z o) in *.
  assert (E1 : Qeq_bool c 0 = false) by (apply Qeq_bool_false; lra).
  assert (E2 : Exact.ltb 0 c = false) by (apply Exact_ltb_false; lra).
  rewrite E1, E2. cbn [negb orb].
  set (p := - c / (- c + 100)).
  assert (Hp0 : 101 # 201 <= p) by (apply Qle_shift_div_l; lra).
  assert (Hp1 : p < 1) by (apply Qlt_shift_div_r; lra).
  unfold probabilityToAmericanOdds. exact_ops.
  assert (E3 : Qle_bool p 0 = false) by (apply Qle_bool_false; lra).
  assert (E4 : Qle_bool 1 p = false) by (apply Qle_bool_false; lra).
  assert (E5 : Exact.ltb (Qabs (p - 0.5)) 0.001 = false).
  { apply Exact_ltb_false. pose proof (Qle_Qabs (p - 0.5)). lra. }
  assert (E6 : Exact.ltb p 0.5 = false) by (apply Exact_ltb_false; lra).
  rewrite E3, E4, E5, E6. cbn [orb]. f_equal.
  apply Math_round_integer. unfold p. fold c. clearbody c. field. repeat split; lra.
Qed.






(** ** Monotonicity *)

Lemma probabilityToAmericanOdds_inside (p : Q) :
  0 < p -> p < 1 -> probabilityToAmericanOdds p = Some (inject_Z (oddsOf p)).
Proof.
  intros Hp0 Hp1. unfold probabilityToAmericanOdds, oddsOf. exact_ops.
  assert (E1 : Qle_bool p 0 = false) by (apply Qle_bool_false; lra).
  assert (E2 : Qle_bool 1 p = false) by (apply Qle_bool_false; lra).
  rewrite E1, E2. reflexivity.
Qed.



Lemma underdog_antitone (p1 p2 : Q) :
  0 < p1 -> p1 <= p2 -> 100 * (1 - p2) / p2 <= 100 * (1 - p1) / p1.
Proof.
  intros H0 H12.
  apply Qle_shift_div_l; [lra|].
  setoid_replace (100 * (1 - p2) / p2 * p1) with (100 * (1 - p2) * p1 / p2) by (field; lra).
  apply Qle_shift_div_r; [lra|]. nra.
Qed.

Lemma favourite_antitone (p1 p2 : Q) :
  p1 <= p2 -> p2 < 1 -> -100 * p2 / (1 - p2) <= -100 * p1 / (1 - p1).
Proof.
  intros H12 H1.
  apply Qle_shift_div_l; [lra|].
  setoid_replace (-100 * p2 / (1 - p2) * (1 - p1)) with (-100 * p2 * (1 - p1) / (1 - p2))
    by (field; lra).
  apply Qle_shift_div_r; [lra|]. nra.
Qed.

Lemma underdog_at_least_even (p : Q) : 0 < p -> p <= 0.5 -> 100 <= 100 * (1 - p) / p.
Proof. intros H0 H1. apply Qle_shift_div_l; lra. Qed.

Lemma favourite_at_most_even (p : Q) : 0.5 <= p -> p < 1 -> -100 * p / (1 - p) <= -100.
Proof. intros H0 H1. apply Qle_shift_div_r; lra. Qed.






(** ** The last quantity fallback *)

Section QuantityDefault.

Context {num : Type} `{JSNumber num}.




End QuantityDefault.


(** ** Ticket hash *)

Lemma inputsContent_view (inputs : list Node) :
  forall hashContent,
    Hash.inputsContent inputs hashContent =
    fold_left (fun acc entry => (acc ++ fst entry ++ ":" ++ snd entry ++ "|")%string)
      (map (fun input => (Hash.nameOrId input, DOM.value input))
           (filter (fun input => negb (String.eqb (DOM.type input) "hidden")) inputs))
      hashContent.
Proof.
  induction inputs as [|input rest IH]; intros hashContent; cbn [Hash.inputsContent filter].
  - reflexivity.
  - rewrite IH.
    destruct (negb (String.eqb (DOM.type input) "hidden")); reflexivity.
Qed.

Lemma buttonsContent_view (buttons : list Node) :
  forall hashContent,
    Hash.buttonsContent buttons hashContent =
    fold_left (fun acc text => (acc ++ "btn:" ++ text ++ "|")%string)
      (map (fun button => DOM.trim (DOM.textContent button)) buttons)
      hashContent.
Proof.
  induction buttons as [|button rest IH]; intros hashContent; cbn [Hash.buttonsContent map].
  - reflexivity.
  - rewrite IH. reflexivity.
Qed.

(** The hashed string is a function of the three views. *)
Lemma hashContent_views (ticket : Node) :
  Hash.hashContent ticket =
  (fold_left (fun acc text => (acc ++ "btn:" ++ text ++ "|")%string)
     (buttonsView ticket)
     (fold_left (fun acc entry => (acc ++ fst entry ++ ":" ++ snd entry ++ "|")%string)
        (controlsView ticket) "")
   ++ textView ticket)%string.
Proof.
  unfold Hash.hashContent, controlsView, buttonsView, textView.
  rewrite inputsContent_view, buttonsContent_view. reflexivity.
Qed.

(** C10. Two ticket subtrees that agree on the name-or-id and value of
    each non-hidden input, select and textarea, on the trimmed text of each
    selected button and on the first 500 characters of the trimmed text
    content have the same hash; and when the ticket is open with the hash
    of the first stored, [processOrderTicket] on the second changes nothing
    and runs no handler. *)
Theorem generateTicketHash_views :
  forall a b : Node,
    controlsView a = controlsView b ->
    buttonsView a = buttonsView b ->
    textView a = textView b ->
    generateTicketHash a = generateTicketHash b /\
    (forall st : TicketState,
       isOpen st = true ->
       lastTicketHash st = Some (generateTicketHash a) ->
       processOrderTicket st (Some b) = (st, NoTransition)).
Proof.
  intros a b Hcontrols Hbuttons Htext.
  assert (Hhash : generateTicketHash a = generateTicketHash b).
  { unfold generateTicketHash.
    rewrite (hashContent_views a), (hashContent_views b), Hcontrols, Hbuttons, Htext.
    reflexivity. }
  split; [exact Hhash|].
  intros st Hopen Hlast.
  unfold processOrderTicket. rewrite Hopen, Hlast, <- Hhash.
  unfold hash_differs. rewrite String.eqb_refl. reflexivity.
Qed.

(** Two tickets whose text differs only after the first 500 characters. *)
Lemma generateTicketHash_views_witness :
  sampleTicket "fee $0.02" <> sampleTicket "fee $0.07" /\
  generateTicketHash (sampleTicket "fee $0.02") = generateTicketHash (sampleTicket "fee $0.07").
Proof.
  split.
  - intros Heq. apply (f_equal DOM.textContent) in Heq. vm_compute in Heq. discriminate.
  - apply (@generateTicketHash_views (sampleTicket "fee $0.02") (sampleTicket "fee $0.07"));
      vm_compute; reflexivity.
Defined.

(** * Further properties of the code *)

(** ** Fees and odds *)

Lemma Math_round_mono (x y : Q) : x <= y -> Exact.Math_round x <= Exact.Math_round y.
Proof.
  intros Hxy. unfold Exact.Math_round. rewrite <- Zle_Qle.
  apply Qfloor_resp_le. lra.
Qed.

(** What a result of [calculateAfterFeeOdds] says of its arguments, in
    exact arithmetic. *)
Lemma calculateAfterFeeOdds_inv (price fee : Q) (options : AfterFeeOptions) (odds : Q) :
  calculateAfterFeeOdds price fee options = Some odds ->
  0 < price /\ price <= 1 /\ 0 <= fee /\ price + fee < 1 /\
  odds = Exact.Math_round (rawAfterFeeOdds (price + fee) (1 - (price + fee))).
Proof.
  unfold calculateAfterFeeOdds, calculateAfterFeeOdds_traced.
  unfold validateCalculatedRisk, validateCalculatedProfit, validateAfterFeeOdds.
  fold (rawAfterFeeOdds (price + fee) (of_Z 1 - (price + fee))%js).
  exact_ops. cbn [orb].
  set (risk := price + fee).
  set (raw := rawAfterFeeOdds risk (1 - risk)).
  destruct (Qle_bool price 0) eqn:E1; cbn [orb fst]; [discriminate|].
  destruct (Exact.ltb 1 price) eqn:E2; cbn [fst]; [discriminate|].
  destruct (Exact.ltb fee 0) eqn:E3; cbn [fst]; [discriminate|].
  exact_props.
  assert (Hgate : risk < 1 -> 0 < price /\ price <= 1 /\ 0 <= fee /\ risk < 1) by (intros; repeat split; lra).
  destruct (validationEnabled options).
  - destruct (Exact.ltb 0.0001 (Qabs (risk - risk))); cbn [fst]; [discriminate|].
    destruct (Qle_bool risk 0) eqn:E5; cbn [orb fst]; [discriminate|].
    destruct (Qle_bool 1 risk) eqn:E6; cbn [fst]; [discriminate|].
    destruct (Exact.ltb 0.0001 (Qabs (1 - risk - (1 - risk)))); cbn [fst]; [discriminate|].
    destruct (Qle_bool (1 - risk) 0); cbn [fst]; [discriminate|].
    exact_props.
    destruct (Exact.ltb 1.5 _); cbn [fst]; [discriminate|].
    destruct (Exact.ltb 10000 _); cbn [fst]; [discriminate|].
    intros Hres. inversion Hres. destruct (Hgate E6) as (?&?&?&?). repeat split; assumption.
  - destruct (Qle_bool 1 risk) eqn:E6; cbn [fst]; [discriminate|].
    destruct (Qle_bool (1 - risk) 0); cbn [fst]; [discriminate|].
    exact_props.
    intros Hres. inversion Hres. destruct (Hgate E6) as (?&?&?&?). repeat split; assumption.
Qed.

(** The raw after-fee odds as a function of the risk alone. *)
Lemma rawAfterFeeOdds_low (risk : Q) :
  0 < risk -> risk <= 1 # 2 ->
  rawAfterFeeOdds risk (1 - risk) == 100 * (1 - risk) / risk.
Proof.
  intros H0 H1. unfold rawAfterFeeOdds. exact_ops.
  assert (E : Qle_bool risk (1 - risk) = true) by (apply Qle_bool_iff; lra).
  rewrite E. field. lra.
Qed.

Lemma rawAfterFeeOdds_high (risk : Q) :
  1 # 2 < risk -> risk < 1 ->
  rawAfterFeeOdds risk (1 - risk) == -100 * risk / (1 - risk).
Proof.
  intros H0 H1. unfold rawAfterFeeOdds. exact_ops.
  assert (E : Qle_bool risk (1 - risk) = false) by (apply Qle_bool_false; lra).
  rewrite E. field. lra.
Qed.

Lemma rawAfterFeeOdds_antitone (r1 r2 : Q) :
  0 < r1 -> r1 <= r2 -> r2 < 1 ->
  rawAfterFeeOdds r2 (1 - r2) <= rawAfterFeeOdds r1 (1 - r1).
Proof.
  intros H0 H12 H1.
  destruct (Qlt_le_dec (1 # 2) r1) as [Hh1 | Hl1];
  destruct (Qlt_le_dec (1 # 2) r2) as [Hh2 | Hl2].
  - rewrite (rawAfterFeeOdds_high Hh1), (rawAfterFeeOdds_high Hh2) by lra.
    apply favourite_antitone; lra.
  - lra.
  - rewrite (rawAfterFeeOdds_low H0 Hl1), (rawAfterFeeOdds_high Hh2 H1).
    pose proof (@underdog_at_least_even r1 H0) as U.
    pose proof (@favourite_at_most_even r2) as F.
    assert (U' : 100 <= 100 * (1 - r1) / r1) by (apply U; lra).
    assert (F' : -100 * r2 / (1 - r2) <= -100) by (apply F; lra).
    lra.
  - rewrite (rawAfterFeeOdds_low H0 Hl1), (rawAfterFeeOdds_low) by lra.
    apply underdog_antitone; lra.
Qed.





(** X2. A larger fee never gives better odds: for one price and two fees
    [fee1 <= fee2] for which [calculateAfterFeeOdds] returns odds, the odds
    with [fee2] are at most the odds with [fee1] (exact arithmetic, any
    options). *)
Theorem calculateAfterFeeOdds_fee_antitone :
  forall (price fee1 fee2 : Q) (options1 options2 : AfterFeeOptions) (odds1 odds2 : Q),
    fee1 <= fee2 ->
    calculateAfterFeeOdds price fee1 options1 = Some odds1 ->
    calculateAfterFeeOdds price fee2 options2 = Some odds2 ->
    odds2 <= odds1.
Proof.
  intros price fee1 fee2 options1 options2 odds1 odds2 Hfee H1 H2.
  apply calculateAfterFeeOdds_inv in H1. apply calculateAfterFeeOdds_inv in H2.
  destruct H1 as (Hp0 & Hp1 & Hf1 & Hr1 & ->).
  destruct H2 as (_ & _ & Hf2 & Hr2 & ->).
  apply Math_round_mono. apply rawAfterFeeOdds_antitone; lra.
Qed.

(** Price 0.40: +133 with a fee of 0.03, +127 with a fee of 0.04. *)
Lemma calculateAfterFeeOdds_fee_antitone_witness : (127 : Q) <= 133.
Proof.
  apply (@calculateAfterFeeOdds_fee_antitone 0.4 0.03 0.04 default_options default_options 133 127).
  - vm_compute. congruence.
  - vm_compute. reflexivity.
  - vm_compute. reflexivity.
Defined.

(** ** Numeric validators *)


(** [sanitizeNumericValue] in exact arithmetic, with a number of places. *)
Lemma sanitizeNumericValue_exact (value : Q) (options : SanitizeOptions) (d : nat) :
  maxDecimalPlaces options = Some d ->
  sanitizeNumericValue value options =
  if (negb (allowNegative options) && Exact.ltb value 0)
     || (negb (allowZero options) && Qeq_bool value 0)
  then None
  else Some (Exact.Math_round (value * inject_Z (10 ^ Z.of_nat d)) / inject_Z (10 ^ Z.of_nat d)).
Proof.
  intros Hd. unfold sanitizeNumericValue. rewrite Hd. exact_ops. cbn [negb].
  destruct (negb (allowNegative options) && Exact.ltb value 0); [reflexivity|].
  destruct (negb (allowZero options) && Qeq_bool value 0); reflexivity.
Qed.



(** The integer [Math.round] gives, against integer bounds. *)
Lemma Math_round_ge (n : Z) (x : Q) :
  inject_Z n <= Exact.Math_round x <-> inject_Z n - (1 # 2) <= x.
Proof.
  unfold Exact.Math_round. rewrite <- Zle_Qle, Qfloor_ge.
  set (c := inject_Z n). split; lra.
Qed.

Lemma Math_round_le (n : Z) (x : Q) :
  Exact.Math_round x <= inject_Z n <-> x < inject_Z n + (1 # 2).
Proof.
  unfold Exact.Math_round. rewrite <- Zle_Qle, <- Z.lt_succ_r, Qfloor_lt.
  unfold Z.succ. rewrite inject_Z_plus. change (inject_Z 1) with 1.
  set (c := inject_Z n). split; lra.
Qed.

Lemma Math_round_is_integer (x : Q) : Exact.Number_isInteger (Exact.Math_round x / 1) = true.
Proof.
  apply Number_isInteger_exact. exists (Qfloor (x + (1 # 2))).
  unfold Exact.Math_round. field.
Qed.

(** X4. The odds validator in exact arithmetic: [isValidAmericanOdds]
    accepts exactly the numbers whose rounding to an integer lies in
    [-10000, -100] or in [100, 10000], that is the numbers of
    [-10000.5, -99.5) and of [99.5, 10000.5). *)
Theorem isValidAmericanOdds_exact :
  forall odds : Q,
    isValidAmericanOdds odds = true <->
    (-10000.5 <= odds /\ odds < -99.5) \/ (99.5 <= odds /\ odds < 10000.5).
Proof.
  intros odds. unfold isValidAmericanOdds.
  rewrite sanitizeNumericValue_exact with (d := 0%nat) by reflexivity.
  cbn [allowNegative allowZero negb andb orb].
  change (inject_Z (10 ^ Z.of_nat 0)) with 1.
  exact_ops. cbn [negb].
  destruct (Qeq_bool odds 0) eqn:E0; exact_props.
  { split; [discriminate | intros [Hr | Hr]; lra]. }
  rewrite Math_round_is_integer. cbn [negb].
  set (r := Exact.Math_round (odds * 1)).
  assert (Hs : r / 1 == r) by field.
  assert (G1 : forall n, inject_Z n <= r <-> inject_Z n - (1 # 2) <= odds * 1)
    by (intros n; apply Math_round_ge).
  assert (G2 : forall n, r <= inject_Z n <-> odds * 1 < inject_Z n + (1 # 2))
    by (intros n; apply Math_round_le).
  clearbody r.
  split.
  - intros Hv.
    destruct (Exact.ltb (-100) (r / 1) && Exact.ltb (r / 1) 100) eqn:E1; [discriminate|].
    destruct (Exact.ltb (r / 1) (-10000)) eqn:E2; [discriminate|].
    destruct (Exact.ltb 10000 (r / 1)) eqn:E3; [discriminate|].
    exact_props. rewrite Hs in E2, E3.
    pose proof (proj1 (G1 (-10000)%Z) E2) as Hlo.
    pose proof (proj1 (G2 10000%Z) E3) as Hhi.
    change (inject_Z (-10000)) with (-10000) in Hlo.
    change (inject_Z 10000) with 10000 in Hhi.
    apply andb_false_iff in E1. destruct E1 as [E1 | E1]; exact_props; rewrite Hs in E1.
    + left. pose proof (proj1 (G2 (-100)%Z) E1) as H1.
      change (inject_Z (-100)) with (-100) in H1. split; lra.
    + right. pose proof (proj1 (G1 100%Z) E1) as H1.
      change (inject_Z 100) with 100 in H1. split; lra.
  - intros Hr.
    assert (E2 : Exact.ltb (r / 1) (-10000) = false).
    { apply Exact_ltb_false. rewrite Hs. apply (G1 (-10000)%Z).
      change (inject_Z (-10000)) with (-10000). lra. }
    assert (E3 : Exact.ltb 10000 (r / 1) = false).
    { apply Exact_ltb_false. rewrite Hs. apply (G2 10000%Z).
      change (inject_Z 10000) with 10000. lra. }
    assert (E1 : Exact.ltb (-100) (r / 1) && Exact.ltb (r / 1) 100 = false).
    { apply andb_false_iff. destruct Hr as [Hr | Hr]; [left | right];
        apply Exact_ltb_false; rewrite Hs.
      - apply (G2 (-100)%Z). change (inject_Z (-100)) with (-100). lra.
      - apply (G1 100%Z). change (inject_Z 100) with 100. lra. }
    rewrite E1, E2, E3. reflexivity.
Qed.

(** ** Range of the converted odds *)


Lemma oddsOf_outside_even (p : Q) :
  0 < p -> p < 1 -> (100 <= oddsOf p \/ oddsOf p <= -100)%Z.
Proof.
  intros H0 H1. unfold oddsOf.
  destruct (Exact.ltb (Qabs (p - 0.5)) 0.001) eqn:N.
  - left. vm_compute. discriminate.
  - destruct (Exact.ltb p 0.5) eqn:L; exact_props.
    + left. apply Qfloor_ge. change (inject_Z 100) with 100.
      assert (U : 100 <= 100 * (1 - p) / p) by (apply underdog_at_least_even; lra).
      lra.
    + right. apply Z.lt_succ_r. apply Qfloor_lt.
      change (inject_Z (Z.succ (-100))) with (-99).
      assert (F : -100 * p / (1 - p) <= -100) by (apply favourite_at_most_even; lra).
      lra.
Qed.

Lemma oddsOf_on_price_range (p : Q) :
  0.01 <= p -> p <= 0.99 -> (-9900 <= oddsOf p <= 9900)%Z.
Proof.
  intros H0 H1. unfold oddsOf.
  destruct (Exact.ltb (Qabs (p - 0.5)) 0.001) eqn:N.
  - vm_compute. split; discriminate.
  - destruct (Exact.ltb p 0.5) eqn:L; exact_props.
    + assert (U : 100 * (1 - p) / p <= 100 * (1 - 0.01) / 0.01)
        by (apply underdog_antitone; lra).
      assert (V : 100 * (1 - 0.01) / 0.01 == 9900) by (vm_compute; reflexivity).
      assert (W : 100 <= 100 * (1 - p) / p) by (apply underdog_at_least_even; lra).
      split.
      * apply Qfloor_ge. change (inject_Z (-9900)) with (-9900). lra.
      * apply Z.lt_succ_r. apply Qfloor_lt. change (inject_Z (Z.succ 9900)) with 9901. lra.
    + assert (U : -100 * 0.99 / (1 - 0.99) <= -100 * p / (1 - p))
        by (apply favourite_antitone; lra).
      assert (V : -100 * 0.99 / (1 - 0.99) == -9900) by (vm_compute; reflexivity).
      assert (W : -100 * p / (1 - p) <= -100) by (apply favourite_at_most_even; lra).
      split.
      * apply Qfloor_ge. change (inject_Z (-9900)) with (-9900). lra.
      * apply Z.lt_succ_r. apply Qfloor_lt. change (inject_Z (Z.succ 9900)) with 9901. lra.
Qed.



(** X6. Every price from one cent to 99 cents converts to odds that the
    odds validator accepts (exact arithmetic). *)
Theorem probabilityToAmericanOdds_passes_validator :
  forall p : Q,
    0.01 <= p -> p <= 0.99 ->
    exists odds : Q,
      probabilityToAmericanOdds p = Some odds /\ isValidAmericanOdds odds = true.
Proof.
  intros p H0 H1.
  exists (inject_Z (oddsOf p)).
  split; [apply probabilityToAmericanOdds_inside; lra|].
  apply isValidAmericanOdds_exact.
  destruct (@oddsOf_outside_even p) as [Hn | Hn]; try lra;
    destruct (oddsOf_on_price_range H0 H1) as [Hlo Hhi];
    rewrite Zle_Qle in Hn, Hlo, Hhi;
    change (inject_Z 100) with 100 in *; change (inject_Z (-100)) with (-100) in *;
    change (inject_Z 9900) with 9900 in *; change (inject_Z (-9900)) with (-9900) in *;
    set (c := inject_Z (oddsOf p)) in *; [right | left]; split; lra.
Qed.

(** The price 0.99: -9900. *)
Lemma probabilityToAmericanOdds_passes_validator_witness :
  exists odds : Q,
    probabilityToAmericanOdds 0.99%Q = Some odds /\ isValidAmericanOdds odds = true.
Proof.
  apply probabilityToAmericanOdds_passes_validator; vm_compute; congruence.
Defined.

(** ** Odds to probability and the suggested price *)

(** [americanOddsToProbability] in exact arithmetic. *)
Lemma americanOddsToProbability_exact (odds : Q) :
  (odds == 0 -> americanOddsToProbability odds = None) /\
  (0 < odds -> americanOddsToProbability odds = Some (100 / (odds + 100))) /\
  (odds < 0 -> americanOddsToProbability odds = Some (Qabs odds / (Qabs odds + 100))).
Proof.
  unfold americanOddsToProbability. exact_ops. cbn [negb orb].
  repeat split; intros Ho.
  - assert (E : Qeq_bool odds 0 = true) by (apply Qeq_bool_iff; exact Ho).
    rewrite E. reflexivity.
  - assert (E : Qeq_bool odds 0 = false) by (apply Qeq_bool_false; lra).
    assert (E' : Exact.ltb 0 odds = true) by (apply Exact_ltb_true; exact Ho).
    rewrite E, E'. reflexivity.
  - assert (E : Qeq_bool odds 0 = false) by (apply Qeq_bool_false; lra).
    assert (E' : Exact.ltb 0 odds = false) by (apply Exact_ltb_false; lra).
    rewrite E, E'. reflexivity.
Qed.

Lemma implied_positive (odds : Q) :
  0 < odds -> 0 < 100 / (odds + 100) /\ 100 / (odds + 100) < 1.
Proof.
  intros Ho. split; [apply Qlt_shift_div_l | apply Qlt_shift_div_r]; lra.
Qed.

Lemma implied_negative (odds : Q) :
  odds < 0 ->
  Qabs odds / (Qabs odds + 100) == - odds / (- odds + 100) /\
  0 < - odds / (- odds + 100) /\ - odds / (- odds + 100) < 1.
Proof.
  intros Ho.
  assert (Ha : Qabs odds == - odds) by (apply Qabs_neg; lra).
  split; [rewrite Ha; reflexivity|].
  split; [apply Qlt_shift_div_l | apply Qlt_shift_div_r]; lra.
Qed.



(** [Math.max(0.01, Math.min(1.00, x))] in exact arithmetic. *)
Lemma clamp_range (x : Q) :
  0.01 <= Math_max 0.01 (Math_min 1 x) /\ Math_max 0.01 (Math_min 1 x) <= 1.
Proof.
  unfold Math_max, Math_min. exact_ops.
  destruct (Exact.ltb 1 x) eqn:E1; [|destruct (Exact.ltb x 1) eqn:E2;
    [|destruct (Exact.ltb (1 / 1) 0) eqn:E3]];
  match goal with
  | |- context [Exact.ltb 0.01 ?y] =>
      destruct (Exact.ltb 0.01 y) eqn:F1; [|destruct (Exact.ltb y 0.01) eqn:F2;
        [|destruct (Exact.ltb (1 / 0.01) 0) eqn:F3]]
  end; exact_props; split; lra.
Qed.

Lemma clamp_inside (x : Q) :
  0.01 <= x -> x <= 1 -> Math_max 0.01 (Math_min 1 x) == x.
Proof.
  intros H0 H1. unfold Math_max, Math_min. exact_ops.
  destruct (Exact.ltb 1 x) eqn:E1; [|destruct (Exact.ltb x 1) eqn:E2;
    [|destruct (Exact.ltb (1 / 1) 0) eqn:E3]];
  match goal with
  | |- context [Exact.ltb 0.01 ?y] =>
      destruct (Exact.ltb 0.01 y) eqn:F1; [|destruct (Exact.ltb y 0.01) eqn:F2;
        [|destruct (Exact.ltb (1 / 0.01) 0) eqn:F3]]
  end; exact_props; lra.
Qed.

Lemma calculateSuggestedPrice_exact (odds p : Q) :
  americanOddsToProbability odds = Some p ->
  calculateSuggestedPrice odds "YES" = Some (Math_max 0.01 (Math_min 1 p)) /\
  calculateSuggestedPrice odds "NO" = Some (Math_max 0.01 (Math_min 1 (1 - p))).
Proof.
  intros Hp. unfold calculateSuggestedPrice. rewrite Hp. split; reflexivity.
Qed.

(** X8. A suggested price is always a Kalshi price: [calculateSuggestedPrice]
    returns a result only for the sides YES and NO, and the result lies in
    [0.01, 1.00] (exact arithmetic). *)
Theorem calculateSuggestedPrice_range :
  forall (odds : Q) (side : string) (price : Q),
    calculateSuggestedPrice odds side = Some price ->
    (side = "YES"%string \/ side = "NO"%string) /\ 0.01 <= price /\ price <= 1.
Proof.
  intros odds side price. unfold calculateSuggestedPrice.
  destruct (americanOddsToProbability odds) as [p|]; [|discriminate].
  destruct (String.eqb side "YES") eqn:EY; destruct (String.eqb side "NO") eqn:EN;
    cbn [negb andb]; try discriminate;
    intros Hres; inversion Hres; subst price;
    (split; [|exact_ops; apply clamp_range]).
  - left. apply String.eqb_eq. exact EY.
  - left. apply String.eqb_eq. exact EY.
  - right. apply String.eqb_eq. exact EN.
Qed.

(** The odds +150 on the side NO: the price 0.60. *)
Lemma calculateSuggestedPrice_range_witness :
  ("NO"%string = "YES"%string \/ "NO"%string = "NO"%string) /\
  0.01 <= Math_max 0.01 (Math_min 1 (1 - 100 / (150 + 100))) /\
  Math_max 0.01 (Math_min 1 (1 - 100 / (150 + 100))) <= 1.
Proof.
  apply (@calculateSuggestedPrice_range 150 "NO"). reflexivity.
Defined.

(** X9. For odds between 100 and 9900 in magnitude the prices suggested
    for YES and for NO add up to one dollar (exact arithmetic). *)
Theorem calculateSuggestedPrice_complement :
  forall odds : Q,
    (100 <= odds /\ odds <= 9900) \/ (-9900 <= odds /\ odds <= -100) ->
    exists yes no : Q,
      calculateSuggestedPrice odds "YES" = Some yes /\
      calculateSuggestedPrice odds "NO" = Some no /\
      yes + no == 1.
Proof.
  intros odds Hr.
  assert (Hp : exists p, americanOddsToProbability odds = Some p /\ 0.01 <= p /\ p <= 0.99).
  { destruct (americanOddsToProbability_exact odds) as (_ & Hpos & Hneg).
    destruct Hr as [[Hlo Hhi] | [Hlo Hhi]].
    - eexists. split; [apply Hpos; lra|].
      split; [apply Qle_shift_div_l | apply Qle_shift_div_r]; lra.
    - destruct (@implied_negative odds) as (Ha & _ & _); [lra|].
      eexists. split; [apply Hneg; lra|]. rewrite Ha.
      split; [apply Qle_shift_div_l | apply Qle_shift_div_r]; lra. }
  destruct Hp as (p & Hp & H0 & H1).
  destruct (calculateSuggestedPrice_exact _ Hp) as [Hyes Hno].
  eexists. eexists. split; [exact Hyes|]. split; [exact Hno|].
  rewrite (@clamp_inside p), (@clamp_inside (1 - p)) by lra. ring.
Qed.

(** The odds -186. *)
Lemma calculateSuggestedPrice_complement_witness :
  exists yes no : Q,
    calculateSuggestedPrice (-186)%Q "YES" = Some yes /\
    calculateSuggestedPrice (-186)%Q "NO" = Some no /\
    yes + no == 1.
Proof.
  apply calculateSuggestedPrice_complement. right. vm_compute. split; congruence.
Defined.

Lemma Exact_ltb_comp (a b c d : Q) : a == c -> b == d -> Exact.ltb a b = Exact.ltb c d.
Proof. intros H1 H2. unfold Exact.ltb. rewrite H1, H2. reflexivity. Qed.

Lemma oddsOf_comp (p q : Q) : p == q -> oddsOf p = oddsOf q.
Proof.
  intros Hpq. unfold oddsOf.
  rewrite (@Exact_ltb_comp (Qabs (p - 0.5)) 0.001 (Qabs (q - 0.5)) 0.001)
    by (rewrite ?Hpq; reflexivity).
  rewrite (@Exact_ltb_comp p 0.5 q 0.5) by (rewrite ?Hpq; reflexivity).
  destruct (Exact.ltb (Qabs (q - 0.5)) 0.001); [reflexivity|].
  destruct (Exact.ltb q 0.5); apply Qfloor_comp; rewrite Hpq; reflexivity.
Qed.

Lemma probabilityToAmericanOdds_comp (p q : Q) :
  0 < p -> p < 1 -> p == q -> probabilityToAmericanOdds q = probabilityToAmericanOdds p.
Proof.
  intros H0 H1 Hpq.
  rewrite (@probabilityToAmericanOdds_inside p), (@probabilityToAmericanOdds_inside q)
    by (rewrite <- ?Hpq; assumption).
  rewrite (oddsOf_comp Hpq). reflexivity.
Qed.

(** X10. The price suggested for YES converts back to the odds typed: for
    integer odds from 100 to 9900, or from -9900 to -101,
    [probabilityToAmericanOdds] of the YES price of
    [calculateSuggestedPrice] is the odds themselves (exact arithmetic). *)
Theorem calculateSuggestedPrice_round_trip :
  forall n : Z,
    (100 <= n <= 9900 \/ -9900 <= n <= -101)%Z ->
    exists price : Q,
      calculateSuggestedPrice (inject_Z n) "YES" = Some price /\
      probabilityToAmericanOdds price = Some (inject_Z n).
Proof.
  intros n Hn.
  assert (Hodds : (100 <= inject_Z n /\ inject_Z n <= 9900) \/
                  (-9900 <= inject_Z n /\ inject_Z n <= -101)).
  { destruct Hn as [[Hlo Hhi] | [Hlo Hhi]]; rewrite Zle_Qle in Hlo, Hhi; [left | right];
      split; assumption. }
  assert (Hrt : roundTrip (inject_Z n) = Some (inject_Z n)).
  { destruct Hn as [Hn | Hn]; [apply roundTrip_positive | apply roundTrip_negative]; lia. }
  assert (Hp : exists p, americanOddsToProbability (inject_Z n) = Some p /\ 0.01 <= p /\ p <= 0.99).
  { destruct (americanOddsToProbability_exact (inject_Z n)) as (_ & Hpos & Hneg).
    set (c := inject_Z n) in *. clearbody c.
    destruct Hodds as [[Hlo Hhi] | [Hlo Hhi]].
    - eexists. split; [apply Hpos; lra|].
      split; [apply Qle_shift_div_l | apply Qle_shift_div_r]; lra.
    - destruct (@implied_negative c) as (Ha & _ & _); [lra|].
      eexists. split; [apply Hneg; lra|]. rewrite Ha.
      split; [apply Qle_shift_div_l | apply Qle_shift_div_r]; lra. }
  destruct Hp as (p & Hp & H0 & H1).
  unfold roundTrip in Hrt. rewrite Hp in Hrt.
  destruct (calculateSuggestedPrice_exact _ Hp) as [Hyes _].
  eexists. split; [exact Hyes|].
  rewrite <- Hrt. apply probabilityToAmericanOdds_comp; try lra.
  symmetry. apply clamp_inside; lra.
Qed.

(** The odds -186: the YES price 0.6503... and back. *)
Lemma calculateSuggestedPrice_round_trip_witness :
  exists price : Q,
    calculateSuggestedPrice (inject_Z (-186)) "YES" = Some price /\
    probabilityToAmericanOdds price = Some (inject_Z (-186)).
Proof.
  apply calculateSuggestedPrice_round_trip. right. lia.
Defined.

(** X11. The implied percentage shown in the helper is the implied
    probability in percent rounded to one decimal: for non-zero odds
    [getImpliedProbabilityPercent] is within 0.05 of one hundred times
    [americanOddsToProbability], is a whole number of tenths and lies
    between 0 and 100 (exact arithmetic). *)
Theorem getImpliedProbabilityPercent_rounds :
  forall odds p : Q,
    americanOddsToProbability odds = Some p ->
    exists (percent : Q) (tenths : Z),
      getImpliedProbabilityPercent odds = Some percent /\
      percent == inject_Z tenths / 10 /\
      Qabs (percent - 100 * p) <= 0.05 /\
      0 <= percent /\ percent <= 100.
Proof.
  intros odds p Hp.
  assert (Hrange : 0 < p /\ p < 1 /\
    getImpliedProbabilityPercent odds = Some (Exact.Math_round (p * 100 * 10) / 10)).
  { destruct (americanOddsToProbability_exact odds) as (Hz & Hpos & Hneg).
    unfold getImpliedProbabilityPercent. exact_ops.
    destruct (Q_dec odds 0) as [[Ho | Ho] | Ho].
    - rewrite (Hneg Ho) in Hp. injection Hp as Hp'. subst p.
      destruct (implied_negative Ho) as (Ha & H0 & H1).
      assert (E : Exact.ltb 0 odds = false) by (apply Exact_ltb_false; lra).
      rewrite E. split; [rewrite Ha; exact H0|]. split; [rewrite Ha; exact H1|]. reflexivity.
    - rewrite (Hpos Ho) in Hp. injection Hp as Hp'. subst p.
      destruct (implied_positive Ho) as (H0 & H1).
      assert (E : Exact.ltb 0 odds = true) by (apply Exact_ltb_true; lra).
      rewrite E. split; [exact H0|]. split; [exact H1|]. reflexivity.
    - rewrite (Hz Ho) in Hp. discriminate. }
  destruct Hrange as (H0 & H1 & Hres).
  exists (Exact.Math_round (p * 100 * 10) / 10), (Qfloor (p * 100 * 10 + (1 # 2))).
  split; [exact Hres|]. split; [reflexivity|].
  destruct (Math_round_bounds (p * 100 * 10)) as [Hlo Hhi].
  assert (Hge : 0 <= Exact.Math_round (p * 100 * 10)).
  { apply (Math_round_ge 0). change (inject_Z 0) with 0. lra. }
  assert (Hle : Exact.Math_round (p * 100 * 10) <= 1000).
  { apply (Math_round_le 1000). change (inject_Z 1000) with 1000. lra. }
  set (r := Exact.Math_round (p * 100 * 10)) in *. clearbody r.
  assert (Hs : r / 10 == r * (1 # 10)) by field.
  rewrite Hs.
  split; [apply Qabs_Qle_condition; split; lra|]. split; lra.
Qed.

(** The odds -186: 65.0 percent. *)
Lemma getImpliedProbabilityPercent_rounds_witness :
  exists (percent : Q) (tenths : Z),
    getImpliedProbabilityPercent (-186)%Q = Some percent /\
    percent == inject_Z tenths / 10 /\
    Qabs (percent - 100 * (186 / (186 + 100))) <= 0.05 /\
    0 <= percent /\ percent <= 100.
Proof.
  apply getImpliedProbabilityPercent_rounds. reflexivity.
Defined.

(** ** Fee and probability validators *)

(** X12. The fee validator in exact arithmetic: [isValidFee] accepts
    exactly the fees that round, at four decimals, into [0, 1000], that is
    the fees of [0, 1000.00005). *)
Theorem isValidFee_exact :
  forall fee : Q, isValidFee fee = true <-> 0 <= fee /\ fee < 1000.00005.
Proof.
  intros fee. unfold isValidFee.
  rewrite sanitizeNumericValue_exact with (d := 4%nat) by reflexivity.
  cbn [allowNegative allowZero negb andb orb].
  change (inject_Z (10 ^ Z.of_nat 4)) with 10000.
  rewrite orb_false_r.
  destruct (Exact.ltb fee 0) eqn:E0; exact_props.
  { split; [discriminate | intros [Hlo _]; lra]. }
  exact_ops. cbn [negb].
  pose proof (decimalPlaces_scaled (Qfloor (fee * 10000 + (1 # 2)))) as Hd.
  apply Nat.ltb_ge in Hd.
  change (inject_Z (Qfloor (fee * 10000 + (1 # 2)))) with (Exact.Math_round (fee * 10000)) in Hd.
  rewrite Hd.
  set (r := Exact.Math_round (fee * 10000)).
  assert (Hs : r / 10000 == r * (1 # 10000)) by field.
  assert (G1 : inject_Z 0 <= r <-> inject_Z 0 - (1 # 2) <= fee * 10000)
    by (apply Math_round_ge).
  assert (G2 : r <= inject_Z 10000000 <-> fee * 10000 < inject_Z 10000000 + (1 # 2))
    by (apply Math_round_le).
  change (inject_Z 0) with 0 in *. change (inject_Z 10000000) with 10000000 in *.
  clearbody r.
  assert (Hr0 : 0 <= r) by (apply G1; lra).
  assert (E1 : Exact.ltb (r / 10000) 0 = false) by (apply Exact_ltb_false; rewrite Hs; lra).
  rewrite E1.
  split.
  - intros Hv.
    destruct (Exact.ltb 1000 (r / 10000)) eqn:E2; [discriminate|].
    exact_props. rewrite Hs in E2.
    assert (Hr : r <= 10000000) by lra. apply G2 in Hr. split; lra.
  - intros [Hlo Hhi].
    assert (Hr : r <= 10000000) by (apply G2; lra).
    assert (E2 : Exact.ltb 1000 (r / 10000) = false) by (apply Exact_ltb_false; rewrite Hs; lra).
    rewrite E2. reflexivity.
Qed.

(** X13. The probability validator in exact arithmetic:
    [isValidProbability] accepts exactly the numbers that round, at six
    decimals, into [0, 1], that is the numbers of [0, 1.0000005). *)
Theorem isValidProbability_exact :
  forall probability : Q,
    isValidProbability probability = true <-> 0 <= probability /\ probability < 1.0000005.
Proof.
  intros p. unfold isValidProbability.
  rewrite sanitizeNumericValue_exact with (d := 6%nat) by reflexivity.
  cbn [allowNegative allowZero negb andb orb].
  change (inject_Z (10 ^ Z.of_nat 6)) with 1000000.
  rewrite orb_false_r.
  destruct (Exact.ltb p 0) eqn:E0; exact_props.
  { split; [discriminate | intros [Hlo _]; lra]. }
  exact_ops. cbn [negb].
  set (r := Exact.Math_round (p * 1000000)).
  assert (Hs : r / 1000000 == r * (1 # 1000000)) by field.
  assert (G1 : inject_Z 0 <= r <-> inject_Z 0 - (1 # 2) <= p * 1000000)
    by (apply Math_round_ge).
  assert (G2 : r <= inject_Z 1000000 <-> p * 1000000 < inject_Z 1000000 + (1 # 2))
    by (apply Math_round_le).
  change (inject_Z 0) with 0 in *. change (inject_Z 1000000) with 1000000 in *.
  clearbody r.
  assert (Hr0 : 0 <= r) by (apply G1; lra).
  assert (E1 : Exact.ltb (r / 1000000) 0 = false) by (apply Exact_ltb_false; rewrite Hs; lra).
  rewrite E1.
  split.
  - intros Hv.
    destruct (Exact.ltb 1 (r / 1000000)) eqn:E2; [discriminate|].
    exact_props. rewrite Hs in E2.
    assert (Hr : r <= 1000000) by lra. apply G2 in Hr. split; lra.
  - intros [Hlo Hhi].
    assert (Hr : r <= 1000000) by (apply G2; lra).
    assert (E2 : Exact.ltb 1 (r / 1000000) = false) by (apply Exact_ltb_false; rewrite Hs; lra).
    rewrite E2. reflexivity.
Qed.

(** ** Validation of a group of values *)

Section GroupValidation.

Context {num : Type} `{JSNumber num}.

Lemma blockErrors_nil (field : NumericField) (detail : option (FieldDetail num)) :
  blockErrors field detail = [] <-> notInvalid detail = true.
Proof.
  unfold blockErrors, notInvalid.
  destruct detail as [d|]; [|split; reflexivity].
  destruct (detail_isValid d); split; congruence.
Qed.

Lemma validateAllNumericValues_strict_errors (values : PerField (option num)) :
  results_isValid (validateAllNumericValues values true) = true <->
  results_errors (validateAllNumericValues values true) = [].
Proof.
  unfold validateAllNumericValues. cbn [results_isValid results_errors].
  rewrite !andb_true_iff.
  repeat match goal with
  | |- context [notInvalid ?d = true] =>
      lazymatch goal with
      | |- context [blockErrors ?f d] => rewrite <- (blockErrors_nil f d)
      end
  end.
  split.
  - intros [[[[H1 H2] H3] H4] H5]. rewrite H1, H2, H3, H4, H5. reflexivity.
  - intros Happ.
    apply app_eq_nil in Happ. destruct Happ as [H1 Happ].
    apply app_eq_nil in Happ. destruct Happ as [H2 Happ].
    apply app_eq_nil in Happ. destruct Happ as [H3 Happ].
    apply app_eq_nil in Happ. destruct Happ as [H4 H5].
    repeat split; assumption.
Qed.

End GroupValidation.

(** In strict mode [validateAllNumericValues] reports a valid result
    exactly when it reports no error, whatever the values (every number
    instance); a group with no value at all is valid. *)
Lemma validateAllNumericValues_strict :
  forall (num : Type) (N : JSNumber num) (values : PerField (option num)),
    (results_isValid (validateAllNumericValues values true) = true <->
     results_errors (validateAllNumericValues values true) = []) /\
    results_isValid
      (validateAllNumericValues
         {| for_price := None; for_quantity := None; for_fee := None;
            for_odds := None; for_probability := @None num |} true) = true.
Proof.
  intros num N values. split; [apply validateAllNumericValues_strict_errors | reflexivity].
Qed.

(** Sanitising before validating changes nothing, in exact arithmetic. *)
Lemma isValidPrice_sanitized (p : Q) :
  match sanitizeNumericValue p
          {| allowNegative := false; allowZero := false; maxDecimalPlaces := Some 4%nat |} with
  | Some s => isValidPrice s
  | None => false
  end = isValidPrice p.
Proof.
  apply eq_true_iff_eq. rewrite isValidPrice_exact.
  rewrite sanitizeNumericValue_exact with (d := 4%nat) by reflexivity.
  cbn [allowNegative allowZero negb andb].
  change (inject_Z (10 ^ Z.of_nat 4)) with 10000.
  destruct (Exact.ltb p 0 || Qeq_bool p 0) eqn:E0.
  { apply orb_true_iff in E0. destruct E0; exact_props;
      (split; [discriminate | intros [Hlo _]; lra]). }
  apply orb_false_iff in E0. destruct E0 as [E0 E0']. exact_props.
  unfold Exact.Math_round. rewrite isValidPrice_on_grid.
  fold (Exact.Math_round (p * 10000)).
  assert (G1 : inject_Z 100 <= Exact.Math_round (p * 10000) <->
               inject_Z 100 - (1 # 2) <= p * 10000) by apply Math_round_ge.
  assert (G2 : Exact.Math_round (p * 10000) <= inject_Z 10000 <->
               p * 10000 < inject_Z 10000 + (1 # 2)) by apply Math_round_le.
  change (inject_Z 100) with 100 in *. change (inject_Z 10000) with 10000 in *.
  set (r := Exact.Math_round (p * 10000)) in *. clearbody r.
  assert (Hs : r / 10000 == r * (1 # 10000)) by field. rewrite Hs.
  split; intros [Hlo Hhi].
  - assert (H1 : 100 <= r) by lra. assert (H2 : r <= 10000) by lra.
    apply G1 in H1. apply G2 in H2. split; lra.
  - assert (H1 : 100 <= r) by (apply G1; lra).
    assert (H2 : r <= 10000) by (apply G2; lra). split; lra.
Qed.

Lemma isValidQuantity_sanitized (q : Q) :
  match sanitizeNumericValue q
          {| allowNegative := false; allowZero := false; maxDecimalPlaces := Some 0%nat |} with
  | Some s => isValidQuantity s
  | None => false
  end = isValidQuantity q.
Proof.
  apply eq_true_iff_eq. rewrite isValidQuantity_exact.
  rewrite sanitizeNumericValue_exact with (d := 0%nat) by reflexivity.
  cbn [allowNegative allowZero negb andb].
  change (inject_Z (10 ^ Z.of_nat 0)) with 1.
  destruct (Exact.ltb q 0 || Qeq_bool q 0) eqn:E0.
  { apply orb_true_iff in E0. destruct E0; exact_props;
      (split; [discriminate | intros [Hlo _]; lra]). }
  apply orb_false_iff in E0. destruct E0 as [E0 E0']. exact_props.
  rewrite isValidQuantity_exact.
  assert (G1 : inject_Z 1 <= Exact.Math_round (q * 1) <->
               inject_Z 1 - (1 # 2) <= q * 1) by apply Math_round_ge.
  assert (G2 : Exact.Math_round (q * 1) <= inject_Z 10000 <->
               q * 1 < inject_Z 10000 + (1 # 2)) by apply Math_round_le.
  assert (Hint : exists k, Exact.Math_round (q * 1) = inject_Z k) by (eexists; reflexivity).
  destruct Hint as [k Hk].
  change (inject_Z 1) with 1 in *. change (inject_Z 10000) with 10000 in *.
  set (r := Exact.Math_round (q * 1)) in *. clearbody r.
  assert (Hs : r / 1 == r) by field. rewrite Hs.
  split; intros [Hlo Hhi].
  - assert (H1 : 1 <= r).
    { subst r. assert (Hk : (0 < k)%Z) by (rewrite Zlt_Qlt; change (inject_Z 0) with 0; lra).
      assert (Hk' : (1 <= k)%Z) by lia. rewrite Zle_Qle in Hk'. exact Hk'. }
    assert (H2 : r <= 10000).
    { subst r. assert (Hk : (k < 10001)%Z) by (rewrite Zlt_Qlt; change (inject_Z 10001) with 10001; lra).
      assert (Hk' : (k <= 10000)%Z) by lia. rewrite Zle_Qle in Hk'. exact Hk'. }
    apply G1 in H1. apply G2 in H2. split; lra.
  - assert (H1 : 1 <= r) by (apply G1; lra).
    assert (H2 : r <= 10000) by (apply G2; lra). split; lra.
Qed.

(** X14. Without strict mode [validateAllNumericValues] looks at price and
    quantity only: in exact arithmetic the result is valid exactly when a
    price or a quantity is given and each of the two that is given passes
    its own validator, [isValidPrice] or [isValidQuantity]; fee, odds and
    probability have no part in it. *)
Theorem validateAllNumericValues_lenient :
  forall values : PerField (option Q),
    results_isValid (validateAllNumericValues values false) = true <->
    (for_price values <> None \/ for_quantity values <> None) /\
    (forall p, for_price values = Some p -> isValidPrice p = true) /\
    (forall q, for_quantity values = Some q -> isValidQuantity q = true).
Proof.
  intros values. unfold validateAllNumericValues. cbn [results_isValid].
  unfold checkValue, present, notInvalid.
  destruct (for_price values) as [p|]; destruct (for_quantity values) as [q|];
    cbn [detail_isValid orb andb];
    rewrite ?isValidPrice_sanitized, ?isValidQuantity_sanitized.
  - rewrite andb_true_iff. split.
    + intros [Hp Hq]. split; [left; discriminate|].
      split; intros x Hx; inversion Hx; subst; assumption.
    + intros (_ & Hp & Hq). split; [apply Hp | apply Hq]; reflexivity.
  - rewrite andb_true_r. split.
    + intros Hp. split; [left; discriminate|].
      split; intros x Hx; inversion Hx; subst; assumption.
    + intros (_ & Hp & _). apply Hp. reflexivity.
  - split.
    + intros Hq. split; [right; discriminate|].
      split; intros x Hx; inversion Hx; subst; assumption.
    + intros (_ & _ & Hq). apply Hq. reflexivity.
  - split; [discriminate|]. intros ([Hn | Hn] & _); contradiction.
Qed.

(** ** After-fee odds from a ticket *)



Lemma taker_fee_single_contract (p : Q) :
  0 < p -> p < 1 ->
  exists e : FeeEstimate Q,
    calculateKalshiFeeEstimate p 1
      {| feeType := Some "taker"%string; assumeMakerFeeFree := Some false |} = Some e /\
    (7 * p * (1 - p) <= 1 -> est_perContractFee e == 0.01) /\
    (1 < 7 * p * (1 - p) -> est_perContractFee e == 0.02).
Proof.
  intros H0 H1. unfold calculateKalshiFeeEstimate.
  cbn [feeType assumeMakerFeeFree]. unfold feeRateFor.
  cbn [String.eqb Ascii.eqb Bool.eqb andb].
  exact_ops. cbn [orb negb].
  assert (E1 : Qle_bool p 0 = false) by (apply Qle_bool_false; lra).
  assert (E2 : Exact.ltb 1 p = false) by (apply Exact_ltb_false; lra).
  rewrite E1, E2. cbn [orb].
  change (Qle_bool 1 0 || negb (Exact.Number_isInteger 1)) with false. cbn iota.
  eexists. split; [reflexivity|]. cbn [est_perContractFee].
  unfold Exact.Math_ceil.
  set (x := 0.07 * p * (1 - p) * 1 * 100).
  assert (Hx : x == 7 * p * (1 - p)) by (unfold x; ring).
  assert (Hpp : 0 < p * (1 - p)) by (apply Qmult_lt_0_compat; lra).
  assert (Hsq : 0 <= (p - (1 # 2)) * (p - (1 # 2))).
  { destruct (Qlt_le_dec p (1 # 2)) as [Hl | Hg].
    - setoid_replace ((p - (1 # 2)) * (p - (1 # 2))) with (((1 # 2) - p) * ((1 # 2) - p)) by ring.
      apply Qmult_le_0_compat; lra.
    - apply Qmult_le_0_compat; lra. }
  assert (Hx0 : 0 < x) by (rewrite Hx; lra).
  assert (Hx1 : x <= 1.75) by (rewrite Hx; lra).
  pose proof (Qle_ceiling x) as Hle.
  pose proof (Qceiling_lt x) as Hlt.
  unfold Z.sub in Hlt. rewrite inject_Z_plus, inject_Z_opp in Hlt.
  change (inject_Z 1) with 1 in Hlt.
  assert (Hc : forall n : Z, inject_Z (Qceiling x) / 100 / 1 == inject_Z n / 100 <->
                             Qceiling x = n).
  { intros n. split.
    - intros Heq. apply inject_Z_injective.
      set (a := inject_Z (Qceiling x)) in *. set (b := inject_Z n) in *.
      assert (Ha : a / 100 / 1 == a * (1 # 100)) by field.
      assert (Hb : b / 100 == b * (1 # 100)) by field.
      rewrite Ha, Hb in Heq. lra.
    - intros ->. field. }
  split; intros Hcase; rewrite <- Hx in Hcase.
  - apply (Hc 1%Z).
    assert (Hlo : (0 < Qceiling x)%Z) by (rewrite Zlt_Qlt; change (inject_Z 0) with 0; lra).
    assert (Hhi : (Qceiling x < 2)%Z) by (rewrite Zlt_Qlt; change (inject_Z 2) with 2; lra).
    lia.
  - apply (Hc 2%Z).
    assert (Hlo : (1 < Qceiling x)%Z) by (rewrite Zlt_Qlt; change (inject_Z 1) with 1; lra).
    assert (Hhi : (Qceiling x < 3)%Z) by (rewrite Zlt_Qlt; change (inject_Z 3) with 3; lra).
    lia.
Qed.

(** X16. The helper without a ticket fee.  When the ticket carries no fee,
    [calculateAfterFeeOddsForHelper] reports 'unavailable' and no odds
    with estimation disabled; with estimation enabled and a price in (0,1)
    it estimates the taker fee of a single contract, which is one cent when
    [7 * price * (1 - price) <= 1] and two cents otherwise, and returns the
    odds of [calculateAfterFeeOdds] for that fee (exact arithmetic). *)
Theorem calculateAfterFeeOddsForHelper_without_ticket_fee :
  forall (price : Q) (side : string) (ticketData : option (TicketData Q)),
    (forall t, ticketData = Some t -> fee t = None) ->
    (helper_feeSource (calculateAfterFeeOddsForHelper false price side ticketData)
       = "unavailable"%string /\
     helper_afterFeeOdds (calculateAfterFeeOddsForHelper false price side ticketData) = None)
    /\
    (0 < price -> price < 1 ->
     exists feePerContract : Q,
       let result := calculateAfterFeeOddsForHelper true price side ticketData in
       helper_feeSource result = "estimated"%string /\
       helper_feePerContract result = Some feePerContract /\
       helper_quantity result = Some 1 /\
       (7 * price * (1 - price) <= 1 -> feePerContract == 0.01) /\
       (1 < 7 * price * (1 - price) -> feePerContract == 0.02) /\
       helper_afterFeeOdds result = calculateAfterFeeOdds price feePerContract default_options).
Proof.
  intros price side ticketData Hnofee.
  assert (Hticket : helperFeeFromTicket ticketData = (None, "unknown"%string, 1)).
  { unfold helperFeeFromTicket. destruct ticketData as [t|]; [|reflexivity].
    rewrite (Hnofee t eq_refl). reflexivity. }
  unfold calculateAfterFeeOddsForHelper. rewrite Hticket.
  split; [split; reflexivity|].
  intros H0 H1.
  destruct (taker_fee_single_contract H0 H1) as (e & He & Hlow & Hhigh).
  change (of_Z 1) with (1 : Q). rewrite He.
  exists (est_perContractFee e). cbn zeta.
  cbn [helper_feeSource helper_feePerContract helper_quantity helper_afterFeeOdds].
  repeat split; assumption.
Qed.

(** No ticket data and the price 0.40: 7 * 0.4 * 0.6 = 1.68, two cents. *)
Lemma calculateAfterFeeOddsForHelper_without_ticket_fee_witness :
  helper_feeSource (calculateAfterFeeOddsForHelper false 0.4%Q "YES" None)
    = "unavailable"%string /\
  helper_afterFeeOdds (calculateAfterFeeOddsForHelper false 0.4%Q "YES" None) = None.
Proof.
  apply (@calculateAfterFeeOddsForHelper_without_ticket_fee 0.4 "YES" None).
  intros t Ht. discriminate.
Defined.

(** ** Placing the helper panel *)

Section Overlap.

Context {num : Type} `{JSNumber num}.

(** [rectsOverlap] does not depend on the order of its arguments
    (every number instance). *)
Lemma rectsOverlap_symmetric :
  forall rect1 rect2 : Rect num, rectsOverlap rect1 rect2 = rectsOverlap rect2 rect1.
Proof.
  intros rect1 rect2. unfold rectsOverlap.
  destruct (ltb (rect_right rect1) (rect_left rect2));
  destruct (ltb (rect_right rect2) (rect_left rect1));
  destruct (ltb (rect_bottom rect1) (rect_top rect2));
  destruct (ltb (rect_bottom rect2) (rect_top rect1)); reflexivity.
Qed.

End Overlap.

Lemma Math_max_spec (a b : Q) :
  a <= Math_max a b /\ b <= Math_max a b /\ (Math_max a b == a \/ Math_max a b == b).
Proof.
  unfold Math_max. exact_ops.
  destruct (Exact.ltb a b) eqn:E1; [|destruct (Exact.ltb b a) eqn:E2;
    [|destruct (Exact.ltb (1 / a) 0) eqn:E3]]; exact_props;
  repeat split; try lra; first [left; lra | right; lra].
Qed.

Lemma Math_min_spec (a b : Q) :
  Math_min a b <= a /\ Math_min a b <= b /\ (Math_min a b == a \/ Math_min a b == b).
Proof.
  unfold Math_min. exact_ops.
  destruct (Exact.ltb a b) eqn:E1; [|destruct (Exact.ltb b a) eqn:E2;
    [|destruct (Exact.ltb (1 / a) 0) eqn:E3]]; exact_props;
  repeat split; try lra; first [left; lra | right; lra].
Qed.

Lemma withinViewport_exact (vw vh pw ph : Q) (shift : Q * Q) :
  withinViewport vw vh pw ph shift = true <->
  20 <= fst shift /\ fst shift + pw <= vw - 20 /\
  20 <= snd shift /\ snd shift + ph <= vh - 20.
Proof.
  unfold withinViewport. exact_ops.
  rewrite !andb_true_iff, !Qle_bool_iff. tauto.
Qed.

Lemma rectsOverlap_false (a b : Rect Q) :
  rect_right a < rect_left b \/ rect_right b < rect_left a \/
  rect_bottom a < rect_top b \/ rect_bottom b < rect_top a ->
  rectsOverlap a b = false.
Proof.
  intros Hsep. unfold rectsOverlap. exact_ops.
  apply negb_false_iff. rewrite !orb_true_iff, !Exact_ltb_true. tauto.
Qed.

Lemma shiftToAvoidOverlap_clears_helper
    (vw vh : Q) (position : Position Q) (e : Rect Q) (pw ph : Q) (shift : Q * Q) :
  shiftToAvoidOverlap vw vh position e pw ph = Some shift ->
  (20 <= fst shift /\ fst shift + pw <= vw - 20 /\
   20 <= snd shift /\ snd shift + ph <= vh - 20) /\
  rectsOverlap (panelRect (fst shift) (snd shift) pw ph) e = false.
Proof.
  intros Hfind.
  unfold shiftToAvoidOverlap in Hfind.
  pose proof (find_some _ _ Hfind) as [Hin Hfit].
  split; [apply withinViewport_exact; exact Hfit|].
  apply rectsOverlap_false. cbn [panelRect rect_left rect_top rect_right rect_bottom].
  cbn [In] in Hin. exact_ops.
  destruct Hin as [Hs | [Hs | [Hs | [Hs | []]]]]; subst shift; cbn [fst snd].
  - right. left. lra.
  - left. lra.
  - right. right. right. lra.
  - right. right. left. lra.
Qed.

(** X17. A shifted position clears the element and stays in the viewport:
    in exact arithmetic, a result [(left, top)] of [shiftToAvoidOverlap]
    keeps the panel at least 20 pixels inside every edge of the viewport,
    and the panel placed there does not overlap the element's rectangle. *)
Theorem shiftToAvoidOverlap_clears :
  forall (viewportWidth viewportHeight : Q) (position : Position Q) (elementRect : Rect Q)
         (panelWidth panelHeight : Q) (shift : Q * Q),
    shiftToAvoidOverlap viewportWidth viewportHeight position elementRect
      panelWidth panelHeight = Some shift ->
    (20 <= fst shift /\ fst shift + panelWidth <= viewportWidth - 20 /\
     20 <= snd shift /\ snd shift + panelHeight <= viewportHeight - 20) /\
    rectsOverlap (panelRect (fst shift) (snd shift) panelWidth panelHeight) elementRect = false.
Proof.
  intros vw vh position e pw ph shift Hfind.
  destruct (@shiftToAvoidOverlap_clears_helper vw vh position e pw ph shift Hfind)
    as [Hinside Hfree].
  split; [exact Hinside | exact Hfree].
Qed.

(** A panel of 320 by 280 at (100, 100) over a button at (150..250,
    150..200) in a viewport of 1280 by 800: shifted right to (260, 100). *)
Lemma shiftToAvoidOverlap_clears_witness :
  rectsOverlap (panelRect (fst (260, 100)) (snd (260, 100)) 320 280)
    {| rect_left := 150; rect_top := 150; rect_right := 250; rect_bottom := 200 |} = false.
Proof.
  refine (proj2 (@shiftToAvoidOverlap_clears 1280 800
            {| pos_left := 100; pos_top := 100; strategy := "right" |}
            {| rect_left := 150; rect_top := 150; rect_right := 250; rect_bottom := 200 |}
            320 280 (260, 100) _)).
  vm_compute. reflexivity.
Defined.

Lemma avoidTicketInterference_cases (vw vh : Q) (position : Position Q)
    (criticalRects : list (Rect Q)) (pw ph : Q) :
  (avoidTicketInterference vw vh position criticalRects pw ph = position /\
   forall e, In e criticalRects ->
     rectsOverlap (panelRect (pos_left position) (pos_top position) pw ph) e = true ->
     shiftToAvoidOverlap vw vh position e pw ph = None)
  \/
  (exists e shift,
     In e criticalRects /\
     rectsOverlap (panelRect (pos_left position) (pos_top position) pw ph) e = true /\
     shiftToAvoidOverlap vw vh position e pw ph = Some shift /\
     avoidTicketInterference vw vh position criticalRects pw ph =
       {| pos_left := fst shift; pos_top := snd shift;
          strategy := (strategy position ++ "-adjusted")%string |}).
Proof.
  induction criticalRects as [|e rest IH]; cbn [avoidTicketInterference].
  - left. split; [reflexivity|]. intros e [].
  - destruct (rectsOverlap (panelRect (pos_left position) (pos_top position) pw ph) e) eqn:Eov.
    + destruct (shiftToAvoidOverlap vw vh position e pw ph) as [shift|] eqn:Eshift.
      * right. exists e, shift. repeat split; try assumption. left. reflexivity.
      * destruct IH as [[Hsame Hnone] | (e' & shift & Hin & Hov & Hshift & Hres)].
        -- left. split; [exact Hsame|]. intros e' [-> | Hin] Hov; [exact Eshift | auto].
        -- right. exists e', shift. repeat split; try assumption. right. exact Hin.
    + destruct IH as [[Hsame Hnone] | (e' & shift & Hin & Hov & Hshift & Hres)].
      * left. split; [exact Hsame|]. intros e' [-> | Hin] Hov; [congruence | auto].
      * right. exists e', shift. repeat split; try assumption. right. exact Hin.
Qed.

(** X18. [avoidTicketInterference] changes the position only to clear an
    element the panel covers: in exact arithmetic, when the panel overlaps
    none of the critical rectangles the position comes back unchanged, and
    otherwise the result is the position itself or, with '-adjusted' added
    to the strategy, a place in the viewport where the panel no longer
    overlaps one of the rectangles it covered. *)
Theorem avoidTicketInterference_result :
  forall (viewportWidth viewportHeight : Q) (position : Position Q)
         (criticalRects : list (Rect Q)) (panelWidth panelHeight : Q),
    let result :=
      avoidTicketInterference viewportWidth viewportHeight position criticalRects
        panelWidth panelHeight in
    let covers p e :=
      rectsOverlap (panelRect (pos_left p) (pos_top p) panelWidth panelHeight) e in
    ((forall e, In e criticalRects -> covers position e = false) -> result = position) /\
    (result = position \/
     (strategy result = (strategy position ++ "-adjusted")%string /\
      20 <= pos_left result /\ pos_left result + panelWidth <= viewportWidth - 20 /\
      20 <= pos_top result /\ pos_top result + panelHeight <= viewportHeight - 20 /\
      exists e, In e criticalRects /\ covers position e = true /\ covers result e = false)).
Proof.
  intros vw vh position rects pw ph result covers. unfold result, covers.
  destruct (avoidTicketInterference_cases vw vh position rects pw ph)
    as [[Hsame Hnone] | (e & shift & Hin & Hov & Hshift & Hres)].
  - split; [intros _; exact Hsame | left; exact Hsame].
  - split.
    + intros Hclear. rewrite (Hclear e Hin) in Hov. discriminate.
    + right. rewrite Hres. cbn [strategy pos_left pos_top].
      destruct (@shiftToAvoidOverlap_clears_helper _ _ _ _ _ _ _ Hshift) as [(H1 & H2 & H3 & H4) Hfree].
      split; [reflexivity|]. repeat (split; [assumption|]).
      exists e. repeat split; assumption.
Qed.

Lemma clamp_to_viewport (x lo hi : Q) :
  lo <= Math_max lo (Math_min x hi) /\ (lo <= hi -> Math_max lo (Math_min x hi) <= hi).
Proof.
  destruct (Math_max_spec lo (Math_min x hi)) as (H1 & H2 & H3).
  destruct (Math_min_spec x hi) as (H4 & H5 & H6).
  split; [exact H1|]. intros Hlh. destruct H3 as [H3 | H3]; rewrite H3; lra.
Qed.

Lemma initialPosition_in_viewport (vw vh : Q) (ticketRect : Rect Q) :
  20 <= pos_left (initialPosition vw vh ticketRect) /\
  20 <= pos_top (initialPosition vw vh ticketRect) /\
  (360 <= vw -> pos_left (initialPosition vw vh ticketRect) + 320 <= vw - 20) /\
  (320 <= vh -> pos_top (initialPosition vw vh ticketRect) + 280 <= vh - 20).
Proof.
  unfold initialPosition. cbn [pos_left pos_top]. exact_ops.
  match goal with
  | |- context [Math_max 20 (Math_min ?x (vw - 320 - 20))] =>
      destruct (clamp_to_viewport x 20 (vw - 320 - 20)) as [L1 L2]
  end.
  match goal with
  | |- context [Math_max 20 (Math_min ?y (vh - 280 - 20))] =>
      destruct (clamp_to_viewport y 20 (vh - 280 - 20)) as [T1 T2]
  end.
  split; [exact L1|]. split; [exact T1|].
  split; intros Hbig; [assert (B := L2) | assert (B := T2)]; lra.
Qed.

(** X19. The helper panel is placed inside the viewport: in exact
    arithmetic the position [positionHelperPanel] writes, less the scroll
    offsets, is at least 20 pixels from the left and top edges, and when
    the viewport is at least 360 wide (320 high) the panel of 320 by 280
    also ends at least 20 pixels before the right (bottom) edge. *)
Theorem positionHelperPanel_in_viewport :
  forall (viewportWidth viewportHeight scrollLeft scrollTop : Q) (ticketRect : Rect Q)
         (criticalRects : list (Rect Q)),
    let position :=
      positionHelperPanel viewportWidth viewportHeight scrollLeft scrollTop
        ticketRect criticalRects in
    20 <= pos_left position - scrollLeft /\
    20 <= pos_top position - scrollTop /\
    (360 <= viewportWidth -> pos_left position - scrollLeft + 320 <= viewportWidth - 20) /\
    (320 <= viewportHeight -> pos_top position - scrollTop + 280 <= viewportHeight - 20).
Proof.
  intros vw vh sl st ticketRect rects position. unfold position, positionHelperPanel.
  cbn [pos_left pos_top]. exact_ops.
  destruct (initialPosition_in_viewport vw vh ticketRect) as (I1 & I2 & I3 & I4).
  destruct (avoidTicketInterference_cases vw vh (initialPosition vw vh ticketRect) rects 320 280)
    as [[Hsame _] | (e & shift & _ & _ & Hshift & Hres)].
  - rewrite Hsame.
    set (l := pos_left (initialPosition vw vh ticketRect)) in *.
    set (t := pos_top (initialPosition vw vh ticketRect)) in *.
    split; [lra|]. split; [lra|].
    split; intros Hbig; [specialize (I3 Hbig) | specialize (I4 Hbig)]; lra.
  - rewrite Hres. cbn [pos_left pos_top].
    destruct (@shiftToAvoidOverlap_clears_helper _ _ _ _ _ _ _ Hshift) as [(H1 & H2 & H3 & H4) _].
    split; [lra|]. split; [lra|]. split; intros Hbig; lra.
Qed.

Lemma highestZIndex_bounds (elementZIndexes : list string) :
  forall maxZIndex : Q,
    maxZIndex <= highestZIndex maxZIndex elementZIndexes /\
    forall style, In style elementZIndexes ->
      zIndexOf (num := Q) style <= highestZIndex maxZIndex elementZIndexes.
Proof.
  induction elementZIndexes as [|style rest IH]; intros maxZIndex; cbn [highestZIndex].
  - split; [lra | intros style []].
  - exact_ops.
    destruct (Exact.ltb maxZIndex (zIndexOf style)) eqn:E; exact_props;
      match goal with
      | |- context [highestZIndex ?m rest] => destruct (IH m) as [Hm Hrest]
      end.
    + split; [lra|]. intros style' [<- | Hin]; [exact Hm | apply Hrest; exact Hin].
    + split; [exact Hm|]. intros style' [<- | Hin]; [lra | apply Hrest; exact Hin].
Qed.

(** X20. The z-index of the helper panel: in exact arithmetic
    [getSafeZIndex] lies between 10000 and 999999, and it is above the
    z-index of the ticket and of each of its elements whose z-index is
    below 999999. *)
Theorem getSafeZIndex_range :
  forall (ticketZIndex : string) (elementZIndexes : list string),
    let safe : Q := getSafeZIndex ticketZIndex elementZIndexes in
    10000 <= safe /\ safe <= 999999 /\
    forall style, In style (ticketZIndex :: elementZIndexes) ->
      zIndexOf style < 999999 -> zIndexOf style < safe.
Proof.
  intros ticketZIndex elementZIndexes safe. unfold safe, getSafeZIndex. exact_ops.
  destruct (highestZIndex_bounds elementZIndexes 9999) as [Hm Hall].
  set (m := highestZIndex 9999 elementZIndexes) in *.
  set (t := zIndexOf ticketZIndex : Q).
  destruct (Math_max_spec (m + 1) (t + 1)) as (A1 & A2 & _).
  set (a := Math_max (m + 1) (t + 1)) in *.
  destruct (Math_max_spec a 10000) as (B1 & B2 & B3).
  set (b := Math_max a 10000) in *.
  destruct (Math_min_spec b 999999) as (C1 & C2 & C3).
  set (c := Math_min b 999999) in *.
  split; [destruct C3 as [C3 | C3]; rewrite C3; lra|].
  split; [exact C2|].
  intros style [<- | Hin] Hlow.
  - fold t in Hlow |- *. destruct C3 as [C3 | C3]; rewrite C3; lra.
  - specialize (Hall style Hin).
    destruct C3 as [C3 | C3]; rewrite C3; lra.
Qed.

(** ** Ticket lifecycle *)

(** X21. After a run of [processOrderTicket] the state mirrors what was
    detected: the ticket is open exactly when one was found, the stored
    hash is the hash of the ticket found, a ticket that was open and is
    gone leaves the closed state, and without a ticket in a closed state
    nothing changes. *)
Theorem processOrderTicket_tracks :
  forall (st : TicketState) (currentTicket : option Node),
    let st' := fst (processOrderTicket st currentTicket) in
    (isOpen st' = match currentTicket with Some _ => true | None => false end) /\
    (forall ticket, currentTicket = Some ticket ->
       lastTicketHash st' = Some (generateTicketHash ticket)) /\
    (currentTicket = None -> isOpen st = true -> st' = onTicketClosed) /\
    (currentTicket = None -> isOpen st = false -> st' = st).
Proof.
  intros st currentTicket st'. unfold st', processOrderTicket.
  destruct currentTicket as [ticket|]; destruct (isOpen st) eqn:Eopen; cbn [fst].
  - destruct (hash_differs (generateTicketHash ticket) (lastTicketHash st)) eqn:Ediff; cbn [fst].
    + cbn [onTicketContentChanged isOpen lastTicketHash].
      split; [exact Eopen|]. split; [|split; discriminate].
      intros t Ht. inversion Ht. reflexivity.
    + split; [exact Eopen|]. split; [|split; discriminate].
      intros t Ht. inversion Ht. subst t.
      unfold hash_differs in Ediff.
      destruct (lastTicketHash st) as [h|]; [|discriminate].
      apply negb_false_iff in Ediff. apply String.eqb_eq in Ediff. congruence.
  - cbn [onTicketOpened isOpen lastTicketHash].
    split; [reflexivity|]. split; [|split; discriminate].
    intros t Ht. inversion Ht. reflexivity.
  - split; [reflexivity|]. split; [discriminate|]. split; [reflexivity | discriminate].
  - split; [exact Eopen|]. split; [discriminate|]. split; [discriminate | reflexivity].
Qed.

(** X22. [processOrderTicket] settles at once: a second run with the same
    detection result changes nothing and runs no handler. *)
Theorem processOrderTicket_idempotent :
  forall (st : TicketState) (currentTicket : option Node),
    processOrderTicket (fst (processOrderTicket st currentTicket)) currentTicket
    = (fst (processOrderTicket st currentTicket), NoTransition).
Proof.
  intros st currentTicket.
  assert (Hsame : forall ticket,
            hash_differs (generateTicketHash ticket) (Some (generateTicketHash ticket)) = false).
  { intros ticket. unfold hash_differs. rewrite String.eqb_refl. reflexivity. }
  unfold processOrderTicket at 2 3.
  destruct currentTicket as [ticket|]; destruct (isOpen st) eqn:Eopen; cbn [fst].
  - destruct (hash_differs (generateTicketHash ticket) (lastTicketHash st)) eqn:Ediff; cbn [fst].
    + unfold processOrderTicket.
      cbn [onTicketContentChanged isOpen lastTicketHash]. rewrite Eopen, Hsame. reflexivity.
    + unfold processOrderTicket. rewrite Eopen, Ediff. reflexivity.
  - unfold processOrderTicket. cbn [onTicketOpened isOpen lastTicketHash].
    rewrite Hsame. reflexivity.
  - reflexivity.
  - unfold processOrderTicket. rewrite Eopen. reflexivity.
Qed.

(** ** Fallback detection state *)

Section DetectionHistory.

Context {num : Type} `{JSNumber num}.

Lemma afterDetections_snoc (detections : list (DetectionResult num)) (d : DetectionResult num) :
  afterDetections (detections ++ [d]) =
  updateFallbackDetectionState (afterDetections detections) d.
Proof. unfold afterDetections. rewrite fold_left_app. reflexivity. Qed.

Lemma tl_skipn {A} (l : list A) : tl l = skipn 1 l.
Proof. destruct l; reflexivity. Qed.

Lemma history_recent (detections : list (DetectionResult num)) :
  fallbackDetectionHistory (afterDetections detections) =
  skipn (List.length detections - 20) (map historyEntry detections).
Proof.
  induction detections as [|d detections IH] using rev_ind.
  - reflexivity.
  - rewrite afterDetections_snoc. unfold updateFallbackDetectionState.
    cbn [fallbackDetectionHistory]. rewrite IH.
    rewrite map_app, List.length_app. cbn [map List.length].
    set (n := List.length detections).
    set (entries := map historyEntry detections).
    assert (Hlen : List.length entries = n) by (unfold entries; apply List.length_map).
    rewrite List.length_app, List.length_skipn, Hlen. cbn [List.length].
    assert (Happ : (skipn (n - 20) entries ++ [historyEntry d])%list =
                   skipn (n - 20) (entries ++ [historyEntry d])).
    { rewrite skipn_app, Hlen. replace (n - 20 - n)%nat with 0%nat by lia. reflexivity. }
    destruct (20 <? n - (n - 20) + 1)%nat eqn:E.
    + apply Nat.ltb_lt in E.
      rewrite tl_skipn, Happ, skipn_skipn. f_equal. lia.
    + apply Nat.ltb_ge in E. rewrite Happ. f_equal. lia.
Qed.

Lemma detection_counters (detections : list (DetectionResult num)) :
  fallbackUsageCount (afterDetections detections) =
    List.length (filter (@det_isUsingFallback num) detections) /\
  ticketFeeFailureCount (afterDetections detections) =
    List.length (filter (@det_ticketFeeParsingFailed num) detections).
Proof.
  induction detections as [|d detections [IH1 IH2]] using rev_ind.
  - split; reflexivity.
  - rewrite afterDetections_snoc. unfold updateFallbackDetectionState.
    cbn [fallbackUsageCount ticketFeeFailureCount].
    rewrite !filter_app, !List.length_app, IH1, IH2. cbn [filter].
    destruct (det_isUsingFallback d); destruct (det_ticketFeeParsingFailed d);
      cbn [List.length]; split; lia.
Qed.

Lemma addReason_In (reasons : list string) (reason x : string) :
  In x (addReason reasons reason) <-> In x reasons \/ x = reason.
Proof.
  unfold addReason.
  destruct (existsb (String.eqb reason) reasons) eqn:E.
  - apply existsb_exists in E. destruct E as (y & Hy & Heq).
    apply String.eqb_eq in Heq. subst y.
    split; [left; assumption | intros [Hin | ->]; assumption].
  - rewrite in_app_iff. cbn [In]. split.
    + intros [Hin | [Heq | []]]; [left; assumption | right; symmetry; assumption].
    + intros [Hin | ->]; [left; assumption | right; left; reflexivity].
Qed.

Lemma addReason_NoDup (reasons : list string) (reason : string) :
  NoDup reasons -> NoDup (addReason reasons reason).
Proof.
  intros Hnd. unfold addReason.
  destruct (existsb (String.eqb reason) reasons) eqn:E; [exact Hnd|].
  apply NoDup_app; [exact Hnd | repeat constructor; intros [] |].
  intros x Hx [<- | []].
  assert (Hex : existsb (String.eqb reason) reasons = true).
  { apply existsb_exists. exists reason. split; [exact Hx | apply String.eqb_refl]. }
  congruence.
Qed.

Lemma addReasons_In (added : list string) :
  forall (reasons : list string) (x : string),
    In x (fold_left addReason added reasons) <-> In x reasons \/ In x added.
Proof.
  induction added as [|reason added IH]; intros reasons x; cbn [fold_left In].
  - tauto.
  - rewrite IH, addReason_In. split.
    + intros [[Hin | ->] | Hin]; auto.
    + intros [Hin | [-> | Hin]]; auto.
Qed.

Lemma addReasons_NoDup (added : list string) :
  forall reasons : list string, NoDup reasons -> NoDup (fold_left addReason added reasons).
Proof.
  induction added as [|reason added IH]; intros reasons Hnd; cbn [fold_left].
  - exact Hnd.
  - apply IH. apply addReason_NoDup. exact Hnd.
Qed.

Lemma detection_reasons (detections : list (DetectionResult num)) :
  NoDup (fallbackReasons (afterDetections detections)) /\
  forall reason : string,
    In reason (fallbackReasons (afterDetections detections)) <->
    exists d, In d detections /\ det_isUsingFallback d = true /\ In reason (det_reasons d).
Proof.
  induction detections as [|d detections [IHnd IHin]] using rev_ind.
  - split; [constructor|]. intros reason. cbn. split; [intros [] | intros (d & [] & _)].
  - rewrite afterDetections_snoc. unfold updateFallbackDetectionState.
    cbn [fallbackReasons].
    destruct (det_isUsingFallback d) eqn:Eusing.
    + split; [apply addReasons_NoDup; exact IHnd|].
      intros reason. rewrite addReasons_In, IHin. split.
      * intros [(d' & Hin & Hu & Hr) | Hr].
        -- exists d'. rewrite in_app_iff. auto.
        -- exists d. rewrite in_app_iff. cbn [In]. auto.
      * intros (d' & Hin & Hu & Hr). apply in_app_iff in Hin.
        destruct Hin as [Hin | [<- | []]]; [left; exists d'; auto | right; exact Hr].
    + split; [exact IHnd|].
      intros reason. rewrite IHin. split.
      * intros (d' & Hin & Hu & Hr). exists d'. rewrite in_app_iff. auto.
      * intros (d' & Hin & Hu & Hr). apply in_app_iff in Hin.
        destruct Hin as [Hin | [<- | []]]; [exists d'; auto | congruence].
Qed.

End DetectionHistory.

(** X23. The detection history keeps the last twenty detections: after any
    series of detections from the initial state, [fallbackDetectionHistory]
    holds the entries of the most recent twenty in order (all of them when
    there are fewer), and the two counters count the detections that used
    the fallback and those whose ticket fee parsing failed (every number
    instance). *)
Theorem updateFallbackDetectionState_history :
  forall (num : Type) (N : JSNumber num) (detections : list (DetectionResult num)),
    let state := afterDetections detections in
    fallbackDetectionHistory state =
      skipn (List.length detections - 20) (map historyEntry detections) /\
    List.length (fallbackDetectionHistory state) = Nat.min (List.length detections) 20 /\
    fallbackUsageCount state = List.length (filter (@det_isUsingFallback num) detections) /\
    ticketFeeFailureCount state =
      List.length (filter (@det_ticketFeeParsingFailed num) detections).
Proof.
  intros num N detections state. unfold state.
  destruct (detection_counters detections) as [Husage Hfail].
  split; [apply history_recent|].
  split; [|split; assumption].
  rewrite history_recent, List.length_skipn, List.length_map. lia.
Qed.

(** X24. The collected fallback reasons are kept unique: after any series
    of detections from the initial state, [fallbackReasons] has no
    duplicate and holds exactly the reasons of the detections that used the
    fallback (every number instance). *)
Theorem updateFallbackDetectionState_reasons :
  forall (num : Type) (N : JSNumber num) (detections : list (DetectionResult num)),
    NoDup (fallbackReasons (afterDetections detections)) /\
    forall reason : string,
      In reason (fallbackReasons (afterDetections detections)) <->
      exists d, In d detections /\ det_isUsingFallback d = true /\ In reason (det_reasons d).
Proof.
  intros num N detections.
  destruct (detection_reasons detections) as [Hnd Hin].
  split; [exact Hnd | exact Hin].
Qed.

(** ** Fee availability *)

(** X25. Fee changes are reported once: calling
    [detectFeeAvailabilityChange] again with the same ticket data reports
    no change and leaves the tracking state as it is; and the first call
    after the tracking state was reset reports a change for any ticket data
    (every number instance). *)
Theorem detectFeeAvailabilityChange_settles :
  forall (num : Type) (N : JSNumber num) (tracking : FeeTracking) (ticketData : TicketData num),
    let tracking' := fst (detectFeeAvailabilityChange tracking (Some ticketData)) in
    detectFeeAvailabilityChange tracking' (Some ticketData) = (tracking', None) /\
    exists change,
      snd (detectFeeAvailabilityChange initialFeeTracking (Some ticketData)) = Some change /\
      feeAvailabilityChanged change = true.
Proof.
  intros num N tracking ticketData tracking'. unfold tracking'.
  unfold detectFeeAvailabilityChange. cbn [fst snd lastFeeSource lastFeeAvailability initialFeeTracking].
  split.
  - assert (Hs : forall a, differs_string a a = false).
    { intros [x|]; [cbn; rewrite String.eqb_refl|]; reflexivity. }
    rewrite Hs, Bool.eqb_reflx. reflexivity.
  - rewrite orb_true_r. eexists. split; reflexivity.
Qed.

(** ** Reading text *)

Lemma digit_char (c : ascii) :
  Text.isDigit c = true -> exists k : nat, (k < 10)%nat /\ c = ascii_of_nat (48 + k).
Proof.
  unfold Text.isDigit, Parse.digit.
  destruct ((48 <=? nat_of_ascii c)%nat && (nat_of_ascii c <=? 57)%nat) eqn:E; [|discriminate].
  intros _. apply andb_true_iff in E. destruct E as [Hlo Hhi].
  apply Nat.leb_le in Hlo. apply Nat.leb_le in Hhi.
  exists (nat_of_ascii c - 48)%nat. split; [lia|].
  replace (48 + (nat_of_ascii c - 48))%nat with (nat_of_ascii c) by lia.
  symmetry. apply ascii_nat_embedding.
Qed.

Lemma below_ten (k : nat) : (k < 10)%nat -> In k [0; 1; 2; 3; 4; 5; 6; 7; 8; 9]%nat.
Proof.
  intros Hk. do 10 (destruct k as [|k]; [cbn; tauto|]). lia.
Qed.

(** Split a goal about a digit [k < 10] into its ten cases. *)
Ltac each_digit Hk :=
  apply below_ten in Hk; cbn [In] in Hk;
  repeat (destruct Hk as [<- | Hk]); [.. | destruct Hk].

Lemma percentTexts_read :
  all_from percentText_reads 0 101 = true.
Proof. vm_compute. reflexivity. Qed.

Lemma matchesPercent_sound (s : string) :
  Text.matchesPercent s = true -> exists n : Z, (0 <= n <= 100)%Z /\ s = percentText n.
Proof.
  unfold Text.matchesPercent. intros Hm. apply orb_true_iff in Hm.
  destruct Hm as [Hm | Hm].
  - apply String.eqb_eq in Hm. exists 100%Z. split; [lia | exact Hm].
  - destruct s as [|d1 [|d2 [|d3 [|d4 s]]]]; try discriminate.
    + apply andb_true_iff in Hm. destruct Hm as [Hd Hp].
      apply Ascii.eqb_eq in Hp. subst d2.
      destruct (digit_char _ Hd) as (k & Hk & ->).
      exists (Z.of_nat k). split; [lia|].
      each_digit Hk; reflexivity.
    + repeat (apply andb_true_iff in Hm; destruct Hm as [Hm ?]).
      match goal with Hp : Ascii.eqb d3 _ = true |- _ => apply Ascii.eqb_eq in Hp; subst d3 end.
      match goal with Hd : Text.isDigit d2 = true |- _ =>
        destruct (digit_char _ Hd) as (k2 & Hk2 & ->) end.
      destruct (digit_char _ Hm) as (k1 & Hk1 & ->).
      exists (10 * Z.of_nat k1 + Z.of_nat k2)%Z.
      split; [lia|].
      each_digit Hk1; try discriminate; each_digit Hk2; reflexivity.
Qed.

(** X26. The percentage pattern: [isProbabilityText] accepts exactly the
    texts that, once trimmed, are one of 0%, 1%, ..., 100% written without
    a leading zero. *)
Theorem isProbabilityText_exact :
  forall text : string,
    isProbabilityText text = true <->
    exists n : Z, (0 <= n <= 100)%Z /\ DOM.trim text = percentText n.
Proof.
  intros text. unfold isProbabilityText. split.
  - destruct (String.eqb text ""); [discriminate|]. apply matchesPercent_sound.
  - intros (n & Hn & Htrim).
    assert (Hreads : percentText_reads n = true).
    { apply (@all_from_spec _ _ _ percentTexts_read). lia. }
    unfold percentText_reads in Hreads.
    apply andb_true_iff in Hreads. destruct Hreads as [Hreads _].
    apply andb_true_iff in Hreads. destruct Hreads as [Hmatch _].
    destruct (String.eqb text "") eqn:E.
    + apply String.eqb_eq in E. subst text. cbn in Htrim.
      unfold percentText in Htrim. destruct (Hash.toString n); discriminate.
    + rewrite Htrim. exact Hmatch.
Qed.

Lemma processProbabilityTextNode_percent {num : Type} `{JSNumber num} (n : Z) :
  (0 <= n <= 100)%Z ->
  processProbabilityTextNode (num := num) (percentText n) =
  if (leb (of_Z 0) (of_Z n) && leb (of_Z n) (of_Z 100))%bool
  then Some (div (of_Z n) (of_Z 100), PercentMatch)
  else None.
Proof.
  intros Hn.
  assert (Hreads : percentText_reads n = true).
  { apply (@all_from_spec _ _ _ percentTexts_read). lia. }
  unfold percentText_reads in Hreads.
  apply andb_true_iff in Hreads. destruct Hreads as [Hreads Hparse].
  apply andb_true_iff in Hreads. destruct Hreads as [Hmatch Htrim].
  apply String.eqb_eq in Htrim.
  unfold processProbabilityTextNode. rewrite Htrim, Hmatch.
  destruct (String.eqb (percentText n) "") eqn:E.
  { apply String.eqb_eq in E. unfold percentText in E.
    destruct (Hash.toString n); discriminate. }
  destruct (Parse.parseInt (Text.removeFirst "%" (percentText n))) as [z|]; [|discriminate].
  apply Z.eqb_eq in Hparse. subst z. reflexivity.
Qed.

Lemma percent_binary64_checked :
  all_from percent_binary64 0 101 = true.
Proof. vm_compute. reflexivity. Qed.

(** X27. Odds next to a percentage: for n from 0 to 100 the odds computed
    for the text n% are [probabilityToAmericanOdds(n / 100)], and there are
    odds exactly when n is neither 0 nor 100, on binary64 and in exact
    arithmetic alike. *)
Theorem oddsForText_percent :
  forall n : Z,
    (0 <= n <= 100)%Z ->
    (oddsForText (percentText n) = probabilityToAmericanOdds (F64.of_Z n / 100)%float /\
     (oddsForText (num := float) (percentText n) = None <-> n = 0%Z \/ n = 100%Z))
    /\
    (oddsForText (percentText n) = probabilityToAmericanOdds (inject_Z n / 100) /\
     (oddsForText (num := Q) (percentText n) = None <-> n = 0%Z \/ n = 100%Z)).
Proof.
  intros n Hn. split.
  - assert (Hc : percent_binary64 n = true).
    { apply (@all_from_spec _ _ _ percent_binary64_checked). lia. }
    unfold percent_binary64 in Hc.
    apply andb_true_iff in Hc. destruct Hc as [Hrange Hodds].
    assert (Hnode : processProbabilityTextNode (num := float) (percentText n) =
                    Some (F64.of_Z n / 100, PercentMatch)%float).
    { rewrite (processProbabilityTextNode_percent (num := float) Hn).
      cbn [leb of_Z div float_JSNumber].
      change (F64.of_Z 0) with 0%float. change (F64.of_Z 100) with 100%float.
      rewrite Hrange. reflexivity. }
    unfold oddsForText. rewrite Hnode. split; [reflexivity|].
    apply Bool.eqb_prop in Hodds.
    destruct (probabilityToAmericanOdds (F64.of_Z n / 100)%float).
    + symmetry in Hodds. apply andb_true_iff in Hodds. destruct Hodds as [H0 H1].
      apply Z.ltb_lt in H0. apply Z.ltb_lt in H1.
      split; [discriminate | lia].
    + symmetry in Hodds. apply andb_false_iff in Hodds.
      split; [|reflexivity]. intros _.
      destruct Hodds as [H0 | H1]; [apply Z.ltb_ge in H0 | apply Z.ltb_ge in H1]; lia.
  - assert (Hq0 : 0 <= inject_Z n) by (change 0 with (inject_Z 0); rewrite <- Zle_Qle; lia).
    assert (Hq1 : inject_Z n <= 100) by (change 100 with (inject_Z 100); rewrite <- Zle_Qle; lia).
    assert (Hnode : processProbabilityTextNode (num := Q) (percentText n) =
                    Some (inject_Z n / 100, PercentMatch)).
    { rewrite (processProbabilityTextNode_percent (num := Q) Hn).
      cbn [leb of_Z div Q_JSNumber].
      change (0 # 1) with 0. change (100 # 1) with 100. change (n # 1) with (inject_Z n).
      assert (E1 : Qle_bool 0 (inject_Z n) = true) by (apply Qle_bool_iff; exact Hq0).
      assert (E2 : Qle_bool (inject_Z n) 100 = true) by (apply Qle_bool_iff; exact Hq1).
      rewrite E1, E2. reflexivity. }
    unfold oddsForText. rewrite Hnode. split; [reflexivity|].
    set (c := inject_Z n) in *.
    assert (Hs : c / 100 == c * (1 # 100)) by field.
    split.
    + intros Hnone.
      destruct (Z.eq_dec n 0) as [-> | Hn0]; [left; reflexivity|].
      destruct (Z.eq_dec n 100) as [-> | Hn100]; [right; reflexivity|].
      exfalso.
      assert (H0 : 0 < c).
      { unfold c. change 0 with (inject_Z 0). rewrite <- Zlt_Qlt. lia. }
      assert (H1 : c < 100).
      { unfold c. change 100 with (inject_Z 100). rewrite <- Zlt_Qlt. lia. }
      rewrite probabilityToAmericanOdds_inside in Hnone by (rewrite Hs; lra).
      discriminate.
    + intros [-> | ->]; vm_compute; reflexivity.
Qed.

(** The text 35%: +186. *)
Lemma oddsForText_percent_witness :
  oddsForText (percentText 35) = probabilityToAmericanOdds (F64.of_Z 35 / 100)%float.
Proof.
  apply (@oddsForText_percent 35). lia.
Defined.

(** ** Order side from text *)

(** YES wins over NO: [extractSideFromText] reads a non-empty text
    as YES whenever its trimmed upper case is Y or contains YES, even if it
    contains NO too; otherwise as NO whenever that is N or contains NO
    anywhere, inside a word as well; and otherwise as nothing. *)
Lemma extractSideFromText_precedence :
  forall text : string,
    text <> ""%string ->
    let normalizedText := Text.toUpperCase (DOM.trim text) in
    let saysYes :=
      String.eqb normalizedText "Y" || DOM.contains "YES" normalizedText in
    let saysNo :=
      String.eqb normalizedText "N" || DOM.contains "NO" normalizedText in
    extractSideFromText (Some text) =
      if saysYes then Some "YES"%string
      else if saysNo then Some "NO"%string
      else None.
Proof.
  intros text Hne normalizedText saysYes saysNo.
  unfold extractSideFromText.
  destruct (String.eqb text "") eqn:E; [apply String.eqb_eq in E; contradiction|].
  fold normalizedText. unfold saysYes, saysNo.
  destruct (String.eqb normalizedText "YES") eqn:E1.
  { apply String.eqb_eq in E1. rewrite E1. reflexivity. }
  destruct (String.eqb normalizedText "Y") eqn:E2; [reflexivity|].
  destruct (String.eqb normalizedText "NO") eqn:E3.
  { apply String.eqb_eq in E3. rewrite E3. reflexivity. }
  destruct (String.eqb normalizedText "N") eqn:E4.
  { apply String.eqb_eq in E4. rewrite E4. reflexivity. }
  cbn [orb].
  destruct (DOM.contains "YES" normalizedText); [reflexivity|].
  destruct (DOM.contains "NO" normalizedText); reflexivity.
Qed.

(** The text 'Not now, yes.' is read as YES. *)
Lemma extractSideFromText_precedence_witness :
  extractSideFromText (Some "Not now, yes."%string) = Some "YES"%string.
Proof.
  refine (@extractSideFromText_precedence "Not now, yes." _).
  discriminate.
Defined.

(** ** Pages on which the script runs *)

Lemma prefix_append (p s : string) : String.prefix p (p ++ s) = true.
Proof.
  induction p as [|c p IH]; cbn.
  - destruct s; reflexivity.
  - destruct (ascii_dec c c) as [_ | Hne]; [exact IH | contradiction].
Qed.

(** X28. The excluded pages: neither check activates on a path that
    starts with an excluded path, whatever follows it and whatever the host
    (so '/newsletter' and '/apiary' are excluded with '/news' and '/api');
    [shouldActivateExtension] activates only where
    [shouldActivateExtensionEarly] does; and both refuse every host that is
    not localhost and does not contain 'kalshi.com'. *)
Theorem shouldActivateExtension_excluded :
  (forall excludedPath rest hostname : string,
     In excludedPath excludedPaths ->
     shouldActivateExtension (excludedPath ++ rest) hostname = false /\
     (In excludedPath excludedPathsEarly ->
      shouldActivateExtensionEarly (excludedPath ++ rest) hostname = false))
  /\
  (forall pathname hostname : string,
     shouldActivateExtension pathname hostname = true ->
     shouldActivateExtensionEarly pathname hostname = true)
  /\
  (forall pathname hostname : string,
     shouldActivateExtensionEarly pathname hostname = true ->
     DOM.contains "kalshi.com" hostname = true \/ hostname = "localhost"%string).
Proof.
  assert (Hex : forall excluded e rest hostname,
            In e excluded -> activatesWith excluded (e ++ rest) hostname = false).
  { intros excluded e rest hostname Hin. unfold activatesWith.
    assert (E : existsb (fun p => String.prefix p (e ++ rest)) excluded = true).
    { apply existsb_exists. exists e. split; [exact Hin | apply prefix_append]. }
    rewrite E. reflexivity. }
  split; [|split].
  - intros e rest hostname Hin. split; [apply Hex; exact Hin|].
    intros Hearly. apply Hex. exact Hearly.
  - intros pathname hostname. unfold shouldActivateExtension, shouldActivateExtensionEarly,
      activatesWith, excludedPaths. cbn [existsb].
    destruct (String.prefix "/documents" pathname); cbn [orb]; [discriminate|].
    intros Hact. exact Hact.
  - intros pathname hostname. unfold shouldActivateExtensionEarly, activatesWith.
    destruct (existsb _ excludedPathsEarly); [discriminate|].
    destruct (DOM.contains "kalshi.com" hostname); [left; reflexivity|].
    destruct (String.eqb hostname "localhost") eqn:E; cbn [negb andb]; [|discriminate].
    intros _. right. apply String.eqb_eq. exact E.
Qed.

(** ** The odds typed into the helper *)

(** [Literal.nearest] gives the doubles that decimal literals denote,
    ties included. *)
Lemma nearest_binary64_literals :
  (Literal.nearest 1 10, Literal.nearest 45 100, Literal.nearest 1005 1000,
   Literal.nearest 150 1, Literal.nearest 1 3,
   Literal.nearest 9007199254740993 1, Literal.nearest 9007199254740995 1,
   Literal.nearest 5 (10 ^ 324), Literal.nearest (10 ^ 400) 1)
  = (0.1, 0.45, 1.005, 150, 0.3333333333333333,
     9007199254740992, 9007199254740996, 5e-324, infinity)%float.
Proof. vm_compute. reflexivity. Qed.

(** On binary64: signs, white space, decimals, and the two bounds. *)
Lemma parseAmericanOdds_binary64_examples :
  (parseAmericanOdds "+150", parseAmericanOdds " -2 00 ", parseAmericanOdds "100.5",
   parseAmericanOdds "99.99", parseAmericanOdds "100000", parseAmericanOdds "100000.01",
   parseAmericanOdds "1e3", parseAmericanOdds "")
  = (Some 150, Some (-200), Some 100.5, None, Some 100000, None, None, None)%float.
Proof. vm_compute. reflexivity. Qed.

Lemma removeWhiteSpace_noWhiteSpace (s : string) :
  Text.noWhiteSpace (Text.removeWhiteSpace s) = true.
Proof.
  induction s as [|c s IH]; cbn [Text.removeWhiteSpace Text.noWhiteSpace]; [reflexivity|].
  destruct (DOM.isWhiteSpace c) eqn:E; [exact IH|].
  cbn [Text.noWhiteSpace]. rewrite E, IH. reflexivity.
Qed.

Lemma noWhiteSpace_fixed (s : string) :
  Text.noWhiteSpace s = true ->
  Text.removeWhiteSpace s = s /\ DOM.trimStart s = s /\ DOM.trimEnd s = s.
Proof.
  induction s as [|c s IH]; cbn [Text.noWhiteSpace]; intros Hs.
  - repeat split.
  - apply andb_true_iff in Hs. destruct Hs as [Hc Hs].
    apply negb_true_iff in Hc.
    destruct (IH Hs) as (H1 & H2 & H3).
    cbn [Text.removeWhiteSpace DOM.trimStart DOM.trimEnd]. rewrite Hc, H1, H3.
    repeat split. destruct s; reflexivity.
Qed.

Lemma cleanOdds_idempotent (text : string) : cleanOdds (cleanOdds text) = cleanOdds text.
Proof.
  unfold cleanOdds, DOM.trim.
  destruct (noWhiteSpace_fixed _ (removeWhiteSpace_noWhiteSpace text)) as (H1 & H2 & H3).
  rewrite H2, H3, H1, H2, H3. reflexivity.
Qed.

Section Typed.

Context {num : Type} `{JSNumber num} `{JSDecimal num}.

(** Parsing looks at the cleaned text only. *)
Lemma parseAmericanOdds_cleaned (text : string) :
  text <> ""%string -> parseAmericanOdds (cleanOdds text) = parseAmericanOdds text.
Proof.
  intros Hne. unfold parseAmericanOdds at 1 2. rewrite cleanOdds_idempotent.
  destruct (String.eqb text "") eqn:E; [apply String.eqb_eq in E; contradiction|].
  destruct (String.eqb (cleanOdds text) ""); reflexivity.
Qed.

End Typed.

Lemma prefix_single (a c : ascii) (rest : string) :
  String.prefix (String a "") (String c rest) = Ascii.eqb a c.
Proof.
  cbn [String.prefix]. destruct (ascii_dec a c) as [-> | Hne].
  - rewrite Ascii.eqb_refl. destruct rest; reflexivity.
  - symmetry. apply Ascii.eqb_neq. exact Hne.
Qed.

Lemma contains_single (a c : ascii) (s : string) :
  DOM.contains (String a "") (String c s) = Ascii.eqb a c || DOM.contains (String a "") s.
Proof.
  unfold DOM.contains. cbn [String.index]. rewrite prefix_single.
  destruct (Ascii.eqb a c); [reflexivity|]. cbn [orb].
  destruct (String.index 0 (String a "") s); reflexivity.
Qed.

Lemma hasThreeDecimals_point (s : string) :
  Literal.hasThreeDecimals s = true -> DOM.contains "." s = true.
Proof.
  induction s as [|c s IH]; [discriminate|].
  cbn [Literal.hasThreeDecimals]. intros H3. rewrite contains_single.
  apply orb_true_iff in H3. destruct H3 as [H3 | H3].
  - apply andb_true_iff in H3. destruct H3 as [Hc _].
    apply Ascii.eqb_eq in Hc. subst c. reflexivity.
  - rewrite (IH H3). apply orb_true_r.
Qed.

Lemma parseAmericanOdds_inv (text : string) (odds : Q) :
  parseAmericanOdds text = Some odds ->
  exists number : Q,
    100 <= number /\ number <= 100000 /\
    odds = (if String.eqb (fst (Literal.splitSign (cleanOdds text))) "-"
            then - number else number).
Proof.
  unfold parseAmericanOdds.
  destruct (String.eqb text ""); [discriminate|].
  destruct (String.eqb (cleanOdds text) ""); [discriminate|].
  destruct (Literal.splitSign (cleanOdds text)) as [sign numberStr]. cbn [fst].
  destruct (Literal.plainDecimal numberStr) as [[m k]|]; [|discriminate].
  exact_ops. cbn [negb orb].
  set (number := of_decimal m k).
  destruct (Exact.ltb number 100) eqn:E1; [discriminate|].
  destruct (Exact.ltb 100000 number) eqn:E2; [discriminate|].
  exact_props. intros Hres. exists number.
  split; [exact E1|]. split; [exact E2|].
  destruct (String.eqb sign "-"); congruence.
Qed.

(** X29. Typed odds stay in range: in exact arithmetic a result of
    [parseAmericanOdds] is at least 100 and at most 100000 in magnitude,
    and it is negative exactly when the text, white space removed, starts
    with a minus sign. *)
Theorem parseAmericanOdds_bounds :
  forall (text : string) (odds : Q),
    parseAmericanOdds text = Some odds ->
    100 <= Qabs odds /\ Qabs odds <= 100000 /\
    (odds < 0 <-> String.prefix "-" (cleanOdds text) = true).
Proof.
  intros text odds Hres.
  destruct (parseAmericanOdds_inv _ Hres) as (number & Hlo & Hhi & Hodds).
  assert (Hsign : String.eqb (fst (Literal.splitSign (cleanOdds text))) "-"
                  = String.prefix "-" (cleanOdds text)).
  { destruct (cleanOdds text) as [|c rest]; [reflexivity|].
    rewrite prefix_single.
    destruct c as [[] [] [] [] [] [] [] []]; reflexivity. }
  rewrite <- Hsign.
  destruct (String.eqb (fst (Literal.splitSign (cleanOdds text))) "-"); subst odds.
  - rewrite Qabs_opp, Qabs_pos by lra.
    split; [exact Hlo|]. split; [exact Hhi|]. split; [reflexivity | intros _; lra].
  - rewrite Qabs_pos by lra.
    split; [exact Hlo|]. split; [exact Hhi|]. split; [lra | discriminate].
Qed.

(** The text ' -1 50 ' is read as -150. *)
Lemma parseAmericanOdds_bounds_witness :
  100 <= Qabs (- (inject_Z 150 / inject_Z (10 ^ Z.of_nat 0))) /\
  Qabs (- (inject_Z 150 / inject_Z (10 ^ Z.of_nat 0))) <= 100000 /\
  (- (inject_Z 150 / inject_Z (10 ^ Z.of_nat 0)) < 0 <->
   String.prefix "-" (cleanOdds " -1 50 ") = true).
Proof.
  apply (@parseAmericanOdds_bounds " -1 50 "). reflexivity.
Defined.

(** X30. An answer of [validateAmericanOddsInput] is of one of two kinds:
    valid, with no error and with the odds [parseAmericanOdds] reads in the
    text, which then has no percent sign, no third decimal and no leading
    zero; or invalid, with an error and no odds (every number instance). *)
Theorem validateAmericanOddsInput_kinds :
  forall (num : Type) (N : JSNumber num) (D : JSDecimal num) (text : string),
    let answer := validateAmericanOddsInput (num := num) text in
    (input_isValid answer = true /\
     input_error answer = None /\
     (exists odds, parseAmericanOdds text = Some odds /\ input_odds answer = Some odds) /\
     DOM.contains "%" (cleanOdds text) = false /\
     Literal.hasThreeDecimals (cleanOdds text) = false /\
     String.prefix "0" (cleanOdds text) = false)
    \/
    (input_isValid answer = false /\
     input_odds answer = None /\
     input_error answer <> None).
Proof.
  intros num N D text answer. unfold answer, validateAmericanOddsInput.
  destruct (String.eqb text "") eqn:E0; [right; repeat split; first [reflexivity | discriminate]|].
  destruct (String.eqb (cleanOdds text) ""); [right; repeat split; first [reflexivity | discriminate]|].
  destruct (DOM.contains "%" (cleanOdds text)); [right; repeat split; first [reflexivity | discriminate]|].
  destruct (Literal.hasThreeDecimals (cleanOdds text)) eqn:E3.
  { rewrite andb_true_r.
    destruct (DOM.contains "." (cleanOdds text)) eqn:Epoint.
    - right. repeat split; first [reflexivity | discriminate].
    - rewrite (hasThreeDecimals_point _ E3) in Epoint. discriminate. }
  rewrite andb_false_r.
  destruct (String.prefix "0" (cleanOdds text)); [right; repeat split; first [reflexivity | discriminate]|].
  assert (Hne : text <> ""%string) by (intros ->; discriminate).
  rewrite (parseAmericanOdds_cleaned Hne).
  destruct (parseAmericanOdds text) as [odds|].
  - left. cbn [input_isValid input_error input_odds].
    split; [reflexivity|]. split; [reflexivity|].
    split; [exists odds; split; reflexivity|]. repeat split.
  - right.
    destruct (Literal.looseDecimal (snd (Literal.splitSign (cleanOdds text)))) as [parsed|].
    + destruct (match parsed with Some (m, k) => ltb (of_decimal m k) (of_Z 100) | None => false end);
        [repeat split; first [reflexivity | discriminate]|].
      destruct (match parsed with Some (m, k) => ltb (of_Z 100000) (of_decimal m k) | None => false end);
        repeat split; first [reflexivity | discriminate].
    + repeat split; first [reflexivity | discriminate].
Qed.
